(** * Feishu task scripts: a shallow embedding and its verified properties

    The three scripts of the repository ([scripts/bulk_operations.py],
    [scripts/task_manager.py], [scripts/task_notifier.py]) are embedded as
    Rocq functions in a state-and-exception monad.  The remote service, the
    process environment, the clock and the input files are the program's
    collaborators; they are parameters of the embedding, gathered in the
    record [env].  Everything observable that a run does (remote calls,
    [time.sleep], [print]) is appended to a trace. *)

From Stdlib Require Import QArith Ascii.
From stdpp Require Import base option list strings gmap pretty.

Local Open Scope string_scope.
Local Open Scope Z_scope.

(** ** Python values and exceptions *)

(** A raised exception: its class name and [str(e)]. *)
Record exn := Exn { exn_type : string; exn_msg : string }.

(** Outcome of evaluating a Python expression or statement. *)
Inductive res (A : Type) : Type :=
| Ok (a : A)
| Raise (e : exn).
Arguments Ok {A} a.
Arguments Raise {A} e.

(** Values read from a JSON document, as [json.load] builds them. *)
#[local] Unset Elimination Schemes.
Inductive pyval : Type :=
| VNone
| VBool (b : bool)
| VInt (z : Z)
| VStr (s : string)
| VList (l : list pyval)
| VDict (d : list (string * pyval)).
#[local] Set Elimination Schemes.

(** Python truthiness, as used by [if x:] and [x or y]. *)
Definition truthy (v : pyval) : bool :=
  match v with
  | VNone => false
  | VBool b => b
  | VInt z => negb (z =? 0)
  | VStr s => negb (String.eqb s "")
  | VList l => match l with [] => false | _ => true end
  | VDict d => match d with [] => false | _ => true end
  end.

(** Truthiness of an [Optional[str]]: [None] and the empty string are false. *)
Definition str_truthy (o : option string) : bool :=
  match o with
  | Some s => negb (String.eqb s "")
  | None => false
  end.

(** [a or b] on [Optional[str]]. *)
Definition or_else (a b : option string) : option string :=
  if str_truthy a then a else b.

Definition opt_val (o : option string) : pyval :=
  match o with Some s => VStr s | None => VNone end.

(** Lookup in a dict read from JSON.  [json.load] keeps the last binding of
    a repeated key. *)
Fixpoint dict_lookup (d : list (string * pyval)) (k : string) : option pyval :=
  match d with
  | [] => None
  | (k', v) :: d' =>
      match dict_lookup d' k with
      | Some w => Some w
      | None => if decide (k' = k) then Some v else None
      end
  end.

(** [x.get(k, dflt)] for a value [x] read from JSON; anything but a dict has
    no [get] attribute. *)
Definition py_get (x : pyval) (k : string) (dflt : pyval) : res pyval :=
  match x with
  | VDict d => Ok (default dflt (dict_lookup d k))
  | VNone => Raise (Exn "AttributeError" "'NoneType' object has no attribute 'get'")
  | VBool _ => Raise (Exn "AttributeError" "'bool' object has no attribute 'get'")
  | VInt _ => Raise (Exn "AttributeError" "'int' object has no attribute 'get'")
  | VStr _ => Raise (Exn "AttributeError" "'str' object has no attribute 'get'")
  | VList _ => Raise (Exn "AttributeError" "'list' object has no attribute 'get'")
  end.

(** A row produced by [csv.DictReader]: header names mapped to the cell, or
    to [None] when the line is shorter than the header. *)
Abbreviation row := (gmap string (option string)).

(** [row.get(k)] *)
Definition row_get (r : row) (k : string) : option string :=
  match r !! k with Some v => v | None => None end.

(** [row.get(k, dflt)] *)
Definition row_get_default (r : row) (k : string) (dflt : string) : option string :=
  match r !! k with Some v => v | None => Some dflt end.

(** ** The state-and-exception monad

    A computation reads and updates a state and either returns a value or
    raises.  The state survives a raise, as Python's mutations do: what a
    [try] block appended to a list before it raised is still there in the
    handler. *)

Definition M (S A : Type) : Type := S -> res A * S.

Definition ret {S A} (a : A) : M S A := fun s => (Ok a, s).

Definition raise {S A} (e : exn) : M S A := fun s => (Raise e, s).

Definition bind {S A B} (m : M S A) (k : A -> M S B) : M S B :=
  fun s =>
    match m s with
    | (Ok a, s') => k a s'
    | (Raise e, s') => (Raise e, s')
    end.

(** [try: body  except Exception as e: handler e] *)
Definition try_except {S A} (body : M S A) (handler : exn -> M S A) : M S A :=
  fun s =>
    match body s with
    | (Ok a, s') => (Ok a, s')
    | (Raise e, s') => handler e s'
    end.

(** Lift a pure outcome. *)
Definition lift {S A} (r : res A) : M S A := fun s => (r, s).

Global Instance M_ret {S} : MRet (M S) := fun A => @ret S A.
Global Instance M_bind {S} : MBind (M S) := fun A B k m => @bind S A B m k.

(** [for x in xs: body x] *)
Fixpoint for_each {S X} (xs : list X) (body : X -> M S unit) : M S unit :=
  match xs with
  | [] => ret tt
  | x :: xs' => bind (body x) (fun _ => for_each xs' body)
  end.

(** [if c: body] *)
Definition when {S} (c : bool) (body : M S unit) : M S unit :=
  if c then body else ret tt.

(** ** Data model of the remote service *)

(** A task record as the scripts read it: [task_id], [summary], [status],
    [created_time] and [url] are used as they come, the other attributes are
    tested for presence before use. *)
Record task := Task {
  task_id : string;
  summary : string;
  description : option string;
  status : string;
  assignee : option string;
  due_time : option string;
  created_time : string;
  url : string;
  completed_time : option string;
  followers : list string;
}.

Record tasklist := Tasklist {
  tasklist_id : string;
  tasklist_name : string;
}.

(** [CreateTaskRequestBody]: a field is [None] until its builder method is
    called. *)
Record create_body := CreateBody {
  cb_summary : option pyval;
  cb_description : option pyval;
  cb_assignee : option pyval;
  cb_due_time : option pyval;
  cb_followers : option (list string);
  cb_parent_task_id : option pyval;
}.

Definition create_builder : create_body := CreateBody None None None None None None.

Definition cb_set_summary (v : pyval) (b : create_body) : create_body :=
  CreateBody (Some v) (cb_description b) (cb_assignee b) (cb_due_time b)
             (cb_followers b) (cb_parent_task_id b).
Definition cb_set_description (v : pyval) (b : create_body) : create_body :=
  CreateBody (cb_summary b) (Some v) (cb_assignee b) (cb_due_time b)
             (cb_followers b) (cb_parent_task_id b).
Definition cb_set_assignee (v : pyval) (b : create_body) : create_body :=
  CreateBody (cb_summary b) (cb_description b) (Some v) (cb_due_time b)
             (cb_followers b) (cb_parent_task_id b).
Definition cb_set_due_time (v : pyval) (b : create_body) : create_body :=
  CreateBody (cb_summary b) (cb_description b) (cb_assignee b) (Some v)
             (cb_followers b) (cb_parent_task_id b).
Definition cb_set_followers (v : list string) (b : create_body) : create_body :=
  CreateBody (cb_summary b) (cb_description b) (cb_assignee b) (cb_due_time b)
             (Some v) (cb_parent_task_id b).
Definition cb_set_parent_task_id (v : pyval) (b : create_body) : create_body :=
  CreateBody (cb_summary b) (cb_description b) (cb_assignee b) (cb_due_time b)
             (cb_followers b) (Some v).

(** [UpdateTaskRequestBody] *)
Record update_body := UpdateBody {
  ub_summary : option string;
  ub_description : option string;
  ub_status : option string;
  ub_assignee : option string;
  ub_due_time : option string;
}.

Definition update_builder : update_body := UpdateBody None None None None None.

Definition ub_set_summary (v : string) (b : update_body) : update_body :=
  UpdateBody (Some v) (ub_description b) (ub_status b) (ub_assignee b) (ub_due_time b).
Definition ub_set_description (v : string) (b : update_body) : update_body :=
  UpdateBody (ub_summary b) (Some v) (ub_status b) (ub_assignee b) (ub_due_time b).
Definition ub_set_status (v : string) (b : update_body) : update_body :=
  UpdateBody (ub_summary b) (ub_description b) (Some v) (ub_assignee b) (ub_due_time b).
Definition ub_set_assignee (v : string) (b : update_body) : update_body :=
  UpdateBody (ub_summary b) (ub_description b) (ub_status b) (Some v) (ub_due_time b).
Definition ub_set_due_time (v : string) (b : update_body) : update_body :=
  UpdateBody (ub_summary b) (ub_description b) (ub_status b) (ub_assignee b) (Some v).

(** [ListTaskRequest] *)
Record list_query := ListQuery {
  lq_assigned_to_me : bool;
  lq_created_by_me : bool;
  lq_assignee : option string;
  lq_due_before : option string;
  lq_statuses : option (list string);
  lq_page_size : option Z;
}.

Definition list_builder : list_query := ListQuery false false None None None None.

(** An interactive card, the [content] of a message. *)
Inductive card_element :=
| Div (text : string)
| Hr
| Action (button_text : string) (button_url : string).

Record card := Card {
  card_title : string;
  card_template : string;
  card_elements : list card_element;
}.

(** The requests the scripts send. *)
Inductive api_call :=
| TaskCreate (b : create_body)
| TaskGet (id : string)
| TaskUpdate (id : string) (b : update_body)
| TaskDelete (id : string)
| TaskList (q : list_query)
| TasklistCreate (name descr : string)
| TasklistGet (id : string)
| TasklistUpdate (id : string) (name descr : option string)
| TasklistDelete (id : string)
| TasklistAddTask (tl task : string)
| TasklistListTask (tl : string) (page_size : Z)
| MessageCreate (receive_id msg_type : string) (content : card).

(** Every call answers [{success, code, msg, data}]; [data] may be absent. *)
Record response (A : Type) := Response {
  success : bool;
  code : Z;
  msg : string;
  data : option A;
}.
Arguments Response {A} _ _ _ _.
Arguments success {A} _.
Arguments code {A} _.
Arguments msg {A} _.
Arguments data {A} _.

(** A call either returns a response or raises (transport fault). *)
Inductive outcome (A : Type) :=
| Returned (r : response A)
| Raised (e : exn).
Arguments Returned {A} r.
Arguments Raised {A} e.

(** What the trace keeps of a call's outcome. *)
Inductive call_status :=
| Answered (ok : bool) (c : Z) (m : string)
| Threw (e : exn).

Definition status_of {A} (o : outcome A) : call_status :=
  match o with
  | Returned r => Answered (success r) (code r) (msg r)
  | Raised e => Threw e
  end.

Inductive stream := Stdout | Stderr.

Inductive event :=
| ERemote (c : api_call) (st : call_status)
| ESleep (d : Q)
| EPrint (to : stream) (text : string)
| EWriteFile (path : string) (content : string).

(** The wall-clock fields of a [datetime]. *)
Record civil := Civil {
  year : Z; month : Z; day : Z;
  hour : Z; minute : Z; second : Z; microsecond : Z;
}.

(** A [datetime]: naive when [tzinfo] is [None], aware otherwise; the
    offset from UTC is kept in minutes. *)
Record datetime := DateTime {
  fields_of : civil;
  tzinfo : option Z;
}.

(** The collaborators of a run.  The service's answer may depend on the
    request and on how many calls were made before it; the payload type is
    the one the endpoint's response carries. *)
Record env := Env {
  remote_task : nat -> api_call -> outcome task;
  remote_items : nat -> api_call -> outcome (list task);
  remote_tasklist : nat -> api_call -> outcome tasklist;
  remote_unit : nat -> api_call -> outcome unit;
  environ : gmap string string;
  clock : civil;
  open_csv : string -> res (list row * option exn);
  load_json : string -> res pyval;
  open_write : string -> option exn;
}.

(** The state of a run: the local variables of the running function, the
    number of remote calls made so far and the trace. *)
Record state (L : Type) := State {
  locals : L;
  ncalls : nat;
  trace : list event;
}.
Arguments State {L} _ _ _.
Arguments locals {L} _.
Arguments ncalls {L} _.
Arguments trace {L} _.

Definition init_state {L} (l : L) : state L := State l 0%nat [].

Section Primitives.
Context (E : env) {L : Type}.

Definition get_locals : M (state L) L := fun s => (Ok (locals s), s).

Definition modify_locals (f : L -> L) : M (state L) unit :=
  fun s => (Ok tt, State (f (locals s)) (ncalls s) (trace s)).

Definition emit (e : event) : M (state L) unit :=
  fun s => (Ok tt, State (locals s) (ncalls s) (trace s ++ [e])).

(** One remote call through the SDK client. *)
Definition call {A} (srv : nat -> api_call -> outcome A) (c : api_call)
  : M (state L) (response A) :=
  fun s =>
    let o := srv (ncalls s) c in
    let s' := State (locals s) (S (ncalls s)) (trace s ++ [ERemote c (status_of o)]) in
    match o with
    | Returned r => (Ok r, s')
    | Raised e => (Raise e, s')
    end.

(** [time.sleep(d)] for a finite float [d].  CPython converts the delay
    to a count of nanoseconds held in a signed 64-bit integer: a delay
    outside that range is an [OverflowError], a negative delay within it a
    [ValueError].  (In the last [time.monotonic()] seconds below the upper
    limit the deadline no longer fits and the call fails with [OSError];
    the properties that need the sleep to return take a delay below
    [2 ^ 62] ns, see [sleepable].) *)
Definition sleep_limit : Q := 9223372036854775808 # 1000000000.

Definition overflows (d : Q) : bool :=
  negb (Qle_bool (- sleep_limit) d) || Qle_bool sleep_limit d.

Definition sleep (d : Q) : M (state L) unit :=
  if overflows d then
    raise (Exn "OverflowError" "timestamp too large to convert to C _PyTime_t")
  else if Qle_bool 0 d then emit (ESleep d)
  else raise (Exn "ValueError" "sleep length must be non-negative").

Definition print (text : string) : M (state L) unit := emit (EPrint Stdout text).
Definition print_err (text : string) : M (state L) unit := emit (EPrint Stderr text).

(** [os.getenv(k)] *)
Definition getenv (k : string) : option string := environ E !! k.

(** [x.task] where [x] is [response.data] *)
Definition data_task (d : option task) : M (state L) task :=
  match d with
  | Some t => mret t
  | None => raise (Exn "AttributeError" "'NoneType' object has no attribute 'task'")
  end.

(** [x.items] where [x] is [response.data] *)
Definition data_items (d : option (list task)) : M (state L) (list task) :=
  match d with
  | Some ts => mret ts
  | None => raise (Exn "AttributeError" "'NoneType' object has no attribute 'items'")
  end.
End Primitives.

(** A method call: the callee runs with its own local variables, from
    [init], on the caller's call counter and trace; the caller's local
    variables are untouched. *)
Definition scoped {L L' A} (init : L') (m : M (state L') A) : M (state L) A :=
  fun s =>
    let out := m (State init (ncalls s) (trace s)) in
    (out.1, State (locals s) (ncalls out.2) (trace out.2)).

(** [except T as e: handler e] for one exception class [T]: other
    exceptions pass through. *)
Definition try_except_only {S A} (T : string) (body : M S A) (handler : exn -> M S A)
  : M S A :=
  try_except body (fun e => if String.eqb (exn_type e) T then handler e else raise e).

(** [sys.exit(n)] *)
Definition sys_exit {S A} (n : Z) : M S A := raise (Exn "SystemExit" (pretty n)).

(** [s[:n]]; the strings of the model are byte strings, so this is
    Python's slice on text of one-byte characters, as timestamps are. *)
Definition str_take (n : nat) (s : string) : string := String.substring 0 n s.

(** A list comprehension [[t for t in ts if p t]] whose condition may
    raise: the first raise ends it. *)
Fixpoint filter_res {A} (p : A -> res bool) (ts : list A) : res (list A) :=
  match ts with
  | [] => Ok []
  | t :: ts' =>
      match p t with
      | Ok b =>
          match filter_res p ts' with
          | Ok r => Ok (if b then t :: r else r)
          | Raise e => Raise e
          end
      | Raise e => Raise e
      end
  end.

(** ** The parts of Python's [datetime] the scripts use *)

Module PyDatetime.

(** [datetime.now()]: always naive. *)
Definition now (E : env) : datetime := DateTime (clock E) None.

Definition is_digit (c : ascii) : bool :=
  let n := Z.of_nat (nat_of_ascii c) in (48 <=? n) && (n <=? 57).

Definition digit_val (c : ascii) : Z := Z.of_nat (nat_of_ascii c) - 48.

(** Read exactly [n] decimal digits. *)
Fixpoint digits (n : nat) (acc : Z) (s : string) : option (Z * string) :=
  match n with
  | O => Some (acc, s)
  | S n' =>
      match s with
      | String c s' =>
          if is_digit c then digits n' (10 * acc + digit_val c) s' else None
      | EmptyString => None
      end
  end.

(** Consume one given character. *)
Definition expect (c : ascii) (s : string) : option string :=
  match s with
  | String c' s' => if Ascii.eqb c c' then Some s' else None
  | EmptyString => None
  end.

Definition is_leap (y : Z) : bool :=
  ((y mod 4 =? 0) && negb (y mod 100 =? 0)) || (y mod 400 =? 0).

Definition days_in_month (y m : Z) : Z :=
  if m =? 2 then (if is_leap y then 29 else 28)
  else if (m =? 4) || (m =? 6) || (m =? 9) || (m =? 11) then 30
  else 31.

Definition invalid (s : string) : exn :=
  Exn "ValueError" ("Invalid isoformat string: '" +:+ s +:+ "'").

(** The text after the time of day: nothing, or a UTC offset [+HH:MM] or
    [-HH:MM] of less than a day. *)
Definition parse_offset (s : string) : option (option Z) :=
  match s with
  | EmptyString => Some None
  | String c s1 =>
      let sign := if Ascii.eqb c "+" then Some 1
                  else if Ascii.eqb c "-" then Some (-1) else None in
      sg ← sign;
      '(hh, s2) ← digits 2 0 s1;
      s3 ← expect ":" s2;
      '(mm, s4) ← digits 2 0 s3;
      match s4 with
      | EmptyString =>
          if hh * 60 + mm <? 1440 then Some (Some (sg * (hh * 60 + mm))) else None
      | _ => None
      end
  end.

(** An optional fraction of a second: [.fff] or [.ffffff]. *)
Definition parse_fraction (s : string) : option (Z * string) :=
  match s with
  | String "." s1 =>
      match digits 6 0 s1 with
      | Some r => Some r
      | None =>
          match digits 3 0 s1 with
          | Some (ms, s2) => Some (ms * 1000, s2)
          | None => None
          end
      end
  | _ => Some (0, s)
  end.

(** The text after the hour: [:MM], [:MM:SS] with an optional fraction,
    or none of them.  What follows is left for the offset. *)
Definition parse_minutes (s : string) : option (Z * Z * Z * string) :=
  match s with
  | String ":" s1 =>
      '(mi, s2) ← digits 2 0 s1;
      match s2 with
      | String ":" s3 =>
          '(ss, s4) ← digits 2 0 s3;
          '(us, s5) ← parse_fraction s4;
          Some (mi, ss, us, s5)
      | _ => Some (mi, 0, 0, s2)
      end
  | _ => Some (0, 0, 0, s)
  end.

Definition parse_iso (s : string) : option datetime :=
  '(y, s1) ← digits 4 0 s;
  s2 ← expect "-" s1;
  '(m, s3) ← digits 2 0 s2;
  s4 ← expect "-" s3;
  '(d, s5) ← digits 2 0 s4;
  match s5 with
  | EmptyString => Some (DateTime (Civil y m d 0 0 0 0) None)
  | String _ s6 =>
      '(hh, s7) ← digits 2 0 s6;
      '(mi, ss, us, s8) ← parse_minutes s7;
      off ← parse_offset s8;
      Some (DateTime (Civil y m d hh mi ss us) off)
  end.

Definition valid_fields (c : civil) : bool :=
  (1 <=? year c) && (1 <=? month c) && (month c <=? 12) &&
  (1 <=? day c) && (day c <=? days_in_month (year c) (month c)) &&
  (hour c <? 24) && (minute c <? 60) && (second c <? 60).

(** [datetime.fromisoformat(s)] on the forms every Python from 3.7 on
    reads, and reads alike:
    [YYYY-MM-DD] and [YYYY-MM-DD?HH[:MM[:SS[.fff[fff]]]][+HH:MM|-HH:MM]],
    where [?] is any one ASCII character.  They include every timestamp
    the scripts write themselves.  Outside these forms the answer depends
    on the interpreter (Python 3.11 reads more of ISO 8601, such as
    [YYYYMMDD], week dates, fractions of any length and offsets with
    seconds): there the model answers [ValueError], and the properties
    below that need a timestamp to be read name the forms above. *)
Definition fromisoformat (s : string) : res datetime :=
  match parse_iso s with
  | Some d => if valid_fields (fields_of d) then Ok d else Raise (invalid s)
  | None => Raise (invalid s)
  end.

(** Lexicographic order on the wall-clock fields. *)
Definition civil_key (c : civil) : list Z :=
  [year c; month c; day c; hour c; minute c; second c; microsecond c].

Fixpoint lex_lt (a b : list Z) : bool :=
  match a, b with
  | x :: a', y :: b' => (x <? y) || ((x =? y) && lex_lt a' b')
  | [], _ :: _ => true
  | _, [] => false
  end.

(** Days since 0001-01-01 (proleptic Gregorian), for aware comparison. *)
Definition days_before_year (y : Z) : Z :=
  let y' := y - 1 in y' * 365 + y' / 4 - y' / 100 + y' / 400.

Fixpoint days_before_month (y : Z) (m : nat) : Z :=
  match m with
  | O => 0
  | S m' => days_before_month y m' + days_in_month y (Z.of_nat m)
  end.

Definition utc_micros (d : datetime) : Z :=
  let c := fields_of d in
  let days := days_before_year (year c)
              + days_before_month (year c) (Z.to_nat (month c - 1)) + day c in
  let mins := (days * 24 + hour c) * 60 + minute c - default 0 (tzinfo d) in
  (mins * 60 + second c) * 1000000 + microsecond c.

(** [a < b]: two naive values compare field by field, two aware values
    by instant, a naive and an aware one do not compare. *)
Definition lt (a b : datetime) : res bool :=
  match tzinfo a, tzinfo b with
  | None, None => Ok (lex_lt (civil_key (fields_of a)) (civil_key (fields_of b)))
  | Some _, Some _ => Ok (utc_micros a <? utc_micros b)
  | _, _ => Raise (Exn "TypeError" "can't compare offset-naive and offset-aware datetimes")
  end.

(** Zero-padded decimal of width [n]. *)
Fixpoint pad (n : nat) (z : Z) : string :=
  match n with
  | O => ""
  | S n' => pad n' (z / 10) +:+ pretty (z mod 10)
  end.

(** [d.strftime("%Y%m%d_%H%M%S")] *)
Definition strftime_stamp (d : datetime) : string :=
  let c := fields_of d in
  pad 4 (year c) +:+ pad 2 (month c) +:+ pad 2 (day c) +:+ "_" +:+
  pad 2 (hour c) +:+ pad 2 (minute c) +:+ pad 2 (second c).

(** The day after and the day before, in the proleptic Gregorian
    calendar. *)
Definition next_day (c : civil) : civil :=
  if day c <? days_in_month (year c) (month c) then
    Civil (year c) (month c) (day c + 1) (hour c) (minute c) (second c) (microsecond c)
  else if month c <? 12 then
    Civil (year c) (month c + 1) 1 (hour c) (minute c) (second c) (microsecond c)
  else
    Civil (year c + 1) 1 1 (hour c) (minute c) (second c) (microsecond c).

Definition prev_day (c : civil) : civil :=
  if 1 <? day c then
    Civil (year c) (month c) (day c - 1) (hour c) (minute c) (second c) (microsecond c)
  else if 1 <? month c then
    Civil (year c) (month c - 1) (days_in_month (year c) (month c - 1))
          (hour c) (minute c) (second c) (microsecond c)
  else
    Civil (year c - 1) 12 31 (hour c) (minute c) (second c) (microsecond c).

Definition shift_days (n : Z) (c : civil) : civil :=
  if 0 <=? n then Nat.iter (Z.to_nat n) next_day c
  else Nat.iter (Z.to_nat (- n)) prev_day c.

(** [d + timedelta(days=n)]: the time of day and the offset are kept; a
    [timedelta] beyond 999999999 days or a date outside the years 1 to 9999
    is an [OverflowError]. *)
Definition add_days (d : datetime) (n : Z) : res datetime :=
  if 999999999 <? Z.abs n then
    Raise (Exn "OverflowError"
             ("days=" +:+ pretty n +:+ "; must have magnitude <= 999999999"))
  else
    let c := shift_days n (fields_of d) in
    if (1 <=? year c) && (year c <=? 9999) then Ok (DateTime c (tzinfo d))
    else Raise (Exn "OverflowError" "date value out of range").

(** [d.isoformat()] *)
Definition isoformat (d : datetime) : string :=
  let c := fields_of d in
  pad 4 (year c) +:+ "-" +:+ pad 2 (month c) +:+ "-" +:+ pad 2 (day c) +:+ "T" +:+
  pad 2 (hour c) +:+ ":" +:+ pad 2 (minute c) +:+ ":" +:+ pad 2 (second c) +:+
  (if microsecond c =? 0 then "" else "." +:+ pad 6 (microsecond c)) +:+
  match tzinfo d with
  | None => ""
  | Some off =>
      (if off <? 0 then "-" else "+") +:+
      pad 2 (Z.abs off / 60) +:+ ":" +:+ pad 2 (Z.abs off mod 60)
  end.

(** [a > b] *)
Definition gt (a b : datetime) : res bool := lt b a.

End PyDatetime.

(** [s.replace("Z", "+00:00")] *)
Fixpoint replace_Z (s : string) : string :=
  match s with
  | EmptyString => EmptyString
  | String c s' =>
      if Ascii.eqb c "Z" then "+00:00" +:+ replace_Z s' else String c (replace_Z s')
  end.

(** ** The parts of Python's [csv] module the scripts use

    The default (excel) dialect: the comma as delimiter, the double quote as quote character,
    minimal quoting, doubled quotes, line terminator CR LF, not strict. *)

Module PyCsv.

Definition dquote : ascii := ascii_of_nat 34.
Definition comma : ascii := ",".
Definition CR : ascii := ascii_of_nat 13.
Definition LF : ascii := ascii_of_nat 10.

Definition is_newline (c : ascii) : bool := Ascii.eqb c CR || Ascii.eqb c LF.

(** Characters that force a field to be quoted. *)
Definition is_special (c : ascii) : bool :=
  Ascii.eqb c comma || Ascii.eqb c dquote || is_newline c.

Fixpoint needs_quote (f : string) : bool :=
  match f with
  | EmptyString => false
  | String c f' => is_special c || needs_quote f'
  end.

Fixpoint double_quotes (f : string) : string :=
  match f with
  | EmptyString => EmptyString
  | String c f' =>
      if Ascii.eqb c dquote then String dquote (String dquote (double_quotes f'))
      else String c (double_quotes f')
  end.

Definition write_field (f : string) : string :=
  if needs_quote f then String dquote (double_quotes f +:+ String dquote EmptyString)
  else f.

Fixpoint join_fields (fs : list string) : string :=
  match fs with
  | [] => EmptyString
  | [f] => write_field f
  | f :: fs' => write_field f +:+ String comma (join_fields fs')
  end.

Definition line_terminator : string := String CR (String LF EmptyString).

(** [writer.writerow(fs)]: the text appended to the file.  A row made of
    one empty field is written as a pair of quotes. *)
Definition writerow (fs : list string) : string :=
  let line := join_fields fs in
  (match fs, line with
   | _ :: _, EmptyString => String dquote (String dquote EmptyString)
   | _, _ => line
   end) +:+ line_terminator.

(** The reader's automaton. *)
Inductive pstate :=
| START_RECORD
| START_FIELD
| IN_FIELD
| IN_QUOTED_FIELD
| QUOTE_IN_QUOTED_FIELD
| EAT_CRNL.

Record reader := Reader {
  pst : pstate;
  field : string;            (* the field being read *)
  fields : list string;      (* the fields of the record being read *)
  records : list (list string);  (* the records already produced *)
  in_line : bool;            (* characters were read since the last end of line *)
}.

Definition reader_init : reader := Reader START_RECORD "" [] [] false.

Definition add_char (c : ascii) (st : pstate) (r : reader) : reader :=
  Reader st (field r +:+ String c EmptyString) (fields r) (records r) true.

Definition save_field (st : pstate) (r : reader) : reader :=
  Reader st "" (fields r ++ [field r])%list (records r) true.

Definition goto (st : pstate) (r : reader) : reader :=
  Reader st (field r) (fields r) (records r) true.

Definition csv_error : exn :=
  Exn "Error" "new-line character seen in unquoted field - do you need to open the file with newline=''?".

Definition start_field (c : ascii) (r : reader) : res reader :=
  if is_newline c then Ok (save_field EAT_CRNL r)
  else if Ascii.eqb c dquote then Ok (goto IN_QUOTED_FIELD r)
  else if Ascii.eqb c comma then Ok (save_field START_FIELD r)
  else Ok (add_char c IN_FIELD r).

(** One character of the current line. *)
Definition process_char (c : ascii) (r : reader) : res reader :=
  match pst r with
  | START_RECORD =>
      if is_newline c then Ok (goto EAT_CRNL r) else start_field c r
  | START_FIELD => start_field c r
  | IN_FIELD =>
      if is_newline c then Ok (save_field EAT_CRNL r)
      else if Ascii.eqb c comma then Ok (save_field START_FIELD r)
      else Ok (add_char c IN_FIELD r)
  | IN_QUOTED_FIELD =>
      if Ascii.eqb c dquote then Ok (goto QUOTE_IN_QUOTED_FIELD r)
      else Ok (add_char c IN_QUOTED_FIELD r)
  | QUOTE_IN_QUOTED_FIELD =>
      if Ascii.eqb c dquote then Ok (add_char c IN_QUOTED_FIELD r)
      else if Ascii.eqb c comma then Ok (save_field START_FIELD r)
      else if is_newline c then Ok (save_field EAT_CRNL r)
      else Ok (add_char c IN_FIELD r)
  | EAT_CRNL =>
      if is_newline c then Ok (goto EAT_CRNL r) else Raise csv_error
  end.

(** The record is complete: hand it over and start afresh. *)
Definition yield (r : reader) : reader :=
  Reader START_RECORD "" [] (records r ++ [fields r])%list false.

(** The end of a line of the file. *)
Definition process_eol (r : reader) : reader :=
  match pst r with
  | START_RECORD | EAT_CRNL => yield r
  | START_FIELD | IN_FIELD | QUOTE_IN_QUOTED_FIELD => yield (save_field START_RECORD r)
  | IN_QUOTED_FIELD => Reader IN_QUOTED_FIELD (field r) (fields r) (records r) false
  end.

(** A file opened with [newline=''] ends a line after LF, and after a CR
    that no LF follows. *)
Definition ends_line (c : ascii) (rest : string) : bool :=
  Ascii.eqb c LF ||
  (Ascii.eqb c CR &&
   match rest with String c' _ => negb (Ascii.eqb c' LF) | EmptyString => true end).

(** The file is exhausted: an unterminated last line ends here, and a
    record cut short inside a quoted field is still produced. *)
Definition finish (r : reader) : list (list string) :=
  let r := if in_line r then process_eol r else r in
  match pst r with
  | IN_QUOTED_FIELD => (records r ++ [(fields r ++ [field r])%list])%list
  | _ => records r
  end.

Fixpoint feed (r : reader) (text : string) : res (list (list string)) :=
  match text with
  | EmptyString => Ok (finish r)
  | String c rest =>
      match process_char c r with
      | Ok r' => feed (if ends_line c rest then process_eol r' else r') rest
      | Raise e => Raise e
      end
  end.

(** [list(csv.reader(f))] for a file with the given text. *)
Definition read_all (text : string) : res (list (list string)) := feed reader_init text.

(** [dict(zip(fieldnames, cells))], completed with [None] for the columns
    a short line lacks; cells beyond the header are not kept. *)
Fixpoint zip_row (fieldnames cells : list string) : row :=
  match fieldnames, cells with
  | [], _ => ∅
  | k :: ks, [] => <[k := None]> (zip_row ks [])
  | k :: ks, c :: cs =>
      let m := zip_row ks cs in
      match m !! k with
      | Some _ => m          (* a later column of the same name wins *)
      | None => <[k := Some c]> m
      end
  end.

(** [list(csv.DictReader(f))]: the first record names the columns, empty
    records are skipped. *)
Definition dict_read_all (text : string) : res (list row) :=
  match read_all text with
  | Ok (fieldnames :: recs) =>
      Ok (zip_row fieldnames <$> filter (fun cells => cells ≠ []) recs)
  | Ok [] => Ok []
  | Raise e => Raise e
  end.

End PyCsv.

(** ** scripts/bulk_operations.py *)

(** The dict [results] of a bulk driver: the list under ["created"],
    ["updated"] or ["deleted"], and the list under ["failed"]. *)
Record results (A B : Type) := Results {
  succeeded : list A;
  failed : list B;
}.
Arguments Results {A B} _ _.
Arguments succeeded {A B} _.
Arguments failed {A B} _.

(** An entry of the ["failed"] list: the item (under ["row"], ["data"] or
    ["task_id"]) and the text under ["error"]. *)
Record failure (I : Type) := Failure {
  item : I;
  error : string;
}.
Arguments Failure {I} _ _.
Arguments item {I} _.
Arguments error {I} _.

(** [results[key].append(x)] for the success key *)
Definition append_succeeded {A B} (x : A) (r : results A B) : results A B :=
  Results (succeeded r ++ [x]) (failed r).

(** [results["failed"].append(x)] *)
Definition append_failed {A B} (x : B) (r : results A B) : results A B :=
  Results (succeeded r) (failed r ++ [x]).

(** [str(x)] for an [Optional[str]] inside an f-string *)
Definition fmt_opt (o : option string) : string :=
  match o with Some s => s | None => "None" end.

(** [f"{response.code}: {response.msg}"] *)
Definition code_msg {A} (r : response A) : string :=
  pretty (code r) +:+ ": " +:+ msg r.

(** [for x in v] over a value read from JSON: a list gives its elements, a
    dict its keys (each once, in first-insertion order), a string its
    characters; nothing else is iterable. *)
Definition py_iter (v : pyval) : res (list pyval) :=
  match v with
  | VList l => Ok l
  | VDict d => Ok (VStr <$> rev (remove_dups (rev (d.*1))))
  | VStr s => Ok ((fun c => VStr (String c EmptyString)) <$> String.list_ascii_of_string s)
  | VNone => Raise (Exn "TypeError" "'NoneType' object is not iterable")
  | VBool _ => Raise (Exn "TypeError" "'bool' object is not iterable")
  | VInt _ => Raise (Exn "TypeError" "'int' object is not iterable")
  end.

(** [str(v)] of a JSON scalar inside an f-string (containers are not
    rendered by the model). *)
Definition fmt_val (v : pyval) : string :=
  match v with
  | VNone => "None"
  | VBool true => "True"
  | VBool false => "False"
  | VInt z => pretty z
  | VStr s => s
  | VList _ => "[...]"
  | VDict _ => "{...}"
  end.

Module BulkTaskOperations.
Section Methods.
Context (E : env).

(** The client object: the credentials it was built from. *)
Record client := Client { app_id : string; app_secret : string }.

Definition __init__ {L} (app_id app_secret : option string) : M (state L) client :=
  let self_app_id := or_else app_id (getenv E "FEISHU_APP_ID") in
  let self_app_secret := or_else app_secret (getenv E "FEISHU_APP_SECRET") in
  if negb (str_truthy self_app_id) || negb (str_truthy self_app_secret) then
    raise (Exn "ValueError" "App credentials required")
  else
    mret (Client (default "" self_app_id) (default "" self_app_secret)).

(** Helper to add task to tasklist; the bare [except: pass] swallows
    whatever the call raises. *)
Definition _add_to_tasklist {L} (tasklist_id task_id : string) : M (state L) unit :=
  try_except
    (call (remote_unit E) (TasklistAddTask tasklist_id task_id);; mret tt)
    (fun _ => mret tt).

Definition import_from_csv (csv_path : string) (tasklist_id default_assignee : option string)
  : M (state (results task (failure row))) (results task (failure row)) :=
  modify_locals (fun _ => Results [] []);;
  reader ← lift (open_csv E csv_path);
  for_each reader.1 (fun row =>
    try_except
      (let body := cb_set_summary (opt_val (row_get_default row "title" "Untitled"))
                     create_builder in
       let body := if str_truthy (row_get row "description")
                   then cb_set_description (opt_val (row_get row "description")) body
                   else body in
       let assignee := or_else (row_get row "assignee") default_assignee in
       let body := if str_truthy assignee
                   then cb_set_assignee (opt_val assignee) body
                   else body in
       let body := if str_truthy (row_get row "due_date")
                   then cb_set_due_time
                          (VStr (fmt_opt (row_get row "due_date") +:+ "T23:59:59+08:00")) body
                   else body in
       response ← call (remote_task E) (TaskCreate body);
       (if success response then
          task ← data_task (data response);
          modify_locals (append_succeeded task);;
          when (str_truthy tasklist_id)
               (_add_to_tasklist (default "" tasklist_id) (task_id task));;
          print ("✅ Created: " +:+ summary task +:+ " (" +:+ task_id task +:+ ")")
        else
          modify_locals (append_failed (Failure row (code_msg response)));;
          print ("❌ Failed: " +:+ fmt_opt (row_get row "title") +:+ " - " +:+ msg response));;
       sleep (2 # 10))
      (fun e =>
         modify_locals (append_failed (Failure row (exn_msg e)));;
         print ("❌ Error: " +:+ fmt_opt (row_get row "title") +:+ " - " +:+ exn_msg e)));;
  match reader.2 with
  | Some e => raise e
  | None => get_locals
  end.

Definition import_from_json (json_path : string) (tasklist_id : option string)
  : M (state (results task (failure pyval))) (results task (failure pyval)) :=
  modify_locals (fun _ => Results [] []);;
  tasks ← lift (load_json E json_path);
  items ← lift (py_iter tasks);
  for_each items (fun task_data =>
    try_except
      (title ← lift (py_get task_data "title" (VStr "Untitled"));
       let body := cb_set_summary title create_builder in
       description ← lift (py_get task_data "description" VNone);
       let body := if truthy description then cb_set_description description body
                   else body in
       assignee ← lift (py_get task_data "assignee" VNone);
       let body := if truthy assignee then cb_set_assignee assignee body else body in
       due_time ← lift (py_get task_data "due_time" VNone);
       let body := if truthy due_time then cb_set_due_time due_time body else body in
       response ← call (remote_task E) (TaskCreate body);
       (if success response then
          task ← data_task (data response);
          modify_locals (append_succeeded task);;
          when (str_truthy tasklist_id)
               (_add_to_tasklist (default "" tasklist_id) (task_id task));;
          print ("✅ Created: " +:+ summary task)
        else
          modify_locals (append_failed (Failure task_data (code_msg response)));;
          title ← lift (py_get task_data "title" VNone);
          print ("❌ Failed: " +:+ fmt_val title));;
       sleep (2 # 10))
      (fun e =>
         modify_locals (append_failed (Failure task_data (exn_msg e)));;
         title ← lift (py_get task_data "title" VNone);
         print ("❌ Error: " +:+ fmt_val title +:+ " - " +:+ exn_msg e)));;
  get_locals.

Definition bulk_assign (task_ids : list string) (assignee : string) (delay : Q)
  : M (state (results string (failure string))) (results string (failure string)) :=
  modify_locals (fun _ => Results [] []);;
  for_each task_ids (fun task_id =>
    try_except
      (response ← call (remote_task E)
                    (TaskUpdate task_id (ub_set_assignee assignee update_builder));
       (if success response then
          modify_locals (append_succeeded task_id);;
          print ("✅ Assigned: " +:+ task_id)
        else
          modify_locals (append_failed (Failure task_id (code_msg response)));;
          print ("❌ Failed: " +:+ task_id +:+ " - " +:+ msg response));;
       sleep delay)
      (fun e =>
         modify_locals (append_failed (Failure task_id (exn_msg e)));;
         print ("❌ Error: " +:+ task_id +:+ " - " +:+ exn_msg e)));;
  get_locals.

Definition bulk_update_status (task_ids : list string) (status : string) (delay : Q)
  : M (state (results string (failure string))) (results string (failure string)) :=
  modify_locals (fun _ => Results [] []);;
  for_each task_ids (fun task_id =>
    try_except
      (response ← call (remote_task E)
                    (TaskUpdate task_id (ub_set_status status update_builder));
       (if success response then
          modify_locals (append_succeeded task_id);;
          print ("✅ Updated: " +:+ task_id +:+ " -> " +:+ status)
        else
          modify_locals (append_failed (Failure task_id (code_msg response)));;
          print ("❌ Failed: " +:+ task_id));;
       sleep delay)
      (fun e =>
         modify_locals (append_failed (Failure task_id (exn_msg e)))));;
  get_locals.

Definition bulk_set_due_date (task_ids : list string) (due_date : string) (delay : Q)
  : M (state (results string (failure string))) (results string (failure string)) :=
  modify_locals (fun _ => Results [] []);;
  let due_time := due_date +:+ "T23:59:59+08:00" in
  for_each task_ids (fun task_id =>
    try_except
      (response ← call (remote_task E)
                    (TaskUpdate task_id (ub_set_due_time due_time update_builder));
       (if success response then
          modify_locals (append_succeeded task_id);;
          print ("✅ Updated due date: " +:+ task_id)
        else
          modify_locals (append_failed (Failure task_id (code_msg response)));;
          print ("❌ Failed: " +:+ task_id));;
       sleep delay)
      (fun e =>
         modify_locals (append_failed (Failure task_id (exn_msg e)))));;
  get_locals.

Definition bulk_delete (task_ids : list string) (delay : Q)
  : M (state (results string (failure string))) (results string (failure string)) :=
  modify_locals (fun _ => Results [] []);;
  for_each task_ids (fun task_id =>
    try_except
      (response ← call (remote_unit E) (TaskDelete task_id);
       (if success response then
          modify_locals (append_succeeded task_id);;
          print ("✅ Deleted: " +:+ task_id)
        else
          modify_locals (append_failed (Failure task_id (code_msg response)));;
          print ("❌ Failed: " +:+ task_id));;
       sleep delay)
      (fun e =>
         modify_locals (append_failed (Failure task_id (exn_msg e)))));;
  get_locals.

(** The cells [export_to_csv] writes for one task. *)
Definition export_row (t : task) : list string :=
  [ task_id t; summary t; default "" (or_else (description t) (Some ""));
    status t; default "" (or_else (assignee t) (Some ""));
    default "" (or_else (due_time t) (Some "")); created_time t; url t ].

Definition export_header : list string :=
  [ "task_id"; "summary"; "description"; "status";
    "assignee"; "due_time"; "created_time"; "url" ].

(** What the [with open(...)] block writes to the file. *)
Definition export_text (tasks : list task) : string :=
  PyCsv.writerow export_header +:+
  String.concat "" (PyCsv.writerow <$> (export_row <$> tasks)).

Definition export_to_csv {L} (tasklist_id output_path : option string)
  : M (state L) string :=
  let output_path :=
    if negb (str_truthy output_path)
    then "tasks_export_" +:+ PyDatetime.strftime_stamp (PyDatetime.now E) +:+ ".csv"
    else default "" output_path in
  response ←
    (if str_truthy tasklist_id
     then call (remote_items E) (TasklistListTask (default "" tasklist_id) 100)
     else call (remote_items E)
            (TaskList (ListQuery true false None None None (Some 100))));
  if negb (success response) then
    print ("Error: " +:+ pretty (code response) +:+ " - " +:+ msg response);;
    mret ""
  else
    tasks ← data_items (data response);
    match open_write E output_path with
    | Some e => raise e
    | None =>
        emit (EWriteFile output_path (export_text tasks));;
        print ("✅ Exported " +:+ pretty (length tasks) +:+ " tasks to " +:+ output_path);;
        mret output_path
    end.

(** The parsed command line of [bulk_operations.py]: [args.command] and the
    options of that subcommand. *)
Inductive command :=
| NoCommand
| ImportCsv (file : string) (tasklist default_assignee : option string)
| ImportJson (file : string) (tasklist : option string)
| BulkAssign (tasks : list string) (assignee : string)
| BulkStatus (tasks : list string) (status : string)
| BulkDue (tasks : list string) (date : string)
| BulkDelete (tasks : list string)
| Export (tasklist output : option string).

(** [f"\nSummary: {len(a)} {what}, {len(b)} failed"] *)
Definition summary_line {A B} (what : string) (r : results A B) : string :=
  String PyCsv.LF EmptyString +:+ "Summary: " +:+ pretty (length (succeeded r)) +:+ " "
  +:+ what +:+ ", " +:+ pretty (length (failed r)) +:+ " failed".

(** The [if __name__ == "__main__":] block, after [parser.parse_args()];
    [usage] is the text [parser.print_help()] prints. *)
Definition main {L} (usage : string) (args : command) : M (state L) unit :=
  match args with
  | NoCommand => print usage;; sys_exit 1
  | _ =>
      ops ← try_except_only "ValueError" (__init__ None None)
               (fun e => print ("Error: " +:+ exn_msg e);; sys_exit 1);
      match args with
      | NoCommand => mret tt
      | ImportCsv file tasklist default_assignee =>
          results ← scoped (Results [] []) (import_from_csv file tasklist default_assignee);
          print (summary_line "created" results)
      | ImportJson file tasklist =>
          results ← scoped (Results [] []) (import_from_json file tasklist);
          print (summary_line "created" results)
      | BulkAssign tasks assignee =>
          results ← scoped (Results [] []) (bulk_assign tasks assignee (2 # 10));
          print (summary_line "updated" results)
      | BulkStatus tasks status =>
          results ← scoped (Results [] []) (bulk_update_status tasks status (2 # 10));
          print (summary_line "updated" results)
      | BulkDue tasks date =>
          results ← scoped (Results [] []) (bulk_set_due_date tasks date (2 # 10));
          print (summary_line "updated" results)
      | BulkDelete tasks =>
          results ← scoped (Results [] []) (bulk_delete tasks (2 # 10));
          print (summary_line "deleted" results)
      | Export tasklist output =>
          export_to_csv tasklist output;; mret tt
      end
  end.
End Methods.
End BulkTaskOperations.

(** ** scripts/task_manager.py *)

(** The dict [report] of [generate_task_report]. *)
Record report := Report {
  total : nat;
  todo : list task;
  in_progress : list task;
  completed : list task;
  overdue : list task;
}.

Module FeishuTaskManager.
Section Methods.
Context (E : env).

Record client := Client { app_id : string; app_secret : string }.

Definition __init__ {L} (app_id app_secret : option string) : M (state L) client :=
  let self_app_id := or_else app_id (getenv E "FEISHU_APP_ID") in
  let self_app_secret := or_else app_secret (getenv E "FEISHU_APP_SECRET") in
  if negb (str_truthy self_app_id) || negb (str_truthy self_app_secret) then
    raise (Exn "ValueError"
             ("App credentials required. Set FEISHU_APP_ID and FEISHU_APP_SECRET " +:+
              "environment variables or pass to constructor."))
  else
    mret (Client (default "" self_app_id) (default "" self_app_secret)).

Definition nl : string := String PyCsv.LF EmptyString.

(** Handle API response and return data or None on error *)
Definition _handle_response {L A} (response : response A) (operation : string)
  : M (state L) (option A) :=
  if negb (success response) then
    let error_msg := operation +:+ " failed: " +:+ pretty (code response)
                     +:+ " - " +:+ msg response in
    let error_msg :=
      if code response =? 99991672
      then error_msg +:+ nl +:+ "Hint: Check app permissions (task:task:read/write)"
      else if code response =? 99991663
      then error_msg +:+ nl +:+ "Hint: Task not found, verify task ID"
      else error_msg in
    print_err error_msg;;
    mret None
  else mret (data response).

(** In the wrappers below [data] stands for the response's data object
    together with the attribute read from it ([data.task],
    [data.tasklist], [data.items]), so [x.task if x else None] is [data]
    itself. *)
Definition create_task {L} (title description : string)
    (assignee due_time : option string) (followers : option (list string))
    (parent_task_id : option string) : M (state L) (option task) :=
  let body := cb_set_description (VStr description)
                (cb_set_summary (VStr title) create_builder) in
  let body := if str_truthy assignee then cb_set_assignee (opt_val assignee) body
              else body in
  let body := if str_truthy due_time then cb_set_due_time (opt_val due_time) body
              else body in
  let body := match followers with
              | Some (f :: fs) => cb_set_followers (f :: fs) body
              | _ => body
              end in
  let body := if str_truthy parent_task_id
              then cb_set_parent_task_id (opt_val parent_task_id) body
              else body in
  response ← call (remote_task E) (TaskCreate body);
  data ← _handle_response response "Create task";
  mret data.

Definition get_task {L} (task_id : string) : M (state L) (option task) :=
  response ← call (remote_task E) (TaskGet task_id);
  data ← _handle_response response "Get task";
  mret data.

Definition update_task {L} (task_id : string)
    (title description status assignee due_time : option string)
  : M (state L) (option task) :=
  let body := update_builder in
  let body := if str_truthy title then ub_set_summary (default "" title) body
              else body in
  let body := if str_truthy description
              then ub_set_description (default "" description) body else body in
  let body := if str_truthy status then ub_set_status (default "" status) body
              else body in
  let body := if str_truthy assignee then ub_set_assignee (default "" assignee) body
              else body in
  let body := if str_truthy due_time then ub_set_due_time (default "" due_time) body
              else body in
  response ← call (remote_task E) (TaskUpdate task_id body);
  data ← _handle_response response "Update task";
  mret data.

Definition complete_task {L} (task_id : string) : M (state L) bool :=
  result ← update_task task_id None None (Some "completed") None None;
  mret (bool_decide (is_Some result)).

Definition delete_task {L} (task_id : string) : M (state L) bool :=
  response ← call (remote_unit E) (TaskDelete task_id);
  mret (success response).

Definition list_my_tasks {L} (statuses : option (list string)) (page_size : Z)
  : M (state L) (list task) :=
  let request := ListQuery true false None None None (Some page_size) in
  let request := match statuses with
                 | Some (x :: xs) =>
                     ListQuery true false None None (Some (x :: xs)) (Some page_size)
                 | _ => request
                 end in
  response ← call (remote_items E) (TaskList request);
  data ← _handle_response response "List my tasks";
  mret (default [] data).

Definition create_tasklist {L} (name description : string)
  : M (state L) (option tasklist) :=
  response ← call (remote_tasklist E) (TasklistCreate name description);
  data ← _handle_response response "Create tasklist";
  mret data.

Definition get_tasklist {L} (tasklist_id : string) : M (state L) (option tasklist) :=
  response ← call (remote_tasklist E) (TasklistGet tasklist_id);
  data ← _handle_response response "Get tasklist";
  mret data.

Definition update_tasklist {L} (tasklist_id : string) (name description : option string)
  : M (state L) (option tasklist) :=
  let name' := if str_truthy name then name else None in
  let description' := if str_truthy description then description else None in
  response ← call (remote_tasklist E) (TasklistUpdate tasklist_id name' description');
  data ← _handle_response response "Update tasklist";
  mret data.

Definition delete_tasklist {L} (tasklist_id : string) : M (state L) bool :=
  response ← call (remote_unit E) (TasklistDelete tasklist_id);
  mret (success response).

Definition add_task_to_tasklist {L} (tasklist_id task_id : string) : M (state L) bool :=
  response ← call (remote_unit E) (TasklistAddTask tasklist_id task_id);
  mret (success response).

Definition list_tasks_in_tasklist {L} (tasklist_id : string) (page_size : Z)
  : M (state L) (list task) :=
  response ← call (remote_items E) (TasklistListTask tasklist_id page_size);
  data ← _handle_response response "List tasks in tasklist";
  mret (default [] data).

(** [status in report]: the keys of the dict. *)
Definition in_report (status : string) : bool :=
  bool_decide (status ∈ ["total"; "todo"; "in_progress"; "completed"; "overdue"]).

(** [report[status].append(task)]; the value under ["total"] is an [int]. *)
Definition report_append (status : string) (t : task) : M (state report) unit :=
  if String.eqb status "total" then
    raise (Exn "AttributeError" "'int' object has no attribute 'append'")
  else if String.eqb status "todo" then
    modify_locals (fun r => Report (total r) (todo r ++ [t]) (in_progress r)
                                   (completed r) (overdue r))
  else if String.eqb status "in_progress" then
    modify_locals (fun r => Report (total r) (todo r) (in_progress r ++ [t])
                                   (completed r) (overdue r))
  else if String.eqb status "completed" then
    modify_locals (fun r => Report (total r) (todo r) (in_progress r)
                                   (completed r ++ [t]) (overdue r))
  else if String.eqb status "overdue" then
    modify_locals (fun r => Report (total r) (todo r) (in_progress r)
                                   (completed r) (overdue r ++ [t]))
  else raise (Exn "KeyError" ("'" +:+ status +:+ "'")).

(** [x in ["todo", "in_progress"]] *)
Definition is_open (status : string) : bool :=
  String.eqb status "todo" || String.eqb status "in_progress".

(** The body of the loop of [generate_task_report]. *)
Definition report_step (now : datetime) (t : task) : M (state report) unit :=
  let status := status t in
  when (in_report status) (report_append status t);;
  when (str_truthy (due_time t) && is_open status)
    (due ← lift (PyDatetime.fromisoformat (replace_Z (default "" (due_time t))));
     late ← lift (PyDatetime.lt due now);
     when late (report_append "overdue" t)).

(** Generate task status report *)
Definition generate_task_report (tasklist_id : option string)
  : M (state report) report :=
  tasks ← (if str_truthy tasklist_id
           then list_tasks_in_tasklist (default "" tasklist_id) 100
           else list_my_tasks None 100);
  modify_locals (fun _ => Report (length tasks) [] [] [] []);;
  let now := PyDatetime.now E in
  for_each tasks (report_step now);;
  get_locals.

(** List tasks created by me *)
Definition list_created_by_me {L} (statuses : option (list string)) (page_size : Z)
  : M (state L) (list task) :=
  let request := ListQuery false true None None None (Some page_size) in
  let request := match statuses with
                 | Some (x :: xs) =>
                     ListQuery false true None None (Some (x :: xs)) (Some page_size)
                 | _ => request
                 end in
  response ← call (remote_items E) (TaskList request);
  data ← _handle_response response "List created tasks";
  mret (default [] data).

(** List tasks by specific assignee *)
Definition list_tasks_by_assignee {L} (assignee : string) (statuses : option (list string))
    (page_size : Z) : M (state L) (list task) :=
  let request := ListQuery false false (Some assignee) None None (Some page_size) in
  let request := match statuses with
                 | Some (x :: xs) =>
                     ListQuery false false (Some assignee) None (Some (x :: xs))
                               (Some page_size)
                 | _ => request
                 end in
  response ← call (remote_items E) (TaskList request);
  data ← _handle_response response "List tasks by assignee";
  mret (default [] data).

(** Get tasks due within specified days *)
Definition get_tasks_due_soon {L} (days : Z) : M (state L) (list task) :=
  due ← lift (PyDatetime.add_days (PyDatetime.now E) days);
  let due_before := PyDatetime.isoformat due in
  response ← call (remote_items E)
               (TaskList (ListQuery true false None (Some due_before)
                                    (Some ["todo"; "in_progress"]) (Some 100)));
  data ← _handle_response response "List tasks due soon";
  mret (default [] data).

(** The markers the command line puts before a status, as they stand in
    the source file. *)
Definition status_icon (status : string) : string :=
  if String.eqb status "todo" then "ğŸ“‹"
  else if String.eqb status "in_progress" then "ğŸ”„"
  else if String.eqb status "completed" then "âœ…"
  else "â“".

(** [f"{'='*50}"] *)
Definition rule : string := String.concat "" (replicate 50 "=").

(** Print formatted task report *)
Definition print_report {L} (r : report) : M (state L) unit :=
  print (nl +:+ rule);;
  print ("Task Report - Total: " +:+ pretty (total r));;
  print rule;;
  print ("ğŸ“‹ Todo: " +:+ pretty (length (todo r)));;
  print ("ğŸ”„ In Progress: " +:+ pretty (length (in_progress r)));;
  print ("âœ… Completed: " +:+ pretty (length (completed r)));;
  print ("âš ï¸  Overdue: " +:+ pretty (length (overdue r)));;
  match overdue r with
  | [] => mret tt
  | _ =>
      print (nl +:+ "âš ï¸  Overdue Tasks:");;
      for_each (overdue r) (fun t =>
        print ("  - " +:+ summary t +:+ " (Due: " +:+ fmt_opt (due_time t) +:+ ")"))
  end.

(** The parsed command line of [task_manager.py]: [args.command] (and
    [args.tasklist_cmd]) with the options of that subcommand. *)
Inductive tasklist_command :=
| TlNone
| TlCreate (name description : string)
| TlListTasks (tasklist_id : string)
| TlAddTask (tasklist_id task_id : string).

Inductive command :=
| NoCommand
| CmdList (assigned_to_me created_by_me : bool) (assignee : option string)
          (status : option (list string)) (due_soon : option Z)
| CmdCreate (title description : string) (assignee due : option string)
            (followers : option (list string))
| CmdGet (task_id : string)
| CmdUpdate (task_id : string) (title description status assignee due : option string)
| CmdComplete (task_id : string)
| CmdDelete (task_id : string)
| CmdTasklist (cmd : tasklist_command)
| CmdReport (tasklist : option string).

(** [f"{args.due}T23:59:59+08:00"] if [args.due], else [None] *)
Definition due_of (due : option string) : option string :=
  if str_truthy due then Some (default "" due +:+ "T23:59:59+08:00") else None.

(** The line printed for a task by the [list] subcommand; [with_due]
    is off for the tasks of a task list. *)
Definition task_line (with_due : bool) (t : task) : string :=
  let due := if with_due && str_truthy (due_time t)
             then " (Due: " +:+ str_take 10 (default "" (due_time t)) +:+ ")"
             else "" in
  "  " +:+ status_icon (status t) +:+ " [" +:+ task_id t +:+ "] " +:+ summary t +:+ due.

(** [main()], after [parser.parse_args()]; [usage] is the text
    [parser.print_help()] prints. *)
Definition main {L} (usage : string) (args : command) : M (state L) unit :=
  match args with
  | NoCommand => print usage
  | _ =>
      manager ← try_except_only "ValueError" (__init__ None None)
                  (fun e => print ("Error: " +:+ exn_msg e);; sys_exit 1);
      match args with
      | NoCommand => mret tt
      | CmdList _ created_by_me assignee status due_soon =>
          tasks ← (if match due_soon with Some days => negb (days =? 0) | None => false end
                   then get_tasks_due_soon (default 0 due_soon)
                   else if created_by_me then list_created_by_me status 50
                   else if str_truthy assignee
                   then list_tasks_by_assignee (default "" assignee) status 50
                   else list_my_tasks status 50);
          print (nl +:+ "Found " +:+ pretty (length tasks) +:+ " tasks:");;
          for_each tasks (fun t => print (task_line true t))
      | CmdCreate title description assignee due followers =>
          task ← create_task title description assignee (due_of due) followers None;
          match task with
          | Some t =>
              print ("âœ… Task created: " +:+ task_id t);;
              print ("   URL: " +:+ url t)
          | None => mret tt
          end
      | CmdGet id =>
          task ← get_task id;
          match task with
          | Some t =>
              print (nl +:+ "Task: " +:+ summary t);;
              print ("ID: " +:+ task_id t);;
              print ("Status: " +:+ status t);;
              print ("Assignee: " +:+ fmt_opt (assignee t));;
              when (str_truthy (due_time t)) (print ("Due: " +:+ default "" (due_time t)));;
              when (str_truthy (description t))
                   (print ("Description: " +:+ default "" (description t)));;
              print ("URL: " +:+ url t)
          | None => mret tt
          end
      | CmdUpdate id title description status assignee due =>
          task ← update_task id title description status assignee (due_of due);
          match task with
          | Some t => print ("âœ… Task updated: " +:+ task_id t)
          | None => mret tt
          end
      | CmdComplete id =>
          finished ← complete_task id;
          when finished (print ("âœ… Task " +:+ id +:+ " marked as completed"))
      | CmdDelete id =>
          deleted ← delete_task id;
          when deleted (print ("âœ… Task " +:+ id +:+ " deleted"))
      | CmdTasklist TlNone => mret tt
      | CmdTasklist (TlCreate name description) =>
          tasklist ← create_tasklist name description;
          match tasklist with
          | Some tl => print ("âœ… Tasklist created: " +:+ tasklist_id tl)
          | None => mret tt
          end
      | CmdTasklist (TlListTasks id) =>
          tasks ← list_tasks_in_tasklist id 100;
          print (nl +:+ "Found " +:+ pretty (length tasks) +:+ " tasks in tasklist:");;
          for_each tasks (fun t => print (task_line false t))
      | CmdTasklist (TlAddTask tl id) =>
          added ← add_task_to_tasklist tl id;
          when added (print "âœ… Task added to tasklist")
      | CmdReport tasklist =>
          r ← scoped (Report 0 [] [] [] []) (generate_task_report tasklist);
          print_report r
      end
  end.
End Methods.
End FeishuTaskManager.

(** ** scripts/task_notifier.py *)

Module TaskNotifier.
Section Methods.
Context (E : env).

Record client := Client { app_id : string; app_secret : string }.

Definition __init__ {L} (app_id app_secret : option string) : M (state L) client :=
  let self_app_id := or_else app_id (getenv E "FEISHU_APP_ID") in
  let self_app_secret := or_else app_secret (getenv E "FEISHU_APP_SECRET") in
  if negb (str_truthy self_app_id) || negb (str_truthy self_app_secret) then
    raise (Exn "ValueError" "App credentials required")
  else
    mret (Client (default "" self_app_id) (default "" self_app_secret)).

(** Send message to user *)
Definition _send_message {L} (receive_id : string) (content : card) (msg_type : string)
  : M (state L) bool :=
  try_except
    (response ← call (remote_unit E) (MessageCreate receive_id msg_type content);
     mret (success response))
    (fun e => print ("Failed to send message: " +:+ exn_msg e);; mret false).

Definition nl : string := String PyCsv.LF EmptyString.

(** The list comprehension that finds the overdue tasks. *)
Fixpoint find_overdue (now : datetime) (tasks : list task) : res (list task) :=
  match tasks with
  | [] => Ok []
  | t :: ts =>
      let keep :=
        if FeishuTaskManager.is_open (status t) && str_truthy (due_time t) then
          match PyDatetime.fromisoformat (replace_Z (default "" (due_time t))) with
          | Ok due => PyDatetime.lt due now
          | Raise e => Raise e
          end
        else Ok false in
      match keep with
      | Ok b =>
          match find_overdue now ts with
          | Ok r => Ok (if b then t :: r else r)
          | Raise e => Raise e
          end
      | Raise e => Raise e
      end
  end.

(** The four lists [send_daily_digest] computes from the fetched tasks. *)
Record digest := Digest {
  d_todo : list task;
  d_in_progress : list task;
  d_completed : list task;
  d_overdue : list task;
}.

Definition categorize (now : datetime) (tasks : list task) : res digest :=
  let todo := filter (fun t => status t = "todo") tasks in
  let in_progress := filter (fun t => status t = "in_progress") tasks in
  let completed := filter (fun t => status t = "completed") tasks in
  match find_overdue now tasks with
  | Ok overdue => Ok (Digest todo in_progress completed overdue)
  | Raise e => Raise e
  end.

Definition digest_card (d : digest) : card :=
  let head :=
    Div ("**📋 待处理**: " +:+ pretty (length (d_todo d)) +:+ nl +:+
         "**🔄 进行中**: " +:+ pretty (length (d_in_progress d)) +:+ nl +:+
         "**✅ 已完成**: " +:+ pretty (length (d_completed d)) +:+ nl +:+
         "**⚠️ 已逾期**: " +:+ pretty (length (d_overdue d))) in
  let extra :=
    match d_overdue d with
    | [] => []
    | _ =>
        let overdue_list :=
          String.concat nl ((fun t => "• " +:+ summary t) <$> take 5 (d_overdue d)) in
        let overdue_list :=
          if bool_decide (5 < length (d_overdue d))%nat
          then overdue_list +:+ nl +:+ "... and "
               +:+ pretty (length (d_overdue d) - 5)%nat +:+ " more"
          else overdue_list in
        [Hr; Div ("**⚠️ 逾期任务**:" +:+ nl +:+ overdue_list)]
    end in
  Card "📊 每日任务摘要" "blue" (head :: extra).

(** Send daily task summary *)
Definition send_daily_digest {L} (assignee : option string) (include_completed : bool)
  : M (state L) bool :=
  let target := or_else assignee (getenv E "FEISHU_USER_ID") in
  if negb (str_truthy target) then
    print "Error: No assignee specified";;
    mret false
  else
    let target := default "" target in
    let statuses := ["todo"; "in_progress"] in
    let statuses := if include_completed then (statuses ++ ["completed"])%list else statuses in
    response ← call (remote_items E)
                 (TaskList (ListQuery false false (Some target) None (Some statuses)
                                      (Some 100)));
    if negb (success response) then mret false
    else
      tasks ← data_items (data response);
      d ← lift (categorize (PyDatetime.now E) tasks);
      _send_message target (digest_card d) "interactive".

(** Build interactive card for task *)
Definition _build_task_card (t : task) (title color : string) : card :=
  let status_text :=
    if String.eqb (status t) "todo" then "📋 待处理"
    else if String.eqb (status t) "in_progress" then "🔄 进行中"
    else if String.eqb (status t) "completed" then "✅ 已完成"
    else status t in
  let due_text :=
    if str_truthy (due_time t)
    then nl +:+ "**截止时间**: " +:+ str_take 10 (default "" (due_time t))
    else "" in
  Card title color
    [ Div ("**" +:+ summary t +:+ "**" +:+ nl +:+ "状态: " +:+ status_text +:+ due_text);
      Action "查看任务" (url t) ].

(** One line of the reminder card. *)
Definition reminder_line (t : task) : string :=
  "• [" +:+ status t +:+ "] " +:+ summary t +:+
  (if str_truthy (due_time t)
   then " (Due: " +:+ str_take 10 (default "" (due_time t)) +:+ ")"
   else "").

Definition reminder_card (days : Z) (tasks : list task) : card :=
  let task_list := String.concat nl (reminder_line <$> take 10 tasks) in
  let task_list :=
    if bool_decide (10 < length tasks)%nat
    then task_list +:+ nl +:+ "... and " +:+ pretty (length tasks - 10)%nat +:+ " more"
    else task_list in
  Card ("⏰ 任务提醒 (" +:+ pretty days +:+ "天内截止)") "orange"
    [ Div ("您有 **" +:+ pretty (length tasks) +:+ "** 个任务即将截止:" +:+ nl +:+ nl
           +:+ task_list) ].

(** Send reminders for tasks due soon *)
Definition remind_due_soon {L} (assignee : option string) (days : Z)
  : M (state L) (list string) :=
  let target := or_else assignee (getenv E "FEISHU_USER_ID") in
  if negb (str_truthy target) then
    print "Error: No assignee specified";;
    mret []
  else
    let target := default "" target in
    due ← lift (PyDatetime.add_days (PyDatetime.now E) days);
    let due_before := PyDatetime.isoformat due in
    response ← call (remote_items E)
                 (TaskList (ListQuery false false (Some target) (Some due_before)
                                      (Some ["todo"; "in_progress"]) (Some 50)));
    if negb (success response) then
      print ("Error fetching tasks: " +:+ msg response);;
      mret []
    else
      tasks ← data_items (data response);
      match tasks with
      | [] => mret []
      | _ =>
          sent ← _send_message target (reminder_card days tasks) "interactive";
          if (sent : bool) then
            print ("✅ Reminder sent to " +:+ target +:+ " for "
                   +:+ pretty (length tasks) +:+ " tasks");;
            mret (task_id <$> tasks)
          else mret []
      end.

(** Notify user when task is assigned to them *)
Definition notify_task_assigned {L} (task_id assignee assigner_name : string)
  : M (state L) bool :=
  response ← call (remote_task E) (TaskGet task_id);
  if negb (success response) then mret false
  else
    t ← data_task (data response);
    let from_text :=
      if negb (String.eqb assigner_name "") then "来自 " +:+ assigner_name +:+ " 的"
      else "" in
    _send_message assignee (_build_task_card t ("📋 " +:+ from_text +:+ "新任务分配") "blue")
                  "interactive".

(** The loop of [notify_task_completed]: one message per follower, with the
    flag [success] cleared by every message that is not accepted. *)
Fixpoint notify_followers_loop {L} (followers : list string) (content : card) (success : bool)
  : M (state L) bool :=
  match followers with
  | [] => mret success
  | follower :: rest =>
      sent ← _send_message follower content "interactive";
      notify_followers_loop rest content (if negb sent then false else success)
  end.

(** Notify followers when task is completed *)
Definition notify_task_completed {L} (task_id : string) (notify_followers : bool)
  : M (state L) bool :=
  response ← call (remote_task E) (TaskGet task_id);
  if negb (success response) then mret false
  else
    t ← data_task (data response);
    if negb notify_followers || match followers t with [] => true | _ => false end then
      mret false
    else
      notify_followers_loop (followers t) (_build_task_card t "✅ 任务已完成" "green") true.

(** The two conditions of the comprehensions of [send_weekly_report]. *)
Definition completed_since (week_ago : string) (t : task) : res bool :=
  if String.eqb (status t) "completed" && str_truthy (completed_time t) then
    match PyDatetime.fromisoformat (replace_Z (default "" (completed_time t))) with
    | Ok finished =>
        match PyDatetime.fromisoformat week_ago with
        | Ok since => PyDatetime.gt finished since
        | Raise e => Raise e
        end
    | Raise e => Raise e
    end
  else Ok false.

Definition created_since (week_ago : string) (t : task) : res bool :=
  match PyDatetime.fromisoformat (replace_Z (created_time t)) with
  | Ok born =>
      match PyDatetime.fromisoformat week_ago with
      | Ok since => PyDatetime.gt born since
      | Raise e => Raise e
      end
  | Raise e => Raise e
  end.

Definition weekly_card (tasks recent_created recent_completed : list task) : card :=
  let head :=
    Div ("**本周新建**: " +:+ pretty (length recent_created) +:+ " 个任务" +:+ nl +:+
         "**本周完成**: " +:+ pretty (length recent_completed) +:+ " 个任务" +:+ nl +:+
         "**总任务数**: " +:+ pretty (length tasks) +:+ " 个任务") in
  let extra :=
    match recent_completed with
    | [] => []
    | _ =>
        let completed_list :=
          String.concat nl ((fun t => "✅ " +:+ summary t) <$> take 5 recent_completed) in
        [Hr; Div ("**本周完成任务**:" +:+ nl +:+ completed_list)]
    end in
  Card "📈 本周任务报告" "blue" (head :: extra).

(** Send weekly task report *)
Definition send_weekly_report {L} (assignee tasklist_id : option string)
  : M (state L) bool :=
  let target := or_else assignee (getenv E "FEISHU_USER_ID") in
  if negb (str_truthy target) then
    print "Error: No assignee specified";;
    mret false
  else
    let target := default "" target in
    since ← lift (PyDatetime.add_days (PyDatetime.now E) (-7));
    let week_ago := PyDatetime.isoformat since in
    response ←
      (if str_truthy tasklist_id
       then call (remote_items E) (TasklistListTask (default "" tasklist_id) 100)
       else call (remote_items E)
              (TaskList (ListQuery false false (Some target) None None (Some 100))));
    if negb (success response) then mret false
    else
      tasks ← data_items (data response);
      recent_completed ← lift (filter_res (completed_since week_ago) tasks);
      recent_created ← lift (filter_res (created_since week_ago) tasks);
      _send_message target (weekly_card tasks recent_created recent_completed) "interactive".

(** The parsed command line of [task_notifier.py]. *)
Inductive command :=
| NoCommand
| DueSoon (assignee : option string) (days : Z)
| Daily (assignee : option string) (include_completed : bool)
| Weekly (assignee tasklist : option string)
| NotifyAssigned (task assignee assigner : string).

(** The [if __name__ == "__main__":] block, after [parser.parse_args()];
    [usage] is the text [parser.print_help()] prints. *)
Definition main {L} (usage : string) (args : command) : M (state L) unit :=
  match args with
  | NoCommand => print usage;; sys_exit 1
  | _ =>
      notifier ← try_except_only "ValueError" (__init__ None None)
                   (fun e => print ("Error: " +:+ exn_msg e);; sys_exit 1);
      match args with
      | NoCommand => mret tt
      | DueSoon assignee days => remind_due_soon assignee days;; mret tt
      | Daily assignee include_completed =>
          send_daily_digest assignee include_completed;; mret tt
      | Weekly assignee tasklist => send_weekly_report assignee tasklist;; mret tt
      | NotifyAssigned task assignee assigner =>
          sent ← notify_task_assigned task assignee assigner;
          print ("Notification " +:+ (if (sent : bool) then "sent" else "failed"))
      end
  end.
End Methods.
End TaskNotifier.

(** ** Observations on a trace *)

(** The durations slept, in order. *)
Definition sleeps (tr : list event) : list Q :=
  omap (fun e => match e with ESleep d => Some d | _ => None end) tr.

(** Total time slept. *)
Definition elapsed (tr : list event) : Q := foldr Qplus 0%Q (sleeps tr).

(** The remote calls made, in order. *)
Definition remote_calls (tr : list event) : list api_call :=
  omap (fun e => match e with ERemote c _ => Some c | _ => None end) tr.

(** The primary call of a bulk driver creates, updates or deletes a task;
    attaching a task to a list is the secondary call. *)
Definition is_primary (c : api_call) : bool :=
  match c with
  | TaskCreate _ | TaskUpdate _ _ | TaskDelete _ => true
  | _ => false
  end.

Definition primary_calls (tr : list event) : list (api_call * call_status) :=
  omap (fun e => match e with
                 | ERemote c st => if is_primary c then Some (c, st) else None
                 | _ => None
                 end) tr.

Definition is_rejection (p : api_call * call_status) : bool :=
  match p.2 with Answered false _ _ => true | _ => false end.

(** How many primary calls the service answered with its success flag off. *)
Definition rejections (tr : list event) : nat :=
  length (List.filter is_rejection (primary_calls tr)).

(** A delay [time.sleep] takes whatever the uptime of the machine: not
    negative and below [2 ^ 62] ns (some 146 years). *)
Definition sleepable (d : Q) : Prop :=
  (0 <= d)%Q /\ (d < 4611686018427387904 # 1000000000)%Q.

(** What processing one item [x] did to the ledger, given the events [evs]
    it added to the trace.  The events begin with the primary call of the
    item and hold no other primary call.  The call was answered and
    accepted, or answered and rejected: the item is recorded and the one
    sleep of the item is its last event.  Or the call raised, or was
    accepted without the data the driver reads: the item is recorded as
    failed and there is no sleep among its events. *)
Inductive item_effect {A I} (d : Q) (x : I) (l l' : results A (failure I))
    (evs : list event) : Prop :=
| item_accepted a c k m :
    l' = append_succeeded a l ->
    head evs = Some (ERemote c (Answered true k m)) ->
    primary_calls evs = [(c, Answered true k m)] ->
    sleeps evs = [d] ->
    last evs = Some (ESleep d) ->
    item_effect d x l l' evs
| item_rejected c k m :
    l' = append_failed (Failure x (pretty k +:+ ": " +:+ m)) l ->
    head evs = Some (ERemote c (Answered false k m)) ->
    primary_calls evs = [(c, Answered false k m)] ->
    sleeps evs = [d] ->
    last evs = Some (ESleep d) ->
    item_effect d x l l' evs
| item_raised c e :
    l' = append_failed (Failure x (exn_msg e)) l ->
    head evs = Some (ERemote c (Threw e)) ->
    primary_calls evs = [(c, Threw e)] ->
    sleeps evs = [] ->
    item_effect d x l l' evs
| item_without_data c k m txt :
    l' = append_failed (Failure x txt) l ->
    head evs = Some (ERemote c (Answered true k m)) ->
    primary_calls evs = [(c, Answered true k m)] ->
    sleeps evs = [] ->
    item_effect d x l l' evs.

(** The ledger [l] and the events [evs] of a batch over the items [xs],
    from an empty ledger: the events are one segment per item, in the
    order of the items, and each segment has the [item_effect] of its item
    on the ledger built so far. *)
Inductive batch_run {A I} (d : Q) :
    list I -> results A (failure I) -> list event -> Prop :=
| batch_run_nil : batch_run d [] (Results [] []) []
| batch_run_snoc xs x l l' evs seg :
    batch_run d xs l evs ->
    item_effect d x l l' seg ->
    batch_run d (xs ++ [x]) l' (evs ++ seg).

(** What a whole batch over the items [xs] did: the ledger [oks], [fs] it
    built and the events [evs] it added. *)
Record batch_effect {A I} (d : Q) (xs : list I) (oks : list A) (fs : list (failure I))
    (evs : list event) : Prop := BatchEffect {
  batch_count : (length oks + length fs = length xs)%nat;
  batch_attempts : length (primary_calls evs) = length xs;
  batch_sleeps : sleeps evs = replicate (length oks + rejections evs) d;
  batch_faults : forall c e, (c, Threw e) ∈ primary_calls evs ->
                 exists x, x ∈ xs /\ Failure x (exn_msg e) ∈ fs;
}.

(** [isinstance(v, dict)] *)
Definition is_dict (v : pyval) : bool :=
  match v with VDict _ => true | _ => false end.

(** The run [out] of a driver from the state [s] over the items [xs] is a
    [batch_run]: item by item, a sleep of [d] closes the events of every
    item recorded as succeeded or rejected by the service, and no sleep is
    among the events of an item whose processing raised.  The sleeps of
    the run are then [d], once for each of the [n] items of the first two
    kinds, and the time slept is [n] times [d].  The ledger described is
    the one the run returns, when it returns one. *)
Definition paced {A I} (d : Q) (xs : list I)
    (s : state (results A (failure I)))
    (out : res (results A (failure I)) * state (results A (failure I))) : Prop :=
  exists evs,
    (forall l, out.1 = Ok l -> l = locals out.2) /\
    trace out.2 = (trace s ++ evs)%list /\
    batch_run d xs (locals out.2) evs /\
    let n := (length (succeeded (locals out.2)) + rejections evs)%nat in
    (n <= length xs)%nat /\
    sleeps evs = replicate n d /\
    (elapsed evs == inject_Z (Z.of_nat n) * d)%Q.

(** The environment [E] with its secondary endpoints answering as [u]. *)
Definition with_remote_unit (u : nat -> api_call -> outcome unit) (E : env) : env :=
  Env (remote_task E) (remote_items E) (remote_tasklist E) u
      (environ E) (clock E) (open_csv E) (load_json E) (open_write E).



(** The run [out] of a wrapper from the state [s] made exactly one remote
    call, which the service answered with [r]; it returned the payload of
    [r] when the success flag is on, and printed one line on the error
    stream and returned [None] when it is off. *)
Definition unwraps {L A} (s : state L) (r : response A)
    (out : res (option A) * state L) : Prop :=
  out.1 = Ok (if success r then data r else None) /\
  locals out.2 = locals s /\ ncalls out.2 = S (ncalls s) /\
  exists c diagnostic,
    trace out.2 =
      (trace s ++ ERemote c (Answered (success r) (code r) (msg r))
                  :: (if success r then [] else [EPrint Stderr diagnostic]))%list.

(** The run [out] of a wrapper from the state [s] made exactly one remote
    call, answered with [r], printed nothing and returned the success flag
    of [r]. *)
Definition returns_flag {L A} (s : state L) (r : response A)
    (out : res bool * state L) : Prop :=
  out.1 = Ok (success r) /\
  locals out.2 = locals s /\ ncalls out.2 = S (ncalls s) /\
  exists c, trace out.2 = (trace s ++ [ERemote c (Answered (success r) (code r) (msg r))])%list.

(** The tasks a list call hands to the aggregators: the items of an
    accepted response, nothing otherwise. *)
Definition fetched (r : response (list task)) : list task :=
  if success r then default [] (data r) else [].

(** The tasks of [ts] whose status is [st], in order. *)
Definition with_status (st : string) (ts : list task) : list task :=
  List.filter (fun t => String.eqb (status t) st) ts.

(** The overdue check of the aggregators, where it can be evaluated: an
    open task with a due time that parses and compares below [now]. *)
Definition overdue_at (now : datetime) (t : task) : bool :=
  FeishuTaskManager.is_open (status t) && str_truthy (due_time t) &&
  match PyDatetime.fromisoformat (replace_Z (default "" (due_time t))) with
  | Ok due => match PyDatetime.lt due now with Ok b => b | Raise _ => false end
  | Raise _ => false
  end.

(** A task ends in the overdue list of the report through the overdue
    check, or because its status string is ["overdue"]. *)
Definition lands_in_overdue (now : datetime) (t : task) : bool :=
  String.eqb (status t) "overdue" || overdue_at now t.

(** The lists of a report after the tasks [seen]. *)
Record report_of (now : datetime) (n : nat) (seen : list task) (r : report) : Prop := ReportOf {
  ro_total : total r = n;
  ro_todo : todo r = with_status "todo" seen;
  ro_in_progress : in_progress r = with_status "in_progress" seen;
  ro_completed : completed r = with_status "completed" seen;
  ro_overdue : overdue r = List.filter (lands_in_overdue now) seen;
}.

(** A message the notifier handed to the service, and what became of
    it. *)
Record message := Message {
  recipient : string;
  content : card;
  fate : call_status;
}.

(** The messages of a trace, in order. *)
Definition messages (tr : list event) : list message :=
  omap (fun e => match e with
                 | ERemote (MessageCreate to _ c) st => Some (Message to c st)
                 | _ => None
                 end) tr.

(** The service answered the call with its success flag on. *)
Definition delivered (st : call_status) : bool :=
  match st with Answered ok _ _ => ok | Threw _ => false end.

(** A timestamp the aggregators can compare with [datetime.now()]: it
    parses, after the replacement of Z, to a value without offset. *)
Definition naive_time (s : string) : bool :=
  match PyDatetime.fromisoformat (replace_Z s) with
  | Ok d => match tzinfo d with None => true | Some _ => false end
  | Raise _ => false
  end.

(** A task [generate_task_report] classifies without raising: its status
    is not the key ["total"], and its due time, when it is open and has
    one, is such a timestamp. *)
Definition classifiable (t : task) : bool :=
  negb (String.eqb (status t) "total") &&
  (negb (FeishuTaskManager.is_open (status t) && str_truthy (due_time t))
   || naive_time (default "" (due_time t))).

(** A reading of the clock that [datetime] can hold. *)
Definition valid_clock (c : civil) : bool :=
  PyDatetime.valid_fields c && (year c <=? 9999) &&
  (0 <=? hour c) && (0 <=? minute c) && (0 <=? second c) &&
  (0 <=? microsecond c) && (microsecond c <? 1000000).

(** The month and the day of [c] are in range, and its time of day is
    that of [c0]: what shifting [c0] by whole days preserves. *)
Definition calendar_ok (c0 c : civil) : Prop :=
  1 <= month c <= 12 /\
  1 <= day c <= PyDatetime.days_in_month (year c) (month c) /\
  hour c = hour c0 /\ minute c = minute c0 /\ second c = second c0 /\
  microsecond c = microsecond c0.

(** [fromisoformat(s.replace("Z", "+00:00")) > since], where it can be
    evaluated. *)
Definition later_than (since : datetime) (s : string) : bool :=
  match PyDatetime.fromisoformat (replace_Z s) with
  | Ok d => match PyDatetime.gt d since with Ok b => b | Raise _ => false end
  | Raise _ => false
  end.

(** A task the weekly digest can date: its creation time, and its
    completion time when it is completed and has one, are timestamps
    without offset. *)
Definition datable (t : task) : bool :=
  naive_time (created_time t) &&
  (negb (String.eqb (status t) "completed" && str_truthy (completed_time t))
   || naive_time (default "" (completed_time t))).

(** The tasks the weekly digest counts as completed since [since]. *)
Definition finished_since (since : datetime) (t : task) : bool :=
  String.eqb (status t) "completed" && str_truthy (completed_time t) &&
  later_than since (default "" (completed_time t)).

(** A task whose due time the daily digest can compare with the clock:
    when the task is open and has one, it is a timestamp without offset. *)
Definition due_comparable (t : task) : bool :=
  negb (FeishuTaskManager.is_open (status t) && str_truthy (due_time t))
  || naive_time (default "" (due_time t)).

(** The character between a date and a time of day: any one ASCII
    character other than Z, which the scripts replace before reading. *)
Definition separator (sep : ascii) : Prop :=
  Ascii.eqb sep "Z" = false /\ (nat_of_ascii sep < 128)%nat.

(** The texts of a date, and of a date and a time of day, without UTC
    offset, and the value each one names: [YYYY-MM-DD], and after it a
    separator followed by [HH], [HH:MM], [HH:MM:SS], [HH:MM:SS.fff] or
    [HH:MM:SS.ffffff]. *)
Inductive plain_timestamp : string -> civil -> Prop :=
| plain_date y m d :
    plain_timestamp
      (PyDatetime.pad 4 y +:+ "-" +:+ PyDatetime.pad 2 m +:+ "-" +:+ PyDatetime.pad 2 d)
      (Civil y m d 0 0 0 0)
| plain_hour y m d sep hh :
    separator sep ->
    plain_timestamp
      (PyDatetime.pad 4 y +:+ "-" +:+ PyDatetime.pad 2 m +:+ "-" +:+ PyDatetime.pad 2 d
       +:+ String sep (PyDatetime.pad 2 hh))
      (Civil y m d hh 0 0 0)
| plain_minute y m d sep hh mi :
    separator sep ->
    plain_timestamp
      (PyDatetime.pad 4 y +:+ "-" +:+ PyDatetime.pad 2 m +:+ "-" +:+ PyDatetime.pad 2 d
       +:+ String sep (PyDatetime.pad 2 hh +:+ ":" +:+ PyDatetime.pad 2 mi))
      (Civil y m d hh mi 0 0)
| plain_second y m d sep hh mi ss :
    separator sep ->
    plain_timestamp
      (PyDatetime.pad 4 y +:+ "-" +:+ PyDatetime.pad 2 m +:+ "-" +:+ PyDatetime.pad 2 d
       +:+ String sep (PyDatetime.pad 2 hh +:+ ":" +:+ PyDatetime.pad 2 mi
                       +:+ ":" +:+ PyDatetime.pad 2 ss))
      (Civil y m d hh mi ss 0)
| plain_millis y m d sep hh mi ss ms :
    separator sep ->
    plain_timestamp
      (PyDatetime.pad 4 y +:+ "-" +:+ PyDatetime.pad 2 m +:+ "-" +:+ PyDatetime.pad 2 d
       +:+ String sep (PyDatetime.pad 2 hh +:+ ":" +:+ PyDatetime.pad 2 mi
                       +:+ ":" +:+ PyDatetime.pad 2 ss +:+ "." +:+ PyDatetime.pad 3 ms))
      (Civil y m d hh mi ss (ms * 1000))
| plain_micros y m d sep hh mi ss us :
    separator sep ->
    plain_timestamp
      (PyDatetime.pad 4 y +:+ "-" +:+ PyDatetime.pad 2 m +:+ "-" +:+ PyDatetime.pad 2 d
       +:+ String sep (PyDatetime.pad 2 hh +:+ ":" +:+ PyDatetime.pad 2 mi
                       +:+ ":" +:+ PyDatetime.pad 2 ss +:+ "." +:+ PyDatetime.pad 6 us))
      (Civil y m d hh mi ss us).

(** The lines printed on standard output, in order. *)
Definition stdout (tr : list event) : list string :=
  omap (fun e => match e with EPrint Stdout text => Some text | _ => None end) tr.

(** The subcommands of the manager that act on one task or one task list
    with a single call. *)
Definition acts_once (args : FeishuTaskManager.command) : bool :=
  match args with
  | FeishuTaskManager.CmdCreate _ _ _ _ _ | FeishuTaskManager.CmdGet _
  | FeishuTaskManager.CmdUpdate _ _ _ _ _ _ | FeishuTaskManager.CmdComplete _
  | FeishuTaskManager.CmdDelete _
  | FeishuTaskManager.CmdTasklist (FeishuTaskManager.TlCreate _ _)
  | FeishuTaskManager.CmdTasklist (FeishuTaskManager.TlAddTask _ _) => true
  | _ => false
  end.

(** The request [import_from_csv] makes for a row, field by field: the
    title cell as it is read, and the description, the assignee (the
    row's, else the default) and the due date only when not empty. *)
Definition csv_request (default_assignee : option string) (r : row) : create_body :=
  let kept (o : option string) := if str_truthy o then Some (opt_val o) else None in
  CreateBody (Some (opt_val (row_get_default r "title" "Untitled")))
             (kept (row_get r "description"))
             (kept (or_else (row_get r "assignee") default_assignee))
             (if str_truthy (row_get r "due_date")
              then Some (VStr (fmt_opt (row_get r "due_date") +:+ "T23:59:59+08:00"))
              else None)
             None None.

(** ** Sample collaborators

    Concrete services, files and tasks on which the statements below are
    exercised. *)

Module Samples.

Definition mk_task (id st : string) (due : option string) : task :=
  Task id ("Task " +:+ id) None st None due "2024-01-01T00:00:00" "https://example/t" None [].

Definition noon : civil := Civil 2026 11 4 12 0 0 0.

Definition accepted {A} (d : option A) : outcome A := Returned (Response true 0 "success" d).
Definition rejected {A} : outcome A := Returned (Response false 99991663 "not found" None).
Definition outage {A} : outcome A := Raised (Exn "ConnectionError" "connection reset").

(** A service that accepts everything and lists [ts]; no credentials in
    the environment; a CSV file with the rows [rows]; a JSON file [js]. *)
Definition quiet (ts : list task) (rows : list row) (js : pyval) : env :=
  Env (fun _ _ => accepted (Some (mk_task "t_new" "todo" None)))
      (fun _ _ => accepted (Some ts))
      (fun _ _ => accepted (Some (Tasklist "tl_1" "Sprint")))
      (fun _ _ => accepted None)
      ∅ noon
      (fun _ => Ok (rows, None)) (fun _ => Ok js) (fun _ => None).

(** The same, with the task endpoints and the secondary endpoints
    replaced. *)
Definition with_remote (f : nat -> api_call -> outcome task)
    (u : nat -> api_call -> outcome unit) (E : env) : env :=
  Env f (remote_items E) (remote_tasklist E) u
      (environ E) (clock E) (open_csv E) (load_json E) (open_write E).

Definition empty_ledger {A B} : state (results A B) := init_state (Results [] []).

(** A service that is down: every task call and every secondary call
    raises. *)
Definition down : env :=
  with_remote (fun _ _ => outage) (fun _ _ => outage) (quiet [] [] (VList [])).

Definition empty_report : state report := init_state (Report 0 [] [] [] []).

(** Tasks due on the first day of 2024: one open with a naive timestamp,
    one open with the offset the scripts themselves write, one completed,
    and tasks with unusual status strings. *)
Definition late_naive : task := mk_task "t_1" "todo" (Some "2024-01-01T23:59:59").
Definition late_aware : task := mk_task "t_2" "todo" (Some "2024-01-01T23:59:59+08:00").
Definition late_done : task := mk_task "t_3" "completed" (Some "2024-01-01T23:59:59").
Definition archived : task := mk_task "t_4" "archived" None.
Definition marked_overdue : task := mk_task "t_5" "overdue" None.

Definition mixed_tasks : list task := [late_naive; late_done; archived].

(** The report computed for [mixed_tasks], and the state it leaves. *)
Definition mixed_report : report :=
  Eval vm_compute in
    match (FeishuTaskManager.generate_task_report (quiet mixed_tasks [] VNone) None
             empty_report).1 with
    | Ok r => r
    | Raise _ => Report 0 [] [] [] []
    end.

Definition mixed_state : state report :=
  Eval vm_compute in
    (FeishuTaskManager.generate_task_report (quiet mixed_tasks [] VNone) None
       empty_report).2.

(** Tasks whose ids need quoting in a CSV file: a comma, a double quote
    and a line break inside the id. *)
Definition awkward_id : string :=
  "a,b" +:+ String PyCsv.dquote ("c" +:+ PyCsv.line_terminator +:+ "d").

Definition awkward_tasks : list task :=
  [mk_task awkward_id "todo" None; mk_task "t_7" "completed" (Some "2024-01-01")].

(** A CSV file that yields one row and then cannot be decoded. *)
Definition torn_csv : env :=
  Env (fun _ _ => accepted (Some (mk_task "t_new" "todo" None)))
      (fun _ _ => accepted (Some []))
      (fun _ _ => accepted None)
      (fun _ _ => accepted None)
      ∅ noon
      (fun _ => Ok ([ {[ "title" := Some "Write report" ]} ],
                    Some (Exn "UnicodeDecodeError" "invalid start byte")))
      (fun _ => Ok (VList [])) (fun _ => None).

(** A service that rejects every call. *)
Definition refusing : env :=
  Env (fun _ _ => rejected) (fun _ _ => rejected) (fun _ _ => rejected) (fun _ _ => rejected)
      ∅ noon (fun _ => Ok ([], None)) (fun _ => Ok (VList [])) (fun _ => None).

(** A service that accepts the first call, rejects the second and is
    unreachable for the third and later ones. *)
Definition flaky : env :=
  with_remote (fun n _ => match n with
                          | O => accepted (Some (mk_task "t_new" "todo" None))
                          | S O => rejected
                          | _ => outage
                          end)
              (fun _ _ => accepted None) (quiet [] [] (VList [])).

(** A finished task with two followers, an identity in the environment,
    and a service that returns the task and loses the message of its second
    call. *)
Definition followed : task :=
  Task "t_9" "Ship it" None "completed" None None "2024-01-01T00:00:00"
       "https://example/t9" (Some "2024-01-02T00:00:00") ["ou_a"; "ou_b"].

Definition lossy : env :=
  Env (fun _ _ => accepted (Some followed))
      (fun _ _ => accepted (Some [followed]))
      (fun _ _ => accepted (Some (Tasklist "tl_1" "Sprint")))
      (fun n _ => match n with S O => outage | _ => accepted None end)
      {[ "FEISHU_USER_ID" := "ou_me" ]} noon
      (fun _ => Ok ([], None)) (fun _ => Ok (VList [])) (fun _ => None).

(** A service that accepts every call and returns no data. *)
Definition hollow : env :=
  Env (fun _ _ => accepted None) (fun _ _ => accepted None) (fun _ _ => accepted None)
      (fun _ _ => accepted None)
      ∅ noon (fun _ => Ok ([], None)) (fun _ => Ok (VList [])) (fun _ => None).

(** A task whose creation time is written with the UTC designator. *)
Definition utc_stamped : task :=
  Task "t_8" "Review" None "todo" None None "2026-11-01T08:00:00Z" "https://example/t8"
       None [].

(** The flaky service, reading a CSV file of three rows and a JSON file
    of three objects. *)
Definition three_rows : list row :=
  [ {[ "title" := Some "Write report" ]}; {[ "title" := Some "Book room" ]};
    {[ "title" := Some "Send invites" ]} ].

Definition three_objects : list pyval :=
  [ VDict [("title", VStr "Write report")]; VDict [("title", VStr "Book room")];
    VDict [("title", VStr "Send invites")] ].

Definition flaky_files : env :=
  Env (remote_task flaky) (remote_items flaky) (remote_tasklist flaky) (remote_unit flaky)
      ∅ noon
      (fun _ => Ok (three_rows, None)) (fun _ => Ok (VList three_objects)) (fun _ => None).

(** The service that returns no data, reading the same files. *)
Definition hollow_files : env :=
  Env (remote_task hollow) (remote_items hollow) (remote_tasklist hollow)
      (remote_unit hollow) ∅ noon
      (fun _ => Ok (three_rows, None)) (fun _ => Ok (VList three_objects)) (fun _ => None).

(** The flaky service, with the credentials of an app in the
    environment. *)
Definition flaky_app : env :=
  Env (remote_task flaky) (remote_items flaky) (remote_tasklist flaky) (remote_unit flaky)
      {[ "FEISHU_APP_ID" := "cli_a1"; "FEISHU_APP_SECRET" := "s3cret" ]} noon
      (open_csv flaky) (load_json flaky) (open_write flaky).

(** An open task due at ten in the morning, written without seconds. *)
Definition due_at_ten : task := mk_task "t_6" "in_progress" (Some "2024-01-01T10:00").

(** A task created three days before [noon], at a time written without
    seconds, and completed the day before [noon]. *)
Definition planned : task :=
  Task "t_10" "Plan" None "completed" None None "2026-11-01T08:00" "https://example/t10"
       (Some "2026-11-03") [].

Definition week_tasks : list task := [planned; late_naive; late_done].

(** Tasks of every kind the report tells apart. *)
Definition office_tasks : list task :=
  [late_naive; late_done; due_at_ten; marked_overdue; archived].

(** A service that accepts everything and lists [ts], with the
    credentials of an app in the environment. *)
Definition office (ts : list task) : env :=
  Env (remote_task (quiet ts [] VNone)) (remote_items (quiet ts [] VNone))
      (remote_tasklist (quiet ts [] VNone)) (remote_unit (quiet ts [] VNone))
      {[ "FEISHU_APP_ID" := "cli_a1"; "FEISHU_APP_SECRET" := "s3cret" ]} noon
      (open_csv (quiet ts [] VNone)) (load_json (quiet ts [] VNone))
      (open_write (quiet ts [] VNone)).

End Samples.

(** * Verified properties *)

Ltac unfold_py :=
  unfold mbind, mret, M_bind, M_ret, bind, ret, raise, lift, try_except, when,
    get_locals, modify_locals, emit, call, sleep, print, print_err in *;
  cbn [fst snd locals ncalls trace succeeded failed] in *.

(** ** Loops *)

(** A loop whose body completes on every item satisfying [P] and carries an
    invariant from the items already processed to one more, completes on a
    list of such items and establishes the invariant for all of them. *)
Lemma for_each_inv {S X} (P : X -> Prop) (I : list X -> S -> Prop) (body : X -> M S unit) :
  (forall pre x s, P x -> I pre s ->
     exists s', body x s = (Ok tt, s') /\ I (pre ++ [x])%list s') ->
  forall xs pre s, Forall P xs -> I pre s ->
    exists s', for_each xs body s = (Ok tt, s') /\ I (pre ++ xs)%list s'.
Proof.
  intros Hstep xs. induction xs as [|x xs IH]; intros pre s HP HI; cbn [for_each].
  - exists s. rewrite app_nil_r. split; [reflexivity | assumption].
  - apply Forall_cons in HP as [Hx HP].
    destruct (Hstep pre x s Hx HI) as (s1 & Hb & HI1).
    destruct (IH _ _ HP HI1) as (s2 & Hl & HI2).
    exists s2. unfold bind. rewrite Hb. rewrite <- app_assoc in HI2. split; assumption.
Qed.

Lemma for_each_nil {S X} (body : X -> M S unit) (s : S) :
  for_each [] body s = (Ok tt, s).
Proof. reflexivity. Qed.

(** ** Credentials *)

Section Credentials.
Context (E : env).

Lemma or_else_absent (k : string) :
  getenv E k = None -> str_truthy (or_else None (getenv E k)) = false.
Proof. intros H. unfold or_else. rewrite H. reflexivity. Qed.

Lemma str_truthy_nonempty (o : option string) :
  str_truthy o = true -> default "" o <> "".
Proof.
  destruct o as [x|]; cbn; [|discriminate].
  destruct (String.eqb_spec x ""); cbn; [discriminate | auto].
Qed.

(** A client that was constructed holds two non-empty credentials. *)
Lemma manager_client_has_credentials {L} a b (s s' : state L) c :
  FeishuTaskManager.__init__ E a b s = (Ok c, s') ->
  FeishuTaskManager.app_id c <> "" /\ FeishuTaskManager.app_secret c <> "" /\ s' = s.
Proof.
  unfold FeishuTaskManager.__init__. unfold_py.
  destruct (str_truthy (or_else a _)) eqn:Ta;
    destruct (str_truthy (or_else b _)) eqn:Tb; cbn; try discriminate.
  intros [= <- <-]. cbn. auto using str_truthy_nonempty.
Qed.
End Credentials.

(** C7. When the app id or the app secret is neither passed nor set in the
    environment, constructing any of the three clients raises [ValueError]
    and leaves the state as it was: no remote call is made, and no client
    object comes into existence. *)
Theorem credentials_absent_is_fatal (E : env) (L : Type) (app_id app_secret : option string)
    (s : state L) :
  (app_id = None /\ getenv E "FEISHU_APP_ID" = None) \/
  (app_secret = None /\ getenv E "FEISHU_APP_SECRET" = None) ->
  (exists m, FeishuTaskManager.__init__ E app_id app_secret s = (Raise (Exn "ValueError" m), s)) /\
  (exists m, BulkTaskOperations.__init__ E app_id app_secret s = (Raise (Exn "ValueError" m), s)) /\
  (exists m, TaskNotifier.__init__ E app_id app_secret s = (Raise (Exn "ValueError" m), s)).
Proof.
  intros H.
  assert (Hc : negb (str_truthy (or_else app_id (getenv E "FEISHU_APP_ID")))
               || negb (str_truthy (or_else app_secret (getenv E "FEISHU_APP_SECRET"))) = true).
  { destruct H as [[-> Hk] | [-> Hk]]; rewrite (or_else_absent E _ Hk); cbn;
      [reflexivity | apply orb_true_r]. }
  unfold FeishuTaskManager.__init__, BulkTaskOperations.__init__, TaskNotifier.__init__.
  rewrite Hc. unfold raise. repeat split; eexists; reflexivity.
Qed.

Lemma credentials_absent_is_fatal_witness :
  let E := Samples.quiet [] [] VNone in
  (exists m, FeishuTaskManager.__init__ E (Some "cli_a1") None (init_state tt)
             = (Raise (Exn "ValueError" m), init_state tt)) /\
  (exists m, BulkTaskOperations.__init__ E (Some "cli_a1") None (init_state tt)
             = (Raise (Exn "ValueError" m), init_state tt)) /\
  (exists m, TaskNotifier.__init__ E (Some "cli_a1") None (init_state tt)
             = (Raise (Exn "ValueError" m), init_state tt)).
Proof.
  apply (credentials_absent_is_fatal (Samples.quiet [] [] VNone) unit (Some "cli_a1") None
           (init_state tt)).
  right. split; reflexivity.
Defined.

(** ** Traces *)

Lemma sleeps_app t1 t2 : sleeps (t1 ++ t2) = (sleeps t1 ++ sleeps t2)%list.
Proof. apply omap_app. Qed.

Lemma primary_calls_app t1 t2 :
  primary_calls (t1 ++ t2) = (primary_calls t1 ++ primary_calls t2)%list.
Proof. apply omap_app. Qed.

Lemma remote_calls_app t1 t2 :
  remote_calls (t1 ++ t2) = (remote_calls t1 ++ remote_calls t2)%list.
Proof. apply omap_app. Qed.

Lemma rejections_app t1 t2 : rejections (t1 ++ t2) = (rejections t1 + rejections t2)%nat.
Proof.
  unfold rejections. rewrite primary_calls_app, List.filter_app, length_app. reflexivity.
Qed.

(** ** The ledger of a batch *)

Lemma batch_effect_nil {A I} (d : Q) : @batch_effect A I d [] [] [] [].
Proof.
  split; try reflexivity. intros c e H. cbn in H. inversion H.
Qed.
Lemma replicate_snoc {A} (n : nat) (d : A) : (replicate n d ++ [d])%list = replicate (S n) d.
Proof. symmetry. apply replicate_cons_app. Qed.

(** One more item extends the effect of the batch. *)
Lemma batch_effect_snoc {A I} (d : Q) (pre : list I) (x : I)
    (l l' : results A (failure I)) (evs evs1 : list event) :
  batch_effect d pre (succeeded l) (failed l) evs ->
  item_effect d x l l' evs1 ->
  batch_effect d (pre ++ [x]) (succeeded l') (failed l') (evs ++ evs1).
Proof.
  intros [Hc Ha Hs Hf] Hi.
  assert (Hold : forall z c e, (c, Threw e) ∈ primary_calls evs ->
            exists y, y ∈ (pre ++ [x])%list /\
                      Failure y (exn_msg e) ∈ (failed l ++ z)%list).
  { intros z c e Hin. destruct (Hf _ _ Hin) as (y & Hy & Hin').
    exists y. split; apply elem_of_app; auto. }
  assert (Hlen : forall st, length (primary_calls evs1) = 1%nat ->
            primary_calls evs1 = [st] ->
            length (primary_calls (evs ++ evs1)) = length (pre ++ [x])%list).
  { intros st H1 _. rewrite primary_calls_app, !length_app, H1, Ha. reflexivity. }
  destruct Hi as [a c k m -> _ Hp Hsl _ | c k m -> _ Hp Hsl _ | c e -> _ Hp Hsl
                 | c k m txt -> _ Hp Hsl];
    split; cbn [append_succeeded append_failed succeeded failed];
    try (rewrite !length_app in *; cbn; lia);
    try (eapply Hlen; [rewrite Hp; reflexivity | eassumption]).
  - rewrite sleeps_app, rejections_app, Hs, Hsl. unfold rejections at 3. rewrite Hp. cbn.
    rewrite length_app, replicate_snoc. cbn [length]. f_equal. lia.
  - intros c' e'. rewrite primary_calls_app, Hp. intros Hin.
    apply elem_of_app in Hin as [Hin | Hin].
    + destruct (Hold [] _ _ Hin) as (y & ? & ?). rewrite app_nil_r in *. eauto.
    + apply list_elem_of_singleton in Hin. discriminate.
  - rewrite sleeps_app, rejections_app, Hs, Hsl. unfold rejections at 3. rewrite Hp. cbn.
    rewrite replicate_snoc. f_equal. lia.
  - intros c' e'. rewrite primary_calls_app, Hp. intros Hin.
    apply elem_of_app in Hin as [Hin | Hin]; [eauto |].
    apply list_elem_of_singleton in Hin. discriminate.
  - rewrite sleeps_app, rejections_app, Hs, Hsl. unfold rejections at 3. rewrite Hp. cbn.
    rewrite app_nil_r. f_equal. lia.
  - intros c' e'. rewrite primary_calls_app, Hp. intros Hin.
    apply elem_of_app in Hin as [Hin | Hin]; [eauto |].
    apply list_elem_of_singleton in Hin. injection Hin as -> ->.
    exists x. split; apply elem_of_app; right; apply list_elem_of_singleton; reflexivity.
  - rewrite sleeps_app, rejections_app, Hs, Hsl. unfold rejections at 3. rewrite Hp. cbn.
    rewrite app_nil_r. f_equal. lia.
  - intros c' e'. rewrite primary_calls_app, Hp. intros Hin.
    apply elem_of_app in Hin as [Hin | Hin]; [eauto |].
    apply list_elem_of_singleton in Hin. discriminate.
Qed.

(** A [batch_run] has the [batch_effect] on its items. *)
Lemma batch_run_effect {A I} (d : Q) (xs : list I) (l : results A (failure I))
    (evs : list event) :
  batch_run d xs l evs -> batch_effect d xs (succeeded l) (failed l) evs.
Proof.
  induction 1 as [|xs x l l' evs seg _ IH Hi].
  - apply batch_effect_nil.
  - eapply batch_effect_snoc; eassumption.
Qed.

(** A loop whose body has an [item_effect] on every item is a [batch_run]
    over the list. *)
Lemma batch_loop {A I} (d : Q) (P : I -> Prop)
    (body : I -> M (state (results A (failure I))) unit) :
  (forall x st, P x ->
     exists st' evs, body x st = (Ok tt, st') /\ trace st' = (trace st ++ evs)%list /\
                     item_effect d x (locals st) (locals st') evs) ->
  forall xs s, Forall P xs -> locals s = Results [] [] ->
    exists s' evs, for_each xs body s = (Ok tt, s') /\ trace s' = (trace s ++ evs)%list /\
                   batch_run d xs (locals s') evs.
Proof.
  intros Hstep xs s HP Hl.
  destruct (for_each_inv P
    (fun pre st => exists evs, trace st = (trace s ++ evs)%list /\
        batch_run d pre (locals st) evs) body)
    with (xs := xs) (pre := @nil I) (s := s) as (s' & Hrun & evs & Ht & Hb).
  - intros pre x st Hx (evs & Ht & Hb).
    destruct (Hstep x st Hx) as (st' & evs1 & Hrun & Ht1 & Hi).
    exists st'. split; [assumption|]. exists (evs ++ evs1)%list. split.
    + rewrite Ht1, Ht, app_assoc. reflexivity.
    + econstructor; eassumption.
  - assumption.
  - exists []. rewrite app_nil_r, Hl. split; [reflexivity | constructor].
  - exists s', evs. auto.
Qed.

Lemma sleepable_checks (d : Q) :
  sleepable d -> overflows d = false /\ Qle_bool 0 d = true.
Proof.
  intros [H0 H1]. split; [|apply Qle_bool_iff; exact H0].
  unfold overflows. apply orb_false_intro.
  - apply negb_false_iff, Qle_bool_iff.
    apply Qle_trans with 0%Q; [discriminate | exact H0].
  - destruct (Qle_bool sleep_limit d) eqn:Hq; [|reflexivity].
    apply Qle_bool_iff in Hq. exfalso.
    apply (Qlt_not_le _ _ H1). eapply Qle_trans; [|exact Hq]. discriminate.
Qed.
(** ** The bulk drivers, item by item *)

Ltac trace_eq := cbn [trace]; rewrite <- ?app_assoc; reflexivity.

Ltac item_done :=
  eexists _, _; split; [reflexivity | split; [trace_eq | ]];
  cbn [locals];
  first [ eapply item_accepted; reflexivity
        | eapply item_rejected; reflexivity
        | eapply item_raised; reflexivity
        | eapply item_without_data; reflexivity ].

Lemma run_bind {S A B} (m : M S A) (k : A -> M S B) (s s' : S) (a : A) :
  m s = (Ok a, s') -> bind m k s = k a s'.
Proof. intros H. unfold bind. rewrite H. reflexivity. Qed.

Lemma run_bind_raise {S A B} (m : M S A) (k : A -> M S B) (s s' : S) (e : exn) :
  m s = (Raise e, s') -> bind m k s = (Raise e, s').
Proof. intros H. unfold bind. rewrite H. reflexivity. Qed.

(** The three ways an update or delete of one task can go. *)
Ltac bulk_step E d Hd :=
  let r := fresh "r" in let e := fresh "e" in
  intros ? ? _; unfold_py; rewrite (proj1 Hd), (proj2 Hd);
  match goal with
  | |- context [?srv E (ncalls ?st) ?c] =>
      destruct (srv E (ncalls st) c) as [r|e]; cbn;
      [ destruct (success r); cbn; item_done | item_done ]
  end.

Ltac bulk_loop E d Hd ids :=
  unfold mbind at 1 2; unfold M_bind, bind at 1; unfold modify_locals at 1;
  match goal with
  | |- context [bind (for_each ids ?body) _ ?s0] =>
      let s' := fresh "s'" in let evs := fresh "evs" in
      let Hrun := fresh "Hrun" in
      destruct (batch_loop d (fun _ => True) body) with (xs := ids) (s := s0)
        as (s' & evs & Hrun & ? & ?);
      [ bulk_step E d Hd
      | apply Forall_forall; auto
      | reflexivity
      | exists s', evs; rewrite (run_bind _ _ _ _ _ Hrun); unfold get_locals; auto ]
  end.

Section BulkDrivers.
Context (E : env).

Lemma bulk_assign_run ids a d (s : state (results string (failure string))) :
  sleepable d ->
  exists s' evs,
    BulkTaskOperations.bulk_assign E ids a d s = (Ok (locals s'), s') /\
    trace s' = (trace s ++ evs)%list /\
    batch_run d ids (locals s') evs.
Proof.
  intros Hd. apply sleepable_checks in Hd.
  unfold BulkTaskOperations.bulk_assign. bulk_loop E d Hd ids.
Qed.

Lemma bulk_assign_effect ids a d (s : state (results string (failure string))) :
  sleepable d ->
  exists s' evs,
    BulkTaskOperations.bulk_assign E ids a d s = (Ok (locals s'), s') /\
    trace s' = (trace s ++ evs)%list /\
    batch_effect d ids (succeeded (locals s')) (failed (locals s')) evs.
Proof.
  intros Hd. destruct (bulk_assign_run ids a d s Hd) as (s' & evs & ? & ? & ?).
  exists s', evs. auto using batch_run_effect.
Qed.

Lemma bulk_update_status_run ids a d (s : state (results string (failure string))) :
  sleepable d ->
  exists s' evs,
    BulkTaskOperations.bulk_update_status E ids a d s = (Ok (locals s'), s') /\
    trace s' = (trace s ++ evs)%list /\
    batch_run d ids (locals s') evs.
Proof.
  intros Hd. apply sleepable_checks in Hd.
  unfold BulkTaskOperations.bulk_update_status. bulk_loop E d Hd ids.
Qed.

Lemma bulk_update_status_effect ids a d (s : state (results string (failure string))) :
  sleepable d ->
  exists s' evs,
    BulkTaskOperations.bulk_update_status E ids a d s = (Ok (locals s'), s') /\
    trace s' = (trace s ++ evs)%list /\
    batch_effect d ids (succeeded (locals s')) (failed (locals s')) evs.
Proof.
  intros Hd. destruct (bulk_update_status_run ids a d s Hd) as (s' & evs & ? & ? & ?).
  exists s', evs. auto using batch_run_effect.
Qed.

Lemma bulk_set_due_date_run ids a d (s : state (results string (failure string))) :
  sleepable d ->
  exists s' evs,
    BulkTaskOperations.bulk_set_due_date E ids a d s = (Ok (locals s'), s') /\
    trace s' = (trace s ++ evs)%list /\
    batch_run d ids (locals s') evs.
Proof.
  intros Hd. apply sleepable_checks in Hd.
  unfold BulkTaskOperations.bulk_set_due_date. cbv zeta. bulk_loop E d Hd ids.
Qed.

Lemma bulk_set_due_date_effect ids a d (s : state (results string (failure string))) :
  sleepable d ->
  exists s' evs,
    BulkTaskOperations.bulk_set_due_date E ids a d s = (Ok (locals s'), s') /\
    trace s' = (trace s ++ evs)%list /\
    batch_effect d ids (succeeded (locals s')) (failed (locals s')) evs.
Proof.
  intros Hd. destruct (bulk_set_due_date_run ids a d s Hd) as (s' & evs & ? & ? & ?).
  exists s', evs. auto using batch_run_effect.
Qed.

Lemma bulk_delete_run ids d (s : state (results string (failure string))) :
  sleepable d ->
  exists s' evs,
    BulkTaskOperations.bulk_delete E ids d s = (Ok (locals s'), s') /\
    trace s' = (trace s ++ evs)%list /\
    batch_run d ids (locals s') evs.
Proof.
  intros Hd. apply sleepable_checks in Hd.
  unfold BulkTaskOperations.bulk_delete. bulk_loop E d Hd ids.
Qed.

Lemma bulk_delete_effect ids d (s : state (results string (failure string))) :
  sleepable d ->
  exists s' evs,
    BulkTaskOperations.bulk_delete E ids d s = (Ok (locals s'), s') /\
    trace s' = (trace s ++ evs)%list /\
    batch_effect d ids (succeeded (locals s')) (failed (locals s')) evs.
Proof.
  intros Hd. destruct (bulk_delete_run ids d s Hd) as (s' & evs & ? & ? & ?).
  exists s', evs. auto using batch_run_effect.
Qed.
End BulkDrivers.

Section ImportDrivers.
Context (E : env).

Lemma import_from_csv_run path tl da rows err
    (s : state (results task (failure row))) :
  open_csv E path = Ok (rows, err) ->
  exists s' evs,
    BulkTaskOperations.import_from_csv E path tl da s =
      (match err with Some e => Raise e | None => Ok (locals s') end, s') /\
    trace s' = (trace s ++ evs)%list /\
    batch_run (2 # 10) rows (locals s') evs.
Proof.
  intros Hopen. unfold BulkTaskOperations.import_from_csv.
  unfold mbind at 1 2 3. unfold M_bind, bind at 1 2. unfold modify_locals at 1.
  unfold lift at 1. rewrite Hopen. cbn [fst snd].
  match goal with
  | |- context [bind (for_each rows ?body) _ ?s0] =>
      destruct (batch_loop (2 # 10) (fun _ => True) body) with (xs := rows) (s := s0)
        as (s' & evs & Hrun & ? & ?)
  end.
  - intros x st _. unfold BulkTaskOperations._add_to_tasklist. unfold_py.
    change (overflows (2 # 10)) with false. change (Qle_bool 0 (2 # 10)) with true.
    cbv iota.
    match goal with
    | |- context [remote_task E (ncalls st) ?c] =>
        destruct (remote_task E (ncalls st) c) as [r|e]; cbn; [|item_done]
    end.
    destruct (success r); cbn; [|item_done].
    destruct (data r) as [t|]; cbn; [|item_done].
    destruct (str_truthy tl); cbn; [|item_done].
    match goal with
    | |- context [remote_unit E ?n ?c] =>
        destruct (remote_unit E n c) as [r'|e']; cbn; item_done
    end.
  - apply Forall_forall; auto.
  - reflexivity.
  - exists s', evs. rewrite (run_bind _ _ _ _ _ Hrun).
    destruct err; unfold raise, get_locals; auto.
Qed.

Lemma import_from_csv_effect path tl da rows err
    (s : state (results task (failure row))) :
  open_csv E path = Ok (rows, err) ->
  exists s' evs,
    BulkTaskOperations.import_from_csv E path tl da s =
      (match err with Some e => Raise e | None => Ok (locals s') end, s') /\
    trace s' = (trace s ++ evs)%list /\
    batch_effect (2 # 10) rows (succeeded (locals s')) (failed (locals s')) evs.
Proof.
  intros Hopen.
  destruct (import_from_csv_run path tl da rows err s Hopen) as (s' & evs & ? & ? & ?).
  exists s', evs. auto using batch_run_effect.
Qed.

Lemma import_from_json_run path tl v items
    (s : state (results task (failure pyval))) :
  load_json E path = Ok v ->
  py_iter v = Ok items ->
  Forall (fun x => is_dict x = true) items ->
  exists s' evs,
    BulkTaskOperations.import_from_json E path tl s = (Ok (locals s'), s') /\
    trace s' = (trace s ++ evs)%list /\
    batch_run (2 # 10) items (locals s') evs.
Proof.
  intros Hload Hiter Hdict. unfold BulkTaskOperations.import_from_json.
  unfold mbind at 1 2 3 4. unfold M_bind, bind at 1 2 3. unfold modify_locals at 1.
  unfold lift at 1 2. rewrite Hload, Hiter.
  match goal with
  | |- context [bind (for_each items ?body) _ ?s0] =>
      destruct (batch_loop (2 # 10) (fun x => is_dict x = true) body)
        with (xs := items) (s := s0) as (s' & evs & Hrun & ? & ?)
  end.
  - intros x st Hx. destruct x; try discriminate Hx.
    unfold BulkTaskOperations._add_to_tasklist. unfold_py. cbn [py_get].
    change (overflows (2 # 10)) with false. change (Qle_bool 0 (2 # 10)) with true.
    cbv iota.
    match goal with
    | |- context [remote_task E (ncalls st) ?c] =>
        destruct (remote_task E (ncalls st) c) as [r|e]; cbn; [|item_done]
    end.
    destruct (success r); cbn; [|item_done].
    destruct (data r) as [t|]; cbn; [|item_done].
    destruct (str_truthy tl); cbn; [|item_done].
    match goal with
    | |- context [remote_unit E ?n ?c] =>
        destruct (remote_unit E n c) as [r'|e']; cbn; item_done
    end.
  - assumption.
  - reflexivity.
  - exists s', evs. rewrite (run_bind _ _ _ _ _ Hrun). unfold get_locals; auto.
Qed.

Lemma import_from_json_effect path tl v items
    (s : state (results task (failure pyval))) :
  load_json E path = Ok v ->
  py_iter v = Ok items ->
  Forall (fun x => is_dict x = true) items ->
  exists s' evs,
    BulkTaskOperations.import_from_json E path tl s = (Ok (locals s'), s') /\
    trace s' = (trace s ++ evs)%list /\
    batch_effect (2 # 10) items (succeeded (locals s')) (failed (locals s')) evs.
Proof.
  intros Hl Hi Hd.
  destruct (import_from_json_run path tl v items s Hl Hi Hd) as (s' & evs & ? & ? & ?).
  exists s', evs. auto using batch_run_effect.
Qed.
End ImportDrivers.

(** ** The ledger and the rate limit *)

Section DriverCorollaries.
Context (E : env).

(** Every rejection of a batch left a failure entry. *)
Lemma batch_run_rejections {A I} d (xs : list I) (l : results A (failure I)) evs :
  batch_run d xs l evs -> (rejections evs <= length (failed l))%nat.
Proof.
  induction 1 as [|xs x l l' evs seg _ IH Hi]; [reflexivity|].
  rewrite rejections_app. unfold rejections at 2.
  destruct Hi as [a c k m -> _ Hp _ _ | c k m -> _ Hp _ _ | c e -> _ Hp _
                 | c k m txt -> _ Hp _];
    rewrite Hp; cbn [append_succeeded append_failed succeeded failed];
    rewrite ?length_app; cbn; lia.
Qed.

Lemma slept_replicate (n : nat) (d : Q) :
  (foldr Qplus 0 (replicate n d) == inject_Z (Z.of_nat n) * d)%Q.
Proof.
  induction n as [|n IH].
  - cbn. ring.
  - cbn [replicate foldr]. rewrite IH, Nat2Z.inj_succ. unfold Z.succ.
    rewrite inject_Z_plus. ring.
Qed.

Lemma run_paced {A I} d (xs : list I) (s s' : state (results A (failure I)))
    (r : res (results A (failure I))) evs :
  (forall l, r = Ok l -> l = locals s') ->
  trace s' = (trace s ++ evs)%list ->
  batch_run d xs (locals s') evs ->
  paced d xs s (r, s').
Proof.
  intros Hl Ht Hb. exists evs. cbn [fst snd].
  pose proof (batch_run_rejections _ _ _ _ Hb) as Hr.
  destruct (batch_run_effect _ _ _ _ Hb) as [Hc _ Hs _].
  split; [assumption|]. split; [assumption|]. split; [assumption|]. cbv zeta.
  split; [lia|]. split; [assumption|].
  unfold elapsed. rewrite Hs. apply slept_replicate.
Qed.

(** For a delay [time.sleep] takes, every driver returns a ledger with
    one entry per input item. *)
Lemma ledger_count_bulk ids a d (s : state (results string (failure string))) :
  sleepable d ->
  (forall r s', BulkTaskOperations.bulk_assign E ids a d s = (r, s') ->
     exists l, r = Ok l /\ (length (succeeded l) + length (failed l) = length ids)%nat) /\
  (forall r s', BulkTaskOperations.bulk_update_status E ids a d s = (r, s') ->
     exists l, r = Ok l /\ (length (succeeded l) + length (failed l) = length ids)%nat) /\
  (forall r s', BulkTaskOperations.bulk_set_due_date E ids a d s = (r, s') ->
     exists l, r = Ok l /\ (length (succeeded l) + length (failed l) = length ids)%nat) /\
  (forall r s', BulkTaskOperations.bulk_delete E ids d s = (r, s') ->
     exists l, r = Ok l /\ (length (succeeded l) + length (failed l) = length ids)%nat).
Proof.
  intros Hd. repeat split; intros r s' Hrun.
  - destruct (bulk_assign_effect E ids a d s Hd) as (s1 & evs & H1 & _ & [Hc _ _ _]).
    rewrite H1 in Hrun. injection Hrun as <- <-. eauto.
  - destruct (bulk_update_status_effect E ids a d s Hd) as (s1 & evs & H1 & _ & [Hc _ _ _]).
    rewrite H1 in Hrun. injection Hrun as <- <-. eauto.
  - destruct (bulk_set_due_date_effect E ids a d s Hd) as (s1 & evs & H1 & _ & [Hc _ _ _]).
    rewrite H1 in Hrun. injection Hrun as <- <-. eauto.
  - destruct (bulk_delete_effect E ids d s Hd) as (s1 & evs & H1 & _ & [Hc _ _ _]).
    rewrite H1 in Hrun. injection Hrun as <- <-. eauto.
Qed.

(** The import drivers sleep a fixed 0.2 s, so their ledgers always count
    one entry per row (or per JSON object) when they return. *)
Lemma ledger_count_import path tl da rows v items
    (s : state (results task (failure row))) (s2 : state (results task (failure pyval))) :
  open_csv E path = Ok (rows, None) ->
  load_json E path = Ok v -> py_iter v = Ok items ->
  Forall (fun x => is_dict x = true) items ->
  (exists l s', BulkTaskOperations.import_from_csv E path tl da s = (Ok l, s') /\
     (length (succeeded l) + length (failed l) = length rows)%nat) /\
  (exists l s', BulkTaskOperations.import_from_json E path tl s2 = (Ok l, s') /\
     (length (succeeded l) + length (failed l) = length items)%nat).
Proof.
  intros Hc Hl Hi Hd. split.
  - destruct (import_from_csv_effect E path tl da rows None s Hc)
      as (s1 & evs & H1 & _ & [Hn _ _ _]). eauto.
  - destruct (import_from_json_effect E path tl v items s2 Hl Hi Hd)
      as (s1 & evs & H1 & _ & [Hn _ _ _]). eauto.
Qed.

(** A primary call that raised left a failure entry with the exception's
    message, and every item of the batch was attempted. *)
Lemma fault_is_recorded_bulk ids a d (s : state (results string (failure string))) :
  sleepable d ->
  exists l s' evs,
    BulkTaskOperations.bulk_assign E ids a d s = (Ok l, s') /\
    trace s' = (trace s ++ evs)%list /\
    length (primary_calls evs) = length ids /\
    forall c e, (c, Threw e) ∈ primary_calls evs ->
                exists x, x ∈ ids /\ Failure x (exn_msg e) ∈ failed l.
Proof.
  intros Hd.
  destruct (bulk_assign_effect E ids a d s Hd) as (s1 & evs & H1 & Ht & [_ Ha _ Hf]).
  exists (locals s1), s1, evs. auto.
Qed.
End DriverCorollaries.

(** C1. With a negative [delay], a task whose update the service accepts is
    entered in the ledger twice: under the success key, and again under
    ["failed"] when [time.sleep] rejects the delay inside the same [try]
    block, with the message of its [ValueError] (of its [OverflowError]
    for a delay below [- 2 ^ 63] ns).  The returned ledger then holds two
    entries for the one input item. *)
Theorem negative_delay_counts_item_twice (E : env) (id a : string) (d : Q)
    (s : state (results string (failure string))) (r : response task) :
  (d < 0)%Q ->
  remote_task E (ncalls s) (TaskUpdate id (ub_set_assignee a update_builder)) = Returned r ->
  success r = true ->
  exists l,
    (BulkTaskOperations.bulk_assign E [id] a d s).1 = Ok l /\
    succeeded l = [id] /\
    failed l = [Failure id (if Qle_bool (- sleep_limit) d
                            then "sleep length must be non-negative"
                            else "timestamp too large to convert to C _PyTime_t")] /\
    (length (succeeded l) + length (failed l))%nat = 2%nat /\
    (length (succeeded l) + length (failed l))%nat <> length [id].
Proof.
  intros Hd Hr Hs.
  assert (Hb : Qle_bool 0 d = false).
  { destruct (Qle_bool 0 d) eqn:Hq; [|reflexivity].
    apply Qle_bool_iff in Hq. exfalso. apply (Qlt_not_le _ _ Hd Hq). }
  assert (Hu : Qle_bool sleep_limit d = false).
  { destruct (Qle_bool sleep_limit d) eqn:Hq; [|reflexivity].
    apply Qle_bool_iff in Hq. exfalso. apply (Qlt_not_le _ _ Hd).
    eapply Qle_trans; [|exact Hq]. discriminate. }
  eexists (Results [id] [Failure id _]).
  split; [|cbn; repeat split; lia].
  unfold BulkTaskOperations.bulk_assign. cbn [for_each]. unfold_py.
  unfold overflows. rewrite Hr, Hb, Hu.
  destruct (Qle_bool (- sleep_limit) d); cbn; rewrite Hs; cbn; reflexivity.
Qed.

Lemma negative_delay_counts_item_twice_witness :
  exists l,
    (BulkTaskOperations.bulk_assign (Samples.quiet [] [] VNone) ["t_1"] "ou_1" (-1 # 1)
       Samples.empty_ledger).1 = Ok l /\
    succeeded l = ["t_1"] /\
    failed l = [Failure "t_1" "sleep length must be non-negative"] /\
    (length (succeeded l) + length (failed l))%nat = 2%nat /\
    (length (succeeded l) + length (failed l))%nat <> length ["t_1"].
Proof.
  apply (negative_delay_counts_item_twice (Samples.quiet [] [] VNone) "t_1" "ou_1" (-1 # 1)
           Samples.empty_ledger
           (Response true 0 "success" (Some (Samples.mk_task "t_new" "todo" None)))).
  - reflexivity.
  - reflexivity.
  - reflexivity.
Defined.

(** The same happens at the other end of the range: a delay of [10 ^ 10]
    seconds does not fit the count of nanoseconds, [time.sleep] raises
    [OverflowError] and the accepted task is entered twice. *)
Example huge_delay_counts_item_twice :
  (BulkTaskOperations.bulk_assign (Samples.quiet [] [] VNone) ["t_1"] "ou_1"
     (10000000000 # 1) Samples.empty_ledger).1
  = Ok (Results ["t_1"]
          [Failure "t_1" "timestamp too large to convert to C _PyTime_t"]).
Proof. vm_compute. reflexivity. Qed.

(** C2. An element of the JSON array that is not an object aborts
    [import_from_json]: the [except] handler itself calls
    [task_data.get] and raises [AttributeError] out of the loop, so the
    elements after it are never attempted and no ledger is returned. *)
Theorem import_from_json_aborts_on_non_object (E : env) (path : string)
    (tl : option string) (x : pyval) (rest : list pyval)
    (s : state (results task (failure pyval))) :
  load_json E path = Ok (VList (x :: rest)) ->
  is_dict x = false ->
  exists e s',
    BulkTaskOperations.import_from_json E path tl s = (Raise e, s') /\
    exn_type e = "AttributeError" /\
    ncalls s' = ncalls s /\ trace s' = trace s.
Proof.
  intros Hl Hx. unfold BulkTaskOperations.import_from_json. unfold_py. rewrite Hl.
  cbn [py_iter for_each]. unfold_py.
  destruct x; try discriminate Hx; cbn; eexists _, _; repeat split; reflexivity.
Qed.

Lemma import_from_json_aborts_on_non_object_witness :
  exists e s',
    BulkTaskOperations.import_from_json
      (Samples.quiet [] [] (VList [VInt 5; VDict [("title", VStr "Write report")]]))
      "tasks.json" None Samples.empty_ledger = (Raise e, s') /\
    exn_type e = "AttributeError" /\
    ncalls s' = ncalls (@Samples.empty_ledger task (failure pyval)) /\
    trace s' = trace (@Samples.empty_ledger task (failure pyval)).
Proof.
  apply (import_from_json_aborts_on_non_object
           (Samples.quiet [] [] (VList [VInt 5; VDict [("title", VStr "Write report")]]))
           "tasks.json" None (VInt 5) [VDict [("title", VStr "Write report")]]).
  - reflexivity.
  - reflexivity.
Defined.

(** C3, as stated, fails: when the remote call raises, the item is recorded
    as failed and the driver goes on without sleeping.  With a policy of
    0.2 s and three items during an outage, all three are recorded and
    nothing is slept. *)
Lemma no_sleep_after_raised_item :
  let out := BulkTaskOperations.bulk_assign Samples.down ["t_1"; "t_2"; "t_3"] "ou_1" (2 # 10)
               Samples.empty_ledger in
  (exists l, out.1 = Ok l /\ length (failed l) = 3%nat) /\
  sleeps (trace out.2) = [] /\
  ~ (4 # 10 <= elapsed (trace out.2))%Q /\
  ~ sleeps (trace out.2) = replicate 3 (2 # 10).
Proof.
  cbv zeta. split; [|split; [|split]].
  - eexists. split; vm_compute; reflexivity.
  - vm_compute. reflexivity.
  - intros H. apply Qle_bool_iff in H. vm_compute in H. discriminate H.
  - intros H. vm_compute in H. discriminate H.
Qed.

(** C3, amended.  For a delay [time.sleep] takes (the import drivers use
    a fixed 0.2 s), the events of a run of any driver are one segment per
    item, in the order of the items.  Each segment begins with the primary
    call of its item and holds no other.  When the item is recorded as
    succeeded, or the service rejected it and it is recorded as failed,
    the segment holds one sleep, of the delay, as its last event.  When
    processing the item raised, the item is recorded as failed and its
    segment holds no sleep.  The time slept is the delay times the number
    of items of the first two kinds, at most the delay times the number of
    items. *)
Theorem sleep_after_each_item_that_did_not_raise (E : env) (ids : list string)
    (a : string) (d : Q) (path jpath : string) (tl da : option string)
    (rows : list row) (err : option exn) (v : pyval) (items : list pyval)
    (s : state (results string (failure string)))
    (sc : state (results task (failure row)))
    (sj : state (results task (failure pyval))) :
  sleepable d ->
  open_csv E path = Ok (rows, err) ->
  load_json E jpath = Ok v -> py_iter v = Ok items ->
  Forall (fun x => is_dict x = true) items ->
  paced d ids s (BulkTaskOperations.bulk_assign E ids a d s) /\
  paced d ids s (BulkTaskOperations.bulk_update_status E ids a d s) /\
  paced d ids s (BulkTaskOperations.bulk_set_due_date E ids a d s) /\
  paced d ids s (BulkTaskOperations.bulk_delete E ids d s) /\
  paced (2 # 10) rows sc (BulkTaskOperations.import_from_csv E path tl da sc) /\
  paced (2 # 10) items sj (BulkTaskOperations.import_from_json E jpath tl sj).
Proof.
  intros Hd Hc Hl Hi Hdict. repeat apply conj.
  - destruct (bulk_assign_run E ids a d s Hd) as (s1 & evs & -> & Ht & Hb).
    eapply run_paced; [intros l [= <-]; reflexivity | eassumption ..].
  - destruct (bulk_update_status_run E ids a d s Hd) as (s1 & evs & -> & Ht & Hb).
    eapply run_paced; [intros l [= <-]; reflexivity | eassumption ..].
  - destruct (bulk_set_due_date_run E ids a d s Hd) as (s1 & evs & -> & Ht & Hb).
    eapply run_paced; [intros l [= <-]; reflexivity | eassumption ..].
  - destruct (bulk_delete_run E ids d s Hd) as (s1 & evs & -> & Ht & Hb).
    eapply run_paced; [intros l [= <-]; reflexivity | eassumption ..].
  - destruct (import_from_csv_run E path tl da rows err sc Hc) as (s1 & evs & -> & Ht & Hb).
    eapply run_paced; [destruct err; intros l [= <-]; reflexivity | eassumption ..].
  - destruct (import_from_json_run E jpath tl v items sj Hl Hi Hdict)
      as (s1 & evs & -> & Ht & Hb).
    eapply run_paced; [intros l [= <-]; reflexivity | eassumption ..].
Qed.

Lemma sleep_after_each_item_that_did_not_raise_witness :
  let E := Samples.flaky_files in
  let ids := ["t_1"; "t_2"; "t_3"] in
  paced (2 # 10) ids Samples.empty_ledger
    (BulkTaskOperations.bulk_assign E ids "ou_1" (2 # 10) Samples.empty_ledger) /\
  paced (2 # 10) ids Samples.empty_ledger
    (BulkTaskOperations.bulk_update_status E ids "ou_1" (2 # 10) Samples.empty_ledger) /\
  paced (2 # 10) ids Samples.empty_ledger
    (BulkTaskOperations.bulk_set_due_date E ids "ou_1" (2 # 10) Samples.empty_ledger) /\
  paced (2 # 10) ids Samples.empty_ledger
    (BulkTaskOperations.bulk_delete E ids (2 # 10) Samples.empty_ledger) /\
  paced (2 # 10) Samples.three_rows Samples.empty_ledger
    (BulkTaskOperations.import_from_csv E "tasks.csv" None None Samples.empty_ledger) /\
  paced (2 # 10) Samples.three_objects Samples.empty_ledger
    (BulkTaskOperations.import_from_json E "tasks.json" None Samples.empty_ledger).
Proof.
  cbv zeta.
  apply (sleep_after_each_item_that_did_not_raise Samples.flaky_files
           ["t_1"; "t_2"; "t_3"] "ou_1" (2 # 10)
           "tasks.csv" "tasks.json" None None Samples.three_rows None
           (VList Samples.three_objects) Samples.three_objects
           Samples.empty_ledger Samples.empty_ledger Samples.empty_ledger).
  - split; [discriminate | reflexivity].
  - reflexivity.
  - reflexivity.
  - reflexivity.
  - repeat constructor.
Defined.

(** On the flaky service the three items end as one success, one rejection
    and one fault, and the driver slept twice. *)
Example flaky_run_sleeps_twice :
  let out := BulkTaskOperations.bulk_assign Samples.flaky ["t_1"; "t_2"; "t_3"] "ou_1" (2 # 10)
               Samples.empty_ledger in
  out.1 = Ok (Results ["t_1"]
                [Failure "t_2" "99991663: not found"; Failure "t_3" "connection reset"]) /\
  sleeps (trace out.2) = [2 # 10; 2 # 10].
Proof. vm_compute. split; reflexivity. Qed.

(** When the service accepts every creation and returns no task, the
    import makes its three calls, records the three rows as failed and
    never sleeps. *)
Example hollow_import_never_sleeps :
  let out := BulkTaskOperations.import_from_csv Samples.hollow_files "tasks.csv" None None
               Samples.empty_ledger in
  (exists l, out.1 = Ok l /\ succeeded l = [] /\ length (failed l) = 3%nat) /\
  length (primary_calls (trace out.2)) = 3%nat /\
  sleeps (trace out.2) = [].
Proof.
  cbv zeta. split; [|split].
  - eexists. split; [vm_compute; reflexivity|]. split; reflexivity.
  - vm_compute. reflexivity.
  - vm_compute. reflexivity.
Qed.

(** C5. On an empty input every bulk driver returns the empty ledger and
    leaves the call counter and the trace as they were: no remote call, no
    sleep, no output. *)
Theorem empty_batch_is_silent (E : env) (a : string) (d : Q) (path jpath : string)
    (tl da : option string) (v : pyval)
    (s : state (results string (failure string)))
    (sc : state (results task (failure row)))
    (sj : state (results task (failure pyval))) :
  open_csv E path = Ok ([], None) ->
  load_json E jpath = Ok v -> py_iter v = Ok [] ->
  let quiet_end {A B} (s : state (results A B)) : res (results A B) * state (results A B) :=
    (Ok (Results [] []), State (Results [] []) (ncalls s) (trace s)) in
  BulkTaskOperations.bulk_assign E [] a d s = quiet_end s /\
  BulkTaskOperations.bulk_update_status E [] a d s = quiet_end s /\
  BulkTaskOperations.bulk_set_due_date E [] a d s = quiet_end s /\
  BulkTaskOperations.bulk_delete E [] d s = quiet_end s /\
  BulkTaskOperations.import_from_csv E path tl da sc = quiet_end sc /\
  BulkTaskOperations.import_from_json E jpath tl sj = quiet_end sj.
Proof.
  intros Hc Hl Hi. cbv zeta. repeat split; try reflexivity.
  - unfold BulkTaskOperations.import_from_csv. unfold_py. rewrite Hc. reflexivity.
  - unfold BulkTaskOperations.import_from_json. unfold_py. rewrite Hl, Hi. reflexivity.
Qed.

Lemma empty_batch_is_silent_witness :
  BulkTaskOperations.bulk_delete (Samples.quiet [] [] (VList [])) [] (2 # 10)
    Samples.empty_ledger = (Ok (Results [] []), Samples.empty_ledger) /\
  BulkTaskOperations.import_from_csv (Samples.quiet [] [] (VList [])) "tasks.csv" None None
    Samples.empty_ledger = (Ok (Results [] []), Samples.empty_ledger).
Proof.
  pose proof (empty_batch_is_silent (Samples.quiet [] [] (VList [])) "ou_1" (2 # 10)
                "tasks.csv" "tasks.json" None None (VList [])
                Samples.empty_ledger Samples.empty_ledger Samples.empty_ledger
                eq_refl eq_refl eq_refl) as H.
  cbv zeta in H. destruct H as (_ & _ & _ & Hd & Hc & _). split; [exact Hd | exact Hc].
Defined.

(** ** The best-effort secondary call *)

Section Simulation.
Context {L : Type}.












End Simulation.


Section Secondary.
Context (E : env) (u : nat -> api_call -> outcome unit).



End Secondary.


(** During an outage of the attachment endpoint the created task is in the
    ledger all the same. *)
Example attachment_outage_still_created :
  (BulkTaskOperations.import_from_csv
     (with_remote_unit (fun _ _ => Samples.outage)
        (Samples.quiet [] [ {[ "title" := Some "Write report" ]} ] VNone))
     "tasks.csv" (Some "tl_1") None Samples.empty_ledger).1 =
  Ok (Results [Samples.mk_task "t_new" "todo" None] []).
Proof. vm_compute. reflexivity. Qed.

(** ** The single-operation wrappers *)

Section Wrappers.
Context (E : env) {L : Type} (s : state L).

Lemma handle_response_unwraps {A} (srv : nat -> api_call -> outcome A) (c : api_call)
    (r : response A) (operation : string) :
  srv (ncalls s) c = Returned r ->
  unwraps s r
    ((response ← call srv c;
      data ← FeishuTaskManager._handle_response response operation;
      mret data) s).
Proof.
  intros Hr. unfold FeishuTaskManager._handle_response. unfold_py. rewrite Hr.
  unfold unwraps.
  destruct (success r) eqn:Hs; cbn; (split; [reflexivity | split; [reflexivity | split; [reflexivity |]]]).
  - exists c, "". rewrite Hs. reflexivity.
  - eexists c, _. rewrite Hs, <- app_assoc. reflexivity.
Qed.

Lemma flag_wrapper_returns_flag {A} (srv : nat -> api_call -> outcome A) (c : api_call)
    (r : response A) :
  srv (ncalls s) c = Returned r ->
  returns_flag s r ((response ← call srv c; mret (success response)) s).
Proof.
  intros Hr. unfold_py. rewrite Hr. unfold returns_flag. cbn.
  split; [reflexivity | split; [reflexivity | split; [reflexivity |]]].
  exists c. reflexivity.
Qed.
End Wrappers.

(** C9, as stated, fails for the delete wrappers: on a rejected call
    [delete_task] returns [False] and prints no diagnostic; the trace holds
    the remote call and nothing else. *)
Lemma delete_task_prints_no_diagnostic :
  let out := FeishuTaskManager.delete_task Samples.refusing "t_1" (init_state tt) in
  out.1 = Ok false /\
  trace out.2 = [ERemote (TaskDelete "t_1") (Answered false 99991663 "not found")] /\
  ~ exists to text, EPrint to text ∈ trace out.2.
Proof.
  cbv zeta. split; [reflexivity | split; [reflexivity |]].
  intros (to & text & H). cbn in H.
  apply list_elem_of_singleton in H. discriminate H.
Qed.

(** C9, amended.  Each wrapper makes exactly one remote call.  The
    wrappers that create, get or update a task or a task list return the
    payload when the success flag is on and, when it is off, print a
    diagnostic on the error stream and return [None].  The wrappers that
    delete a task or a task list return the success flag itself and print
    nothing. *)
Theorem single_operation_wrappers (E : env) (L : Type) (s : state L)
    (rt : response task) (rl : response tasklist) (ru : response unit) :
  (forall c, remote_task E (ncalls s) c = Returned rt) ->
  (forall c, remote_tasklist E (ncalls s) c = Returned rl) ->
  (forall c, remote_unit E (ncalls s) c = Returned ru) ->
  (forall title descr a due f p,
     unwraps s rt (FeishuTaskManager.create_task E title descr a due f p s)) /\
  (forall id, unwraps s rt (FeishuTaskManager.get_task E id s)) /\
  (forall id title descr st a due,
     unwraps s rt (FeishuTaskManager.update_task E id title descr st a due s)) /\
  (forall name descr, unwraps s rl (FeishuTaskManager.create_tasklist E name descr s)) /\
  (forall id, unwraps s rl (FeishuTaskManager.get_tasklist E id s)) /\
  (forall id name descr, unwraps s rl (FeishuTaskManager.update_tasklist E id name descr s)) /\
  (forall id, returns_flag s ru (FeishuTaskManager.delete_task E id s)) /\
  (forall id, returns_flag s ru (FeishuTaskManager.delete_tasklist E id s)).
Proof.
  intros Ht Hl Hu.
  split; [|split; [|split; [|split; [|split; [|split; [|split]]]]]]; intros;
    first [ apply handle_response_unwraps; auto | apply flag_wrapper_returns_flag; auto ].
Qed.

Lemma single_operation_wrappers_witness :
  unwraps (init_state tt) (Response false 99991663 "not found" (@None task))
    (FeishuTaskManager.get_task Samples.refusing "t_1" (init_state tt)) /\
  returns_flag (init_state tt) (Response false 99991663 "not found" (@None unit))
    (FeishuTaskManager.delete_task Samples.refusing "t_1" (init_state tt)).
Proof.
  pose proof (single_operation_wrappers Samples.refusing unit (init_state tt)
                (Response false 99991663 "not found" None)
                (Response false 99991663 "not found" None)
                (Response false 99991663 "not found" None)
                (fun _ => eq_refl) (fun _ => eq_refl) (fun _ => eq_refl))
    as (_ & Hg & _ & _ & _ & _ & Hd & _).
  split; [apply Hg | apply Hd].
Defined.

(** What [get_task] prints for a task that is not found. *)
Example get_task_diagnostic :
  FeishuTaskManager.get_task Samples.refusing "t_1" (init_state tt) =
  (Ok None,
   State tt 1%nat
     [ERemote (TaskGet "t_1") (Answered false 99991663 "not found");
      EPrint Stderr ("Get task failed: 99991663 - not found" +:+ FeishuTaskManager.nl +:+
                     "Hint: Task not found, verify task ID")]).
Proof. vm_compute. reflexivity. Qed.

(** ** The task report *)

Lemma in_report_spec (st : string) :
  FeishuTaskManager.in_report st =
  String.eqb st "total" || String.eqb st "todo" || String.eqb st "in_progress" ||
  String.eqb st "completed" || String.eqb st "overdue".
Proof.
  unfold FeishuTaskManager.in_report.
  destruct (String.eqb_spec st "total") as [->|H1]; [reflexivity|].
  destruct (String.eqb_spec st "todo") as [->|H2]; [reflexivity|].
  destruct (String.eqb_spec st "in_progress") as [->|H3]; [reflexivity|].
  destruct (String.eqb_spec st "completed") as [->|H4]; [reflexivity|].
  destruct (String.eqb_spec st "overdue") as [->|H5]; [reflexivity|].
  apply bool_decide_eq_false. rewrite !elem_of_cons, elem_of_nil. tauto.
Qed.

Lemma report_step_ok (now : datetime) (n : nat) (seen : list task) (t : task)
    (st st' : state report) :
  report_of now n seen (locals st) ->
  FeishuTaskManager.report_step now t st = (Ok tt, st') ->
  report_of now n (seen ++ [t]) (locals st') /\ ncalls st' = ncalls st /\ trace st' = trace st.
Proof.
  intros [Ht Hd Hi Hc Ho].
  unfold FeishuTaskManager.report_step, FeishuTaskManager.report_append.
  rewrite in_report_spec. unfold_py.
  assert (Hgoal : forall r', 
     total r' = total (locals st) ->
     todo r' = (todo (locals st) ++ with_status "todo" [t])%list ->
     in_progress r' = (in_progress (locals st) ++ with_status "in_progress" [t])%list ->
     completed r' = (completed (locals st) ++ with_status "completed" [t])%list ->
     overdue r' = (overdue (locals st) ++ List.filter (lands_in_overdue now) [t])%list ->
     report_of now n (seen ++ [t]) r').
  { intros r' H1 H2 H3 H4 H5.
    split; unfold with_status in *; rewrite ?List.filter_app; congruence. }
  unfold with_status, lands_in_overdue, overdue_at in Hgoal. cbn [List.filter] in Hgoal.
  assert (Hfin : forall r',
     report_of now n (seen ++ [t]) r' ->
     (Ok tt, State r' (ncalls st) (trace st)) = (Ok tt, st') ->
     report_of now n (seen ++ [t]) (locals st') /\ ncalls st' = ncalls st /\
     trace st' = trace st).
  { intros r' Hr [= <-]. cbn. auto. }
  destruct (String.eqb_spec (status t) "total") as [E1|E1].
  { rewrite E1. cbn. discriminate. }
  destruct (String.eqb_spec (status t) "todo") as [E2|E2].
  { rewrite E2 in *. cbn in *.
    destruct (str_truthy (due_time t)); cbn in *.
    - destruct (PyDatetime.fromisoformat _) as [due|e]; cbn; [|discriminate].
      destruct (PyDatetime.lt due now) as [[]|e]; cbn; [| |discriminate];
        apply Hfin, Hgoal; cbn; rewrite ?app_nil_r; reflexivity.
    - apply Hfin, Hgoal; cbn; rewrite ?app_nil_r; reflexivity. }
  destruct (String.eqb_spec (status t) "in_progress") as [E3|E3].
  { rewrite E3 in *. cbn in *.
    destruct (str_truthy (due_time t)); cbn in *.
    - destruct (PyDatetime.fromisoformat _) as [due|e]; cbn; [|discriminate].
      destruct (PyDatetime.lt due now) as [[]|e]; cbn; [| |discriminate];
        apply Hfin, Hgoal; cbn; rewrite ?app_nil_r; reflexivity.
    - apply Hfin, Hgoal; cbn; rewrite ?app_nil_r; reflexivity. }
  assert (Hopen : FeishuTaskManager.is_open (status t) = false).
  { unfold FeishuTaskManager.is_open.
    destruct (String.eqb_spec (status t) "todo"); [contradiction|].
    destruct (String.eqb_spec (status t) "in_progress"); [contradiction|]. reflexivity. }
  rewrite Hopen in *. rewrite andb_false_r in *. cbn [andb orb] in *.
  destruct (String.eqb_spec (status t) "completed") as [E4|E4].
  { rewrite E4 in *. cbn in *. apply Hfin, Hgoal; cbn; rewrite ?app_nil_r; reflexivity. }
  destruct (String.eqb_spec (status t) "overdue") as [E5|E5].
  { rewrite E5 in *. cbn in *. apply Hfin, Hgoal; cbn; rewrite ?app_nil_r; reflexivity. }
  cbn in *. destruct st. apply Hfin, Hgoal; cbn; rewrite ?app_nil_r; reflexivity.
Qed.

(** A loop that completes carried its invariant through every item. *)
Lemma for_each_ok_inv {S X} (I : list X -> S -> Prop) (body : X -> M S unit) :
  (forall pre x s s', I pre s -> body x s = (Ok tt, s') -> I (pre ++ [x])%list s') ->
  forall xs pre s s', I pre s -> for_each xs body s = (Ok tt, s') -> I (pre ++ xs)%list s'.
Proof.
  intros Hstep xs. induction xs as [|x xs IH]; intros pre s s' HI; cbn [for_each].
  - intros [= <-]. rewrite app_nil_r. assumption.
  - unfold bind. destruct (body x s) as [[[]|e] s1] eqn:Hb; [|discriminate].
    intros Hrest. rewrite (app_assoc pre [x] xs : (pre ++ x :: xs = (pre ++ [x]) ++ xs)%list).
    eapply IH; [|eassumption]. eapply Hstep; eassumption.
Qed.

(** A loop over a list holding an item on which the body always raises
    raises, at that item or before. *)
Lemma for_each_raises {S X} (body : X -> M S unit) (t : X) :
  (forall s, exists e s', body t s = (Raise e, s')) ->
  forall xs, t ∈ xs -> forall s, exists e s', for_each xs body s = (Raise e, s').
Proof.
  intros Ht xs. induction xs as [|x xs IH]; intros Hin s.
  - inversion Hin.
  - cbn [for_each]. unfold bind.
    destruct (body x s) as [[[]|e] s1] eqn:Hb; [|eauto].
    apply elem_of_cons in Hin as [->|Hin].
    + destruct (Ht s) as (e & s' & He). congruence.
    + apply IH. assumption.
Qed.

Section Report.
Context (E : env).

(** The list the report is computed from is the one the service sent. *)
Lemma report_fetch (tl : option string) (s : state report) (resp : response (list task)) :
  (forall c, remote_items E (ncalls s) c = Returned resp) ->
  exists s1,
    (if str_truthy tl
     then FeishuTaskManager.list_tasks_in_tasklist E (default "" tl) 100
     else FeishuTaskManager.list_my_tasks E None 100) s = (Ok (fetched resp), s1).
Proof.
  intros Hr. unfold fetched.
  destruct (str_truthy tl);
    unfold FeishuTaskManager.list_tasks_in_tasklist, FeishuTaskManager.list_my_tasks,
      FeishuTaskManager._handle_response; unfold_py; rewrite Hr;
    destruct (success resp); cbn; eauto.
Qed.

(** When a report is returned, its lists are these. *)
Lemma report_lists (tl : option string) (s s' : state report)
    (resp : response (list task)) (r : report) :
  (forall c, remote_items E (ncalls s) c = Returned resp) ->
  FeishuTaskManager.generate_task_report E tl s = (Ok r, s') ->
  report_of (PyDatetime.now E) (length (fetched resp)) (fetched resp) r.
Proof.
  intros Hr. unfold FeishuTaskManager.generate_task_report.
  destruct (report_fetch tl s resp Hr) as (s1 & Hf).
  unfold mbind at 1. unfold M_bind. rewrite (run_bind _ _ _ _ _ Hf).
  unfold mbind at 1 2. unfold M_bind, bind at 1. unfold modify_locals at 1. cbv zeta.
  unfold bind.
  destruct (for_each _ _ _) as [[[]|e] s2] eqn:Hloop; [|discriminate].
  unfold get_locals. intros [= <- <-].
  eapply (for_each_ok_inv
            (fun seen st => report_of (PyDatetime.now E) (length (fetched resp)) seen (locals st)))
    with (pre := []) in Hloop.
  - exact Hloop.
  - intros pre x st st' HI Hstep. eapply report_step_ok; eassumption.
  - cbn. split; reflexivity.
Qed.

(** An open task whose due time carries a UTC offset makes the overdue
    check raise: [datetime.now()] is naive. *)
Lemma report_step_aware_raises (t : task) (str : string) (due : datetime) (off : Z) :
  FeishuTaskManager.is_open (status t) = true ->
  due_time t = Some str -> str <> "" ->
  PyDatetime.fromisoformat (replace_Z str) = Ok due ->
  tzinfo due = Some off ->
  forall st, exists e st',
    FeishuTaskManager.report_step (PyDatetime.now E) t st = (Raise e, st') /\
    exn_type e = "TypeError".
Proof.
  intros Hopen Hdue Hne Hparse Htz st.
  unfold FeishuTaskManager.report_step, FeishuTaskManager.report_append.
  rewrite in_report_spec, Hopen, Hdue. change (default "" (Some str)) with str.
  cbn [str_truthy].
  destruct (String.eqb_spec str ""); [contradiction|]. cbn [negb andb].
  unfold_py. rewrite Hparse. unfold PyDatetime.lt. rewrite Htz. cbn [PyDatetime.now tzinfo].
  unfold FeishuTaskManager.is_open in Hopen.
  destruct (String.eqb_spec (status t) "total") as [E1|E1].
  { rewrite E1 in Hopen. discriminate. }
  destruct (String.eqb_spec (status t) "todo") as [E2|E2]; cbn.
  { eexists _, _. split; reflexivity. }
  destruct (String.eqb_spec (status t) "in_progress") as [E3|E3]; cbn.
  { eexists _, _. split; reflexivity. }
  cbn in Hopen. discriminate.
Qed.

Lemma find_overdue_aware_raises (t : task) (str : string) (due : datetime) (off : Z)
    (tasks : list task) :
  FeishuTaskManager.is_open (status t) = true ->
  due_time t = Some str -> str <> "" ->
  PyDatetime.fromisoformat (replace_Z str) = Ok due ->
  tzinfo due = Some off ->
  t ∈ tasks ->
  exists e, TaskNotifier.find_overdue (PyDatetime.now E) tasks = Raise e.
Proof.
  intros Hopen Hdue Hne Hparse Htz. induction tasks as [|x xs IH]; intros Hin.
  - inversion Hin.
  - cbn [TaskNotifier.find_overdue].
    apply elem_of_cons in Hin as [<-|Hin].
    + rewrite Hopen, Hdue. change (default "" (Some str)) with str. cbn [str_truthy].
      destruct (String.eqb_spec str ""); [contradiction|]. cbn [negb andb].
      rewrite Hparse. unfold PyDatetime.lt. rewrite Htz. cbn. eauto.
    + destruct (IH Hin) as (e & ->).
      match goal with |- context [match ?k with Ok _ => _ | Raise _ => _ end] =>
        destruct k as [b|e']; eauto end.
Qed.
End Report.

(** C4. An open task whose due timestamp carries a UTC offset (as do the
    timestamps the scripts write, and any timestamp ending in Z) is never
    classified: the comparison with the naive [datetime.now()] raises, so
    [generate_task_report] returns no report and [send_daily_digest] sends
    no digest. *)
Theorem aware_due_time_breaks_overdue_check (E : env) (tl : option string) (target : string)
    (s : state report) (resp : response (list task))
    (t : task) (str : string) (due : datetime) (off : Z) :
  (forall c, remote_items E (ncalls s) c = Returned resp) ->
  t ∈ fetched resp ->
  FeishuTaskManager.is_open (status t) = true ->
  due_time t = Some str -> str <> "" ->
  PyDatetime.fromisoformat (replace_Z str) = Ok due ->
  tzinfo due = Some off ->
  target <> "" ->
  (exists e s', FeishuTaskManager.generate_task_report E tl s = (Raise e, s')) /\
  (exists e s', TaskNotifier.send_daily_digest E (Some target) false s = (Raise e, s')).
Proof.
  intros Hr Hin Hopen Hdue Hne Hparse Htz Htarget. split.
  - unfold FeishuTaskManager.generate_task_report.
    destruct (report_fetch E tl s resp Hr) as (s1 & Hf).
    unfold mbind at 1. unfold M_bind. rewrite (run_bind _ _ _ _ _ Hf).
    unfold mbind at 1 2. unfold M_bind, bind at 1. unfold modify_locals at 1. cbv zeta.
    assert (Hbody : forall st, exists e st',
              FeishuTaskManager.report_step (PyDatetime.now E) t st = (Raise e, st')).
    { intros st.
      destruct (report_step_aware_raises E t str due off Hopen Hdue Hne Hparse Htz st)
        as (e & st' & H & _). eauto. }
    match goal with |- context [bind (for_each ?l ?b) _ ?s0] =>
      destruct (for_each_raises b t Hbody l Hin s0) as (e & s' & Hloop)
    end.
    rewrite (run_bind_raise _ _ _ _ _ Hloop). eauto.
  - unfold fetched in Hin.
    destruct (success resp) eqn:Hs; [|inversion Hin].
    destruct (data resp) as [tasks|] eqn:Hd; [|inversion Hin]. cbn in Hin.
    destruct (find_overdue_aware_raises E t str due off tasks Hopen Hdue Hne Hparse Htz Hin)
      as (e & He).
    assert (Ht : str_truthy (Some target) = true).
    { cbn. destruct (String.eqb_spec target ""); [contradiction | reflexivity]. }
    unfold TaskNotifier.send_daily_digest, or_else. rewrite Ht. cbv iota. rewrite Ht.
    cbn [negb].
    unfold TaskNotifier.categorize. unfold_py. cbv beta iota. rewrite Hr. cbn.
    rewrite Hs, Hd. cbn. rewrite He. eauto.
Qed.

Lemma aware_due_time_breaks_overdue_check_witness :
  (exists e s', FeishuTaskManager.generate_task_report
                  (Samples.quiet [Samples.late_aware] [] VNone) None Samples.empty_report
                = (Raise e, s')) /\
  (exists e s', TaskNotifier.send_daily_digest
                  (Samples.quiet [Samples.late_aware] [] VNone) (Some "ou_1") false
                  Samples.empty_report
                = (Raise e, s')).
Proof.
  apply (aware_due_time_breaks_overdue_check
           (Samples.quiet [Samples.late_aware] [] VNone) None "ou_1" Samples.empty_report
           (Response true 0 "success" (Some [Samples.late_aware]))
           Samples.late_aware "2024-01-01T23:59:59+08:00"
           (DateTime (Civil 2024 1 1 23 59 59 0) (Some 480)) 480).
  - reflexivity.
  - cbn. apply list_elem_of_singleton. reflexivity.
  - reflexivity.
  - reflexivity.
  - discriminate.
  - vm_compute. reflexivity.
  - reflexivity.
  - discriminate.
Defined.

(** The exception is the [TypeError] of comparing a naive with an aware
    [datetime]; one such task is enough to lose the report of all. *)
Example aware_due_time_type_error :
  (FeishuTaskManager.generate_task_report
     (Samples.quiet [Samples.late_naive; Samples.late_aware; Samples.late_done] [] VNone)
     None Samples.empty_report).1 =
  Raise (Exn "TypeError" "can't compare offset-naive and offset-aware datetimes").
Proof. vm_compute. reflexivity. Qed.

(** With due times that carry no offset the classification is the one the
    claim describes: in a report that is returned, an open task whose due
    time is before now is in the overdue list, and a completed task is
    not. *)
Lemma overdue_classification_naive (E : env) (tl : option string) (s s' : state report)
    (resp : response (list task)) (r : report) (t : task) :
  (forall c, remote_items E (ncalls s) c = Returned resp) ->
  FeishuTaskManager.generate_task_report E tl s = (Ok r, s') ->
  t ∈ fetched resp ->
  (overdue_at (PyDatetime.now E) t = true -> t ∈ overdue r) /\
  (status t = "completed" -> t ∉ overdue r).
Proof.
  intros Hr Hrun Hin. destruct (report_lists E tl s s' resp r Hr Hrun) as [_ _ _ _ Ho].
  rewrite Ho. split.
  - intros Hlate. apply list_elem_of_In, List.filter_In. split.
    + apply list_elem_of_In. assumption.
    + unfold lands_in_overdue. rewrite Hlate. apply orb_true_r.
  - intros Hst Hmem. apply list_elem_of_In, List.filter_In in Hmem as [_ Hl].
    unfold lands_in_overdue, overdue_at in Hl. rewrite Hst in Hl. cbn in Hl. discriminate.
Qed.

Example naive_overdue_report :
  exists r,
    (FeishuTaskManager.generate_task_report
       (Samples.quiet [Samples.late_naive; Samples.late_done] [] VNone)
       None Samples.empty_report).1 = Ok r /\
    overdue r = [Samples.late_naive] /\ completed r = [Samples.late_done].
Proof. eexists. vm_compute. repeat split; reflexivity. Qed.

(** The three status lists never hold more than the fetched tasks, and
    hold fewer when a task has another status. *)
Lemma status_lists_length (tasks : list task) :
  (length (with_status "todo" tasks) + length (with_status "in_progress" tasks)
   + length (with_status "completed" tasks) <= length tasks)%nat /\
  ((exists t, t ∈ tasks /\ status t <> "todo" /\ status t <> "in_progress" /\
              status t <> "completed") ->
   (length (with_status "todo" tasks) + length (with_status "in_progress" tasks)
    + length (with_status "completed" tasks) < length tasks)%nat).
Proof.
  unfold with_status. induction tasks as [|x xs [IH1 IH2]].
  - split; [reflexivity|]. intros (t & Hin & _). inversion Hin.
  - cbn [List.filter length].
    destruct (String.eqb_spec (status x) "todo") as [E1|E1];
      destruct (String.eqb_spec (status x) "in_progress") as [E2|E2];
      destruct (String.eqb_spec (status x) "completed") as [E3|E3];
      try congruence; cbn [length]; (split; [lia|]);
      intros (t & Hin & N1 & N2 & N3);
      apply elem_of_cons in Hin as [->|Hin]; try contradiction;
      try (assert (length (List.filter (fun t => String.eqb (status t) "todo") xs)
              + length (List.filter (fun t => String.eqb (status t) "in_progress") xs)
              + length (List.filter (fun t => String.eqb (status t) "completed") xs)
              < length xs)%nat by (apply IH2; eauto)); lia.
Qed.

(** C10, as stated, fails: a task whose status string is "overdue" is
    placed in the overdue list by the status dispatch and is in neither
    the todo nor the in_progress list. *)
Lemma overdue_status_lands_in_overdue_alone :
  let out := FeishuTaskManager.generate_task_report
               (Samples.quiet [Samples.marked_overdue] [] VNone) None Samples.empty_report in
  exists r t, out.1 = Ok r /\ t ∈ overdue r /\ ~ (t ∈ todo r \/ t ∈ in_progress r).
Proof.
  cbv zeta. eexists _, Samples.marked_overdue. split; [vm_compute; reflexivity|]. split.
  - cbn. apply list_elem_of_singleton. reflexivity.
  - cbn. intros [H|H]; inversion H.
Qed.

(** A task whose status string is "total" is not counted at all: the
    report is lost to an [AttributeError]. *)
Example total_status_raises :
  (FeishuTaskManager.generate_task_report
     (Samples.quiet [Samples.mk_task "t_6" "total" None] [] VNone) None
     Samples.empty_report).1 =
  Raise (Exn "AttributeError" "'int' object has no attribute 'append'").
Proof. vm_compute. reflexivity. Qed.

(** C10, amended.  In a report that [generate_task_report] returns,
    [total] is the number of fetched tasks and each status list holds the
    fetched tasks of that status; every open task (todo or in_progress)
    found in the overdue list also remains in its status list, so it is
    listed twice; the three status lists together are never longer than
    [total], and are shorter when some task has a status other than todo,
    in_progress and completed. *)
Theorem report_lists_overlap (E : env) (tl : option string) (s s' : state report)
    (resp : response (list task)) (r : report) :
  (forall c, remote_items E (ncalls s) c = Returned resp) ->
  FeishuTaskManager.generate_task_report E tl s = (Ok r, s') ->
  total r = length (fetched resp) /\
  todo r = with_status "todo" (fetched resp) /\
  in_progress r = with_status "in_progress" (fetched resp) /\
  completed r = with_status "completed" (fetched resp) /\
  (forall t, t ∈ overdue r -> FeishuTaskManager.is_open (status t) = true ->
             (status t = "todo" /\ t ∈ todo r) \/
             (status t = "in_progress" /\ t ∈ in_progress r)) /\
  (length (todo r) + length (in_progress r) + length (completed r) <= total r)%nat /\
  ((exists t, t ∈ fetched resp /\ status t <> "todo" /\ status t <> "in_progress" /\
              status t <> "completed") ->
   (length (todo r) + length (in_progress r) + length (completed r) < total r)%nat).
Proof.
  intros Hr Hrun. destruct (report_lists E tl s s' resp r Hr Hrun) as [Ht Hd Hi Hc Ho].
  destruct (status_lists_length (fetched resp)) as [Hle Hlt].
  rewrite Ht, Hd, Hi, Hc, Ho.
  split; [reflexivity|]. split; [reflexivity|]. split; [reflexivity|]. split; [reflexivity|].
  split; [|split; assumption].
  intros t Hin Hopen. apply list_elem_of_In, List.filter_In in Hin as [Hin _].
  unfold FeishuTaskManager.is_open in Hopen. unfold with_status.
  destruct (String.eqb_spec (status t) "todo") as [E1|E1].
  - left. split; [assumption|]. apply list_elem_of_In, List.filter_In. split; [assumption|].
    rewrite E1. reflexivity.
  - destruct (String.eqb_spec (status t) "in_progress") as [E2|E2]; [|discriminate].
    right. split; [assumption|]. apply list_elem_of_In, List.filter_In. split; [assumption|].
    rewrite E2. reflexivity.
Qed.

Lemma report_lists_overlap_witness :
  total Samples.mixed_report = 3%nat /\
  (length (todo Samples.mixed_report) + length (in_progress Samples.mixed_report)
   + length (completed Samples.mixed_report) < total Samples.mixed_report)%nat /\
  ((Samples.late_naive ∈ overdue Samples.mixed_report ->
    FeishuTaskManager.is_open (status Samples.late_naive) = true ->
    (status Samples.late_naive = "todo" /\ Samples.late_naive ∈ todo Samples.mixed_report) \/
    (status Samples.late_naive = "in_progress" /\
     Samples.late_naive ∈ in_progress Samples.mixed_report))).
Proof.
  destruct (report_lists_overlap (Samples.quiet Samples.mixed_tasks [] VNone)
              None Samples.empty_report Samples.mixed_state
              (Response true 0 "success" (Some Samples.mixed_tasks))
              Samples.mixed_report)
    as (Ht & Hd & Hi & Hc & Ho & Hle & Hlt).
  - intros c. reflexivity.
  - vm_compute. reflexivity.
  - split; [exact Ht|]. split; [|apply Ho].
    apply Hlt. exists Samples.archived. split.
    + cbn. apply elem_of_cons. right. apply elem_of_cons. right.
      apply elem_of_cons. left. reflexivity.
    + split; [|split]; discriminate.
Defined.

(** ** CSV: what the writer writes the reader reads back *)

Module CsvRoundTrip.
Import PyCsv.

Lemma app_cons (c : ascii) (s t : string) : String c s +:+ t = String c (s +:+ t).
Proof. reflexivity. Qed.

Lemma app_nil_l (s : string) : "" +:+ s = s.
Proof. reflexivity. Qed.

Lemma app_nil_r (s : string) : s +:+ "" = s.
Proof.
  induction s as [|c s IH]; [reflexivity | rewrite app_cons, IH; reflexivity].
Qed.

Lemma app_assoc (a b c : string) : (a +:+ b) +:+ c = a +:+ (b +:+ c).
Proof.
  induction a as [|x a IH]; [reflexivity | rewrite !app_cons, IH; reflexivity].
Qed.

Lemma app_snoc (a : string) (c : ascii) (b : string) :
  (a +:+ String c "") +:+ b = a +:+ String c b.
Proof. rewrite app_assoc, app_cons, app_nil_l. reflexivity. Qed.

Lemma concat_cons (x : string) (xs : list string) :
  String.concat "" (x :: xs) = x +:+ String.concat "" xs.
Proof. destruct xs; [rewrite app_nil_r|]; reflexivity. Qed.

Lemma not_special c :
  is_special c = false ->
  Ascii.eqb c comma = false /\ Ascii.eqb c dquote = false /\ is_newline c = false.
Proof.
  unfold is_special. destruct (Ascii.eqb c comma), (Ascii.eqb c dquote), (is_newline c);
    cbn; intros; try discriminate; auto.
Qed.

Lemma not_newline_ends c rest : is_newline c = false -> ends_line c rest = false.
Proof.
  unfold is_newline, ends_line. destruct (Ascii.eqb c CR), (Ascii.eqb c LF); cbn;
    intros; try discriminate; reflexivity.
Qed.

(** Inside an unquoted field, ordinary characters accumulate. *)
Lemma feed_plain (f : string) : forall b fs recs il rest,
  needs_quote f = false ->
  feed (Reader IN_FIELD b fs recs il) (f +:+ rest) =
  feed (Reader IN_FIELD (b +:+ f) fs recs (il || negb (String.eqb f ""))) rest.
Proof.
  induction f as [|c f IH]; intros b fs recs il rest Hq.
  - rewrite app_nil_l, app_nil_r. cbn. rewrite orb_false_r. reflexivity.
  - cbn in Hq. apply orb_false_elim in Hq as [Hc Hq].
    destruct (not_special c Hc) as (H1 & H2 & H3).
    rewrite app_cons. cbn [feed]. unfold process_char. cbn [pst].
    rewrite H3, H1, (not_newline_ends c _ H3).
    unfold add_char. cbn [field fields records].
    rewrite IH by assumption. rewrite app_snoc. cbn. rewrite orb_true_r. reflexivity.
Qed.

Lemma feed_cons c r rest r' :
  process_char c r = Ok r' ->
  feed r (String c rest) = feed (if ends_line c rest then process_eol r' else r') rest.
Proof. intros H. cbn [feed]. rewrite H. reflexivity. Qed.

Lemma ends_dquote rest : ends_line dquote rest = false.
Proof. reflexivity. Qed.

Lemma ends_comma rest : ends_line comma rest = false.
Proof. reflexivity. Qed.

(** Inside a quoted field everything accumulates, a doubled quote as one
    quote, up to the closing quote. *)
Lemma feed_quoted (f : string) : forall b fs recs il rest,
  feed (Reader IN_QUOTED_FIELD b fs recs il) (double_quotes f +:+ String dquote rest) =
  feed (Reader QUOTE_IN_QUOTED_FIELD (b +:+ f) fs recs true) rest.
Proof.
  induction f as [|c f IH]; intros b fs recs il rest.
  - cbn [double_quotes]. rewrite app_nil_l, app_nil_r.
    rewrite (feed_cons dquote _ _ (Reader QUOTE_IN_QUOTED_FIELD b fs recs true)) by reflexivity.
    reflexivity.
  - cbn [double_quotes]. destruct (Ascii.eqb c dquote) eqn:Hc.
    + apply Ascii.eqb_eq in Hc. subst c. rewrite !app_cons.
      rewrite (feed_cons dquote _ _ (Reader QUOTE_IN_QUOTED_FIELD b fs recs true))
        by reflexivity.
      rewrite ends_dquote.
      rewrite (feed_cons dquote _ _
                 (Reader IN_QUOTED_FIELD (b +:+ String dquote "") fs recs true))
        by reflexivity.
      rewrite ends_dquote, IH, app_snoc. reflexivity.
    + rewrite app_cons.
      rewrite (feed_cons c _ _ (Reader IN_QUOTED_FIELD (b +:+ String c "") fs recs true))
        by (unfold process_char; cbn [pst]; rewrite Hc; reflexivity).
      destruct (ends_line c _); cbn [process_eol pst field fields records];
        rewrite IH, app_snoc; reflexivity.
Qed.

(** After a field, a comma closes the field. *)
Lemma feed_comma st b pre recs il rest :
  st = QUOTE_IN_QUOTED_FIELD \/ st = IN_FIELD \/ st = START_FIELD \/ st = START_RECORD ->
  feed (Reader st b pre recs il) (String comma rest) =
  feed (Reader START_FIELD "" (pre ++ [b])%list recs true) rest.
Proof.
  intros [ -> | [ -> | [ -> | -> ] ] ]; reflexivity.
Qed.

(** After a field, the line terminator closes the field and the record. *)
Lemma feed_terminator st b pre recs il rest :
  st = QUOTE_IN_QUOTED_FIELD \/ st = IN_FIELD \/ st = START_FIELD ->
  feed (Reader st b pre recs il) (line_terminator +:+ rest) =
  feed (Reader START_RECORD "" [] (recs ++ [(pre ++ [b])%list])%list false) rest.
Proof.
  intros [ -> | [ -> | -> ] ]; reflexivity.
Qed.

Lemma write_field_quoted f rest :
  needs_quote f = true ->
  write_field f +:+ rest = String dquote (double_quotes f +:+ String dquote rest).
Proof.
  intros H. unfold write_field. rewrite H, app_cons, app_assoc. reflexivity.
Qed.

(** A written field is read up to its last character: the reader is then
    in one of the states in which a field can end, holding the field. *)
Lemma feed_field f st pre recs il rest :
  st = START_FIELD \/ st = START_RECORD ->
  exists st' il',
    feed (Reader st "" pre recs il) (write_field f +:+ rest) =
    feed (Reader st' f pre recs il') rest /\
    (st' = QUOTE_IN_QUOTED_FIELD \/ st' = IN_FIELD \/ (st' = st /\ f = "")).
Proof.
  intros Hst. destruct (needs_quote f) eqn:Hq.
  - rewrite (write_field_quoted f rest Hq).
    rewrite (feed_cons dquote _ _ (Reader IN_QUOTED_FIELD "" pre recs true))
      by (destruct Hst as [ -> | -> ]; reflexivity).
    rewrite ends_dquote, feed_quoted, app_nil_l. eexists _, _. split; [reflexivity | auto].
  - unfold write_field. rewrite Hq. destruct f as [|c f].
    + rewrite app_nil_l. exists st, il. split; [reflexivity | right; right; split; reflexivity].
    + cbn in Hq. apply orb_false_elim in Hq as [Hc Hq].
      destruct (not_special c Hc) as (H1 & H2 & H3).
      rewrite app_cons.
      rewrite (feed_cons c _ _ (Reader IN_FIELD (String c "") pre recs true)).
      * rewrite (not_newline_ends c _ H3), (feed_plain f) by assumption.
        rewrite app_cons, app_nil_l. eexists _, _. split; [reflexivity | auto].
      * destruct Hst as [ -> | -> ]; unfold process_char, start_field; cbn [pst];
          rewrite H3, H2, H1; reflexivity.
Qed.

Lemma join_fields_cons f g fs :
  join_fields (f :: g :: fs) = write_field f +:+ String comma (join_fields (g :: fs)).
Proof. reflexivity. Qed.

(** The fields of a record, then the line terminator. *)
Lemma feed_fields (fs : list string) : forall st pre recs il rest,
  fs <> [] ->
  st = START_FIELD \/ (st = START_RECORD /\ fs <> [""]) ->
  feed (Reader st "" pre recs il) (join_fields fs +:+ line_terminator +:+ rest) =
  feed (Reader START_RECORD "" [] (recs ++ [(pre ++ fs)%list])%list false) rest.
Proof.
  induction fs as [|f fs IH]; intros st pre recs il rest Hne Hst; [contradiction|].
  destruct fs as [|g fs].
  - cbn [join_fields].
    destruct (feed_field f st pre recs il (line_terminator +:+ rest)) as (st' & il' & -> & Hs).
    { destruct Hst as [ -> | [ -> _ ] ]; auto. }
    apply feed_terminator.
    destruct Hs as [ -> | [ -> | [ -> -> ] ] ]; auto.
    destruct Hst as [ -> | [ -> Hx ] ]; [auto | contradiction].
  - rewrite join_fields_cons, app_assoc, app_cons.
    destruct (feed_field f st pre recs il
                (String comma (join_fields (g :: fs) +:+ line_terminator +:+ rest)))
      as (st' & il' & -> & Hs).
    { destruct Hst as [ -> | [ -> _ ] ]; auto. }
    rewrite feed_comma.
    + rewrite IH by (auto; discriminate). rewrite <- List.app_assoc. reflexivity.
    + destruct Hs as [ -> | [ -> | [ -> _ ] ] ]; auto. destruct Hst as [ -> | [ -> _ ] ]; auto.
Qed.

Lemma join_fields_empty fs : fs <> [] -> join_fields fs = "" -> fs = [""].
Proof.
  destruct fs as [|f [|g fs]]; intros Hne H; [contradiction| |].
  - cbn in H. unfold write_field in H. destruct (needs_quote f); [discriminate|].
    subst f. reflexivity.
  - rewrite join_fields_cons in H. destruct (write_field f); discriminate.
Qed.

(** One written record is read back as one record. *)
Lemma feed_record (fs : list string) (recs : list (list string)) (rest : string) :
  fs <> [] ->
  feed (Reader START_RECORD "" [] recs false) (writerow fs +:+ rest) =
  feed (Reader START_RECORD "" [] (recs ++ [fs])%list false) rest.
Proof.
  intros Hne. unfold writerow. destruct fs as [|f fs]; [contradiction|].
  destruct (join_fields (f :: fs)) eqn:Hj.
  - apply join_fields_empty in Hj; [|assumption]. injection Hj as -> ->. reflexivity.
  - rewrite <- Hj, app_assoc. apply (feed_fields (f :: fs) START_RECORD []); [assumption|].
    right. split; [reflexivity|]. intros Hx. rewrite Hx in Hj. discriminate.
Qed.

(** The records written one after the other are read back, in order. *)
Lemma feed_records (rs : list (list string)) : forall recs,
  Forall (fun fs => fs <> []) rs ->
  feed (Reader START_RECORD "" [] recs false) (String.concat "" (writerow <$> rs)) =
  Ok (recs ++ rs)%list.
Proof.
  induction rs as [|fs rs IH]; intros recs Hne.
  - cbn. rewrite List.app_nil_r. reflexivity.
  - apply Forall_cons in Hne as [Hfs Hne].
    rewrite fmap_cons, concat_cons, feed_record, IH by assumption.
    rewrite <- List.app_assoc. reflexivity.
Qed.

Theorem read_all_writerows (rs : list (list string)) :
  Forall (fun fs => fs <> []) rs ->
  read_all (String.concat "" (writerow <$> rs)) = Ok rs.
Proof. intros H. apply (feed_records rs [] H). Qed.
End CsvRoundTrip.

Section ExportCsv.
Context (E : env).

Lemma export_text_concat (tasks : list task) :
  BulkTaskOperations.export_text tasks =
  String.concat ""
    (PyCsv.writerow <$> (BulkTaskOperations.export_header
                           :: (BulkTaskOperations.export_row <$> tasks))).
Proof.
  unfold BulkTaskOperations.export_text. rewrite fmap_cons, CsvRoundTrip.concat_cons.
  reflexivity.
Qed.

(** Reading the exported text with [csv.DictReader] gives one row per
    task, keyed by the header. *)
Lemma export_reparse (tasks : list task) :
  PyCsv.dict_read_all (BulkTaskOperations.export_text tasks) =
  Ok (PyCsv.zip_row BulkTaskOperations.export_header
        <$> (BulkTaskOperations.export_row <$> tasks)).
Proof.
  unfold PyCsv.dict_read_all. rewrite export_text_concat, CsvRoundTrip.read_all_writerows.
  - f_equal. f_equal. induction tasks as [|t ts IH]; [reflexivity|].
    rewrite fmap_cons, filter_cons_True by discriminate. rewrite IH. reflexivity.
  - apply Forall_cons. split; [discriminate|].
    apply Forall_fmap, Forall_forall. intros t _. discriminate.
Qed.

Lemma export_row_task_id (t : task) :
  row_get (PyCsv.zip_row BulkTaskOperations.export_header (BulkTaskOperations.export_row t))
          "task_id" = Some (task_id t).
Proof. reflexivity. Qed.

Lemma export_task_ids (tasks : list task) :
  (fun r : row => row_get r "task_id")
    <$> (PyCsv.zip_row BulkTaskOperations.export_header
           <$> (BulkTaskOperations.export_row <$> tasks))
  = Some <$> (task_id <$> tasks).
Proof.
  induction tasks as [|t ts IH]; [reflexivity|].
  rewrite !fmap_cons, export_row_task_id, IH. reflexivity.
Qed.

Lemma export_task_id_set (tasks : list task) :
  (list_to_set (omap (fun r : row => row_get r "task_id")
                  (PyCsv.zip_row BulkTaskOperations.export_header
                     <$> (BulkTaskOperations.export_row <$> tasks)))
   : gset string) = list_to_set (task_id <$> tasks).
Proof.
  induction tasks as [|t ts IH]; [reflexivity|].
  rewrite !fmap_cons. cbn [omap list_omap]. rewrite export_row_task_id.
  cbn [list_to_set]. rewrite <- IH. reflexivity.
Qed.
End ExportCsv.

(** C8. Whatever list of tasks the service returns, [export_to_csv] writes
    a file that [csv.DictReader] reads back as one row per task with the
    [task_id] of each task in its [task_id] column, in order; so the set
    of [task_id] values read back is the set of the input's. *)
Theorem csv_export_round_trip (E : env) (L : Type) (tl out : option string) (s : state L)
    (resp : response (list task)) (tasks : list task) :
  (forall c, remote_items E (ncalls s) c = Returned resp) ->
  success resp = true -> data resp = Some tasks ->
  (forall p, open_write E p = None) ->
  exists path s' rows,
    BulkTaskOperations.export_to_csv E tl out s = (Ok path, s') /\
    EWriteFile path (BulkTaskOperations.export_text tasks) ∈ trace s' /\
    PyCsv.dict_read_all (BulkTaskOperations.export_text tasks) = Ok rows /\
    (fun r => row_get r "task_id") <$> rows = Some <$> (task_id <$> tasks) /\
    (list_to_set (omap (fun r => row_get r "task_id") rows) : gset string) =
      list_to_set (task_id <$> tasks).
Proof.
  intros Hr Hs Hd Hw.
  unfold BulkTaskOperations.export_to_csv. cbv zeta.
  set (path := if negb (str_truthy out) then _ else _).
  exists path. unfold_py.
  destruct (str_truthy tl); rewrite Hr, Hs, Hd; cbn; rewrite Hw; cbn;
    (eexists _, _; split; [reflexivity|]; split;
     [ cbn [trace]; rewrite !elem_of_app; left; right; apply list_elem_of_singleton; reflexivity
     | split; [apply export_reparse|]; split;
       [apply export_task_ids | apply export_task_id_set] ]).
Qed.

Lemma csv_export_round_trip_witness :
  exists path s' rows,
    BulkTaskOperations.export_to_csv (Samples.quiet Samples.awkward_tasks [] VNone)
      None (Some "out.csv") (init_state tt) = (Ok path, s') /\
    EWriteFile path (BulkTaskOperations.export_text Samples.awkward_tasks) ∈ trace s' /\
    PyCsv.dict_read_all (BulkTaskOperations.export_text Samples.awkward_tasks) = Ok rows /\
    (fun r => row_get r "task_id") <$> rows = Some <$> (task_id <$> Samples.awkward_tasks) /\
    (list_to_set (omap (fun r => row_get r "task_id") rows) : gset string) =
      list_to_set (task_id <$> Samples.awkward_tasks).
Proof.
  apply (csv_export_round_trip (Samples.quiet Samples.awkward_tasks [] VNone) unit
           None (Some "out.csv") (init_state tt)
           (Response true 0 "success" (Some Samples.awkward_tasks)) Samples.awkward_tasks).
  - intros c. reflexivity.
  - reflexivity.
  - reflexivity.
  - intros p. reflexivity.
Defined.

(** The text written for a task whose id holds a comma, a quote and a line
    break, and its reading. *)
Example awkward_export_read_back :
  PyCsv.read_all (BulkTaskOperations.export_text Samples.awkward_tasks) =
  Ok (BulkTaskOperations.export_header
        :: (BulkTaskOperations.export_row <$> Samples.awkward_tasks)).
Proof. vm_compute. reflexivity. Qed.

(** * Further properties of the scripts *)

(** ** Bulk drivers: the calls they make and the order they keep *)

(** The request each of the four id-list drivers sends for one id. *)
Ltac calls_step Hinv :=
  let r := fresh "r" in let e := fresh "e" in
  intros pre x st _ Hinv; destruct Hinv as (evs & Ht & Hc & Hn);
  unfold_py;
  match goal with
  | |- context [?srv ?E (ncalls st) ?c] =>
      destruct (srv E (ncalls st) c) as [r|e]; cbn;
      [ destruct (success r); cbn;
        match goal with
        | |- context [overflows ?d] =>
            destruct (overflows d); cbn; [|destruct (Qle_bool 0 d); cbn]
        end
      | ];
      (eexists; split; [reflexivity|]; eexists; split;
        [cbn [trace] in *; rewrite Ht, <- ?app_assoc; reflexivity|];
       cbn [ncalls]; split;
       [ rewrite remote_calls_app, Hc, fmap_app; reflexivity
       | rewrite length_app; cbn; lia ])
  end.

Ltac calls_loop ids req :=
  unfold mbind at 1 2; unfold M_bind, bind at 1; unfold modify_locals at 1;
  match goal with
  | |- context [bind (for_each ids ?body) _ ?s0] =>
      let s' := fresh "s'" in let Hrun := fresh "Hrun" in let Hinv := fresh "Hinv" in
      destruct (for_each_inv (fun _ => True)
                  (fun pre st => exists evs,
                     trace st = (trace s0 ++ evs)%list /\
                     remote_calls evs = req <$> pre /\
                     ncalls st = (ncalls s0 + length pre)%nat) body)
        with (xs := ids) (pre := @nil string) (s := s0) as (s' & Hrun & evs & ? & ? & ?);
      [ calls_step Hinv
      | apply Forall_forall; auto
      | exists []; rewrite app_nil_r; cbn; repeat split; lia
      | exists (locals s'), s', evs; rewrite (run_bind _ _ _ _ _ Hrun);
        unfold get_locals; auto ]
  end.

Section BulkCalls.
Context (E : env).

Lemma bulk_assign_calls ids a d (s : state (results string (failure string))) :
  exists l s' evs,
    BulkTaskOperations.bulk_assign E ids a d s = (Ok l, s') /\
    trace s' = (trace s ++ evs)%list /\
    remote_calls evs = (fun id => TaskUpdate id (ub_set_assignee a update_builder)) <$> ids /\
    ncalls s' = (ncalls s + length ids)%nat.
Proof.
  unfold BulkTaskOperations.bulk_assign.
  calls_loop ids (fun id => TaskUpdate id (ub_set_assignee a update_builder)).
Qed.

Lemma bulk_update_status_calls ids a d (s : state (results string (failure string))) :
  exists l s' evs,
    BulkTaskOperations.bulk_update_status E ids a d s = (Ok l, s') /\
    trace s' = (trace s ++ evs)%list /\
    remote_calls evs = (fun id => TaskUpdate id (ub_set_status a update_builder)) <$> ids /\
    ncalls s' = (ncalls s + length ids)%nat.
Proof.
  unfold BulkTaskOperations.bulk_update_status.
  calls_loop ids (fun id => TaskUpdate id (ub_set_status a update_builder)).
Qed.

Lemma bulk_set_due_date_calls ids a d (s : state (results string (failure string))) :
  exists l s' evs,
    BulkTaskOperations.bulk_set_due_date E ids a d s = (Ok l, s') /\
    trace s' = (trace s ++ evs)%list /\
    remote_calls evs =
      (fun id => TaskUpdate id (ub_set_due_time (a +:+ "T23:59:59+08:00") update_builder))
        <$> ids /\
    ncalls s' = (ncalls s + length ids)%nat.
Proof.
  unfold BulkTaskOperations.bulk_set_due_date. cbv zeta.
  calls_loop ids
    (fun id => TaskUpdate id (ub_set_due_time (a +:+ "T23:59:59+08:00") update_builder)).
Qed.

Lemma bulk_delete_calls ids d (s : state (results string (failure string))) :
  exists l s' evs,
    BulkTaskOperations.bulk_delete E ids d s = (Ok l, s') /\
    trace s' = (trace s ++ evs)%list /\
    remote_calls evs = TaskDelete <$> ids /\
    ncalls s' = (ncalls s + length ids)%nat.
Proof.
  unfold BulkTaskOperations.bulk_delete. calls_loop ids TaskDelete.
Qed.
End BulkCalls.

(** X1. Whatever the delay and whatever the service does, each of the four
    id-list drivers returns a ledger and makes exactly one remote call per
    id, in the order of the input, repeated ids included: an update that
    sets only the assignee, only the status or only the due time (the date
    followed by T23:59:59+08:00), or a delete. *)
Theorem bulk_drivers_call_once_per_id (E : env) (ids : list string) (a : string) (d : Q)
    (s : state (results string (failure string))) :
  let calls_are (out : res (results string (failure string)) *
                       state (results string (failure string)))
                (req : string -> api_call) :=
    exists l evs, out.1 = Ok l /\ trace out.2 = (trace s ++ evs)%list /\
                  remote_calls evs = req <$> ids in
  calls_are (BulkTaskOperations.bulk_assign E ids a d s)
            (fun id => TaskUpdate id (UpdateBody None None None (Some a) None)) /\
  calls_are (BulkTaskOperations.bulk_update_status E ids a d s)
            (fun id => TaskUpdate id (UpdateBody None None (Some a) None None)) /\
  calls_are (BulkTaskOperations.bulk_set_due_date E ids a d s)
            (fun id => TaskUpdate id
                         (UpdateBody None None None None (Some (a +:+ "T23:59:59+08:00")))) /\
  calls_are (BulkTaskOperations.bulk_delete E ids d s) TaskDelete.
Proof.
  cbv zeta. split; [|split; [|split]].
  - destruct (bulk_assign_calls E ids a d s) as (l & s' & evs & -> & Ht & Hc & _). eauto.
  - destruct (bulk_update_status_calls E ids a d s) as (l & s' & evs & -> & Ht & Hc & _). eauto.
  - destruct (bulk_set_due_date_calls E ids a d s) as (l & s' & evs & -> & Ht & Hc & _). eauto.
  - destruct (bulk_delete_calls E ids d s) as (l & s' & evs & -> & Ht & Hc & _). eauto.
Qed.

(** ** Bulk drivers: the ledger keeps the input order *)

Lemma order_ok (pre S F : list string) (x : string) :
  (S ++ F)%list ≡ₚ pre -> ((S ++ [x]) ++ F)%list ≡ₚ (pre ++ [x])%list.
Proof.
  intros H. rewrite <- H, <- !(assoc_L (++)). f_equiv.
  apply Permutation_app_comm.
Qed.

Lemma order_failed (pre S F : list string) (x : string) :
  (S ++ F)%list ≡ₚ pre -> (S ++ (F ++ [x]))%list ≡ₚ (pre ++ [x])%list.
Proof. intros H. rewrite <- H, (assoc_L (++)). reflexivity. Qed.

Ltac order_step Hd :=
  let r := fresh "r" in let e := fresh "e" in
  let Hp := fresh "Hp" in let Hs := fresh "Hs" in let Hf := fresh "Hf" in
  intros pre x st _ (Hp & Hs & Hf);
  unfold_py; rewrite (proj1 Hd), (proj2 Hd);
  match goal with
  | |- context [?srv ?E (ncalls st) ?c] =>
      destruct (srv E (ncalls st) c) as [r|e]; cbn;
      [ destruct (success r); cbn | ];
      (eexists; split; [reflexivity|];
       cbn [locals succeeded failed append_succeeded append_failed];
       rewrite ?fmap_app; cbn [fmap list_fmap item];
       split; [| split];
       first [ apply order_ok; assumption
             | apply order_failed; assumption
             | apply sublist_app; [assumption | reflexivity]
             | apply sublist_inserts_r; assumption ])
  end.

Ltac order_loop Hd ids :=
  unfold mbind at 1 2; unfold M_bind, bind at 1; unfold modify_locals at 1;
  match goal with
  | |- context [bind (for_each ids ?body) _ ?s0] =>
      let s' := fresh "s'" in let Hrun := fresh "Hrun" in
      destruct (for_each_inv (fun _ => True)
                  (fun pre st =>
                     (succeeded (locals st) ++ (item <$> failed (locals st)))%list ≡ₚ pre /\
                     succeeded (locals st) `sublist_of` pre /\
                     (item <$> failed (locals st)) `sublist_of` pre) body)
        with (xs := ids) (pre := @nil string) (s := s0) as (s' & Hrun & ? & ? & ?);
      [ order_step Hd
      | apply Forall_forall; auto
      | cbn; repeat split; reflexivity
      | exists (locals s'); rewrite (run_bind _ _ _ _ _ Hrun);
        unfold get_locals; cbn; auto ]
  end.

(** X2. For a delay [time.sleep] takes (not negative and below [2 ^ 62]
    ns), the ledger of each id-list driver is the input split in two
    without reordering: the success list and the ids of the failure
    entries are each a subsequence of the input, and together they hold
    every input id exactly as often as the input does. *)
Theorem bulk_ledger_keeps_input_order (E : env) (ids : list string) (a : string) (d : Q)
    (s : state (results string (failure string))) :
  sleepable d ->
  let splits (out : res (results string (failure string)) *
                    state (results string (failure string))) :=
    exists l, out.1 = Ok l /\
              (succeeded l ++ (item <$> failed l))%list ≡ₚ ids /\
              succeeded l `sublist_of` ids /\
              (item <$> failed l) `sublist_of` ids in
  splits (BulkTaskOperations.bulk_assign E ids a d s) /\
  splits (BulkTaskOperations.bulk_update_status E ids a d s) /\
  splits (BulkTaskOperations.bulk_set_due_date E ids a d s) /\
  splits (BulkTaskOperations.bulk_delete E ids d s).
Proof.
  intros Hd. apply sleepable_checks in Hd. cbv zeta. split; [|split; [|split]].
  - unfold BulkTaskOperations.bulk_assign. order_loop Hd ids.
  - unfold BulkTaskOperations.bulk_update_status. order_loop Hd ids.
  - unfold BulkTaskOperations.bulk_set_due_date. cbv zeta. order_loop Hd ids.
  - unfold BulkTaskOperations.bulk_delete. order_loop Hd ids.
Qed.

Lemma bulk_ledger_keeps_input_order_witness :
  exists l,
    (BulkTaskOperations.bulk_delete Samples.flaky ["t_1"; "t_2"; "t_1"] (2 # 10)
       Samples.empty_ledger).1 = Ok l /\
    (succeeded l ++ (item <$> failed l))%list ≡ₚ ["t_1"; "t_2"; "t_1"] /\
    succeeded l `sublist_of` ["t_1"; "t_2"; "t_1"] /\
    (item <$> failed l) `sublist_of` ["t_1"; "t_2"; "t_1"].
Proof.
  pose proof (bulk_ledger_keeps_input_order Samples.flaky ["t_1"; "t_2"; "t_1"] "ou_1" (2 # 10)
                Samples.empty_ledger) as H.
  cbv zeta in H. apply H. split; [discriminate | reflexivity].
Defined.

(** ** Import drivers: unreadable input *)

(** X3. When the CSV file cannot be opened, or the JSON file cannot be
    loaded or holds a value that cannot be iterated (a number, a boolean,
    null), the import raises that very exception before any remote call:
    the caller gets no ledger. *)
Theorem import_unreadable_input_raises (E : env) (path : string) (tl da : option string)
    (e : exn) (sc : state (results task (failure row)))
    (sj : state (results task (failure pyval))) :
  (open_csv E path = Raise e ->
   exists s', BulkTaskOperations.import_from_csv E path tl da sc = (Raise e, s') /\
              ncalls s' = ncalls sc /\ trace s' = trace sc) /\
  (load_json E path = Raise e \/
   (exists v, load_json E path = Ok v /\ py_iter v = Raise e) ->
   exists s', BulkTaskOperations.import_from_json E path tl sj = (Raise e, s') /\
              ncalls s' = ncalls sj /\ trace s' = trace sj).
Proof.
  split.
  - intros H. unfold BulkTaskOperations.import_from_csv. unfold_py. rewrite H.
    eexists. repeat split; reflexivity.
  - intros [H | (v & H & Hi)]; unfold BulkTaskOperations.import_from_json; unfold_py;
      rewrite H; [|rewrite Hi]; eexists; repeat split; reflexivity.
Qed.

(** X4. When the CSV reader fails after yielding some rows (the loop over
    the reader is outside the [try]), [import_from_csv] raises the reader's
    error although every row read so far was processed: one create call
    was made for each, and the ledger built from them is not returned. *)
Theorem import_from_csv_reader_error_loses_ledger (E : env) (path : string)
    (tl da : option string) (rows : list row) (e : exn)
    (s : state (results task (failure row))) :
  open_csv E path = Ok (rows, Some e) ->
  exists s' evs,
    BulkTaskOperations.import_from_csv E path tl da s = (Raise e, s') /\
    trace s' = (trace s ++ evs)%list /\
    length (primary_calls evs) = length rows /\
    (length (succeeded (locals s')) + length (failed (locals s')))%nat = length rows.
Proof.
  intros H. destruct (import_from_csv_effect E path tl da rows (Some e) s H)
    as (s' & evs & Hrun & Ht & [Hc Ha _ _]).
  exists s', evs. auto.
Qed.

Lemma import_from_csv_reader_error_loses_ledger_witness :
  exists s' evs,
    BulkTaskOperations.import_from_csv Samples.torn_csv "tasks.csv" None None
      Samples.empty_ledger = (Raise (Exn "UnicodeDecodeError" "invalid start byte"), s') /\
    trace s' = (trace (@Samples.empty_ledger task (failure row)) ++ evs)%list /\
    length (primary_calls evs) = 1%nat /\
    (length (succeeded (locals s')) + length (failed (locals s')))%nat = 1%nat.
Proof.
  apply (import_from_csv_reader_error_loses_ledger Samples.torn_csv "tasks.csv" None None
           [ {[ "title" := Some "Write report" ]} ]
           (Exn "UnicodeDecodeError" "invalid start byte") Samples.empty_ledger).
  reflexivity.
Defined.

Lemma import_unreadable_input_raises_witness :
  exists s', BulkTaskOperations.import_from_json
               (Samples.quiet [] [] (VInt 7)) "tasks.json" None Samples.empty_ledger
             = (Raise (Exn "TypeError" "'int' object is not iterable"), s') /\
             ncalls s' = ncalls (@Samples.empty_ledger task (failure pyval)) /\
             trace s' = trace (@Samples.empty_ledger task (failure pyval)).
Proof.
  apply (import_unreadable_input_raises (Samples.quiet [] [] (VInt 7)) "tasks.json" None None
           (Exn "TypeError" "'int' object is not iterable")
           Samples.empty_ledger Samples.empty_ledger).
  right. exists (VInt 7). split; reflexivity.
Defined.

(** ** Export: when a file is written, and what is read back from it *)








Lemma or_else_blank (o : option string) : default "" (or_else o (Some "")) = default "" o.
Proof.
  destruct o as [x|]; [|reflexivity]. unfold or_else. cbn.
  destruct (String.eqb_spec x ""); cbn; congruence.
Qed.

(** The row [csv.DictReader] builds from eight cells under the header of
    the export. *)
Lemma export_header_lookup (a b c d e f g h : string) :
  let r := PyCsv.zip_row BulkTaskOperations.export_header [a; b; c; d; e; f; g; h] in
  r !! "task_id" = Some (Some a) /\ r !! "summary" = Some (Some b) /\
  r !! "description" = Some (Some c) /\ r !! "status" = Some (Some d) /\
  r !! "assignee" = Some (Some e) /\ r !! "due_time" = Some (Some f) /\
  r !! "created_time" = Some (Some g) /\ r !! "url" = Some (Some h).
Proof. vm_compute. repeat split; reflexivity. Qed.

(** The cells of a row, with the optional fields spelled out. *)
Lemma export_row_cells (t : task) :
  BulkTaskOperations.export_row t =
  [ task_id t; summary t; default "" (description t); status t;
    default "" (assignee t); default "" (due_time t); created_time t; url t ].
Proof. unfold BulkTaskOperations.export_row. rewrite !or_else_blank. reflexivity. Qed.

(** X6. Every column of the exported file reads back: the i-th row read by
    [csv.DictReader] holds, under the eight header names, the fields of the
    i-th task.  An absent description, assignee or due time reads back as
    the empty string, as an empty one does. *)
Theorem export_columns_read_back (tasks : list task) :
  exists rows,
    PyCsv.dict_read_all (BulkTaskOperations.export_text tasks) = Ok rows /\
    length rows = length tasks /\
    forall i t r, tasks !! i = Some t -> rows !! i = Some r ->
      r !! "task_id" = Some (Some (task_id t)) /\
      r !! "summary" = Some (Some (summary t)) /\
      r !! "description" = Some (Some (default "" (description t))) /\
      r !! "status" = Some (Some (status t)) /\
      r !! "assignee" = Some (Some (default "" (assignee t))) /\
      r !! "due_time" = Some (Some (default "" (due_time t))) /\
      r !! "created_time" = Some (Some (created_time t)) /\
      r !! "url" = Some (Some (url t)).
Proof.
  eexists. split; [apply export_reparse|]. split; [rewrite !length_fmap; reflexivity|].
  intros i t r Ht Hr. rewrite !list_lookup_fmap, Ht in Hr.
  cbn [fmap option_fmap option_map] in Hr. apply (inj Some) in Hr. subst r.
  rewrite export_row_cells. apply export_header_lookup.
Qed.
(** ** Notifier: sending a message *)

Lemma messages_app t1 t2 : messages (t1 ++ t2) = (messages t1 ++ messages t2)%list.
Proof. unfold messages. apply omap_app. Qed.

(** What one [_send_message] does, by the outcome of its call. *)
Lemma send_message_run (E : env) (L : Type) (to mt : string) (c : card) (s : state L) :
  TaskNotifier._send_message E to c mt s =
  let o := remote_unit E (ncalls s) (MessageCreate to mt c) in
  (Ok (delivered (status_of o)),
   State (locals s) (S (ncalls s))
     (trace s ++ ERemote (MessageCreate to mt c) (status_of o)
        :: match o with
           | Raised e => [EPrint Stdout ("Failed to send message: " +:+ exn_msg e)]
           | Returned _ => []
           end)).
Proof.
  unfold TaskNotifier._send_message. unfold_py.
  destruct (remote_unit E (ncalls s) (MessageCreate to mt c)) as [r|e]; cbn.
  - reflexivity.
  - rewrite <- app_assoc. reflexivity.
Qed.

(** X7. [_send_message] never raises: whatever the service does, it makes
    one call, the message, and returns whether the service answered with
    its success flag on; a transport fault is printed and reported as
    [False]. *)
Theorem send_message_never_raises (E : env) (L : Type) (to mt : string) (c : card)
    (s : state L) :
  exists st evs,
    TaskNotifier._send_message E to c mt s =
      (Ok (delivered st), State (locals s) (S (ncalls s)) (trace s ++ evs)%list) /\
    remote_calls evs = [MessageCreate to mt c] /\
    messages evs = [Message to c st] /\
    (forall e, st = Threw e ->
       evs = [ERemote (MessageCreate to mt c) st;
              EPrint Stdout ("Failed to send message: " +:+ exn_msg e)]).
Proof.
  rewrite send_message_run. cbv zeta.
  destruct (remote_unit E (ncalls s) (MessageCreate to mt c)) as [r|e];
    eexists; eexists; (split; [reflexivity|]); cbn; (split; [reflexivity|]);
    (split; [reflexivity|]).
  - discriminate.
  - intros e' [= <-]. reflexivity.
Qed.

(** ** Notifier: the followers of a finished task *)

Lemma notify_followers_loop_run (E : env) (L : Type) (c : card) (fs : list string) :
  forall (flag : bool) (s : state L),
  exists evs,
    TaskNotifier.notify_followers_loop E fs c flag s =
      (Ok (flag && forallb (fun m => delivered (fate m)) (messages evs)),
       State (locals s) (length fs + ncalls s) (trace s ++ evs)%list) /\
    recipient <$> messages evs = fs /\
    Forall (fun m => content m = c) (messages evs) /\
    remote_calls evs = (fun f => MessageCreate f "interactive" c) <$> fs.
Proof.
  induction fs as [|f fs IH]; intros flag s.
  - exists []. cbn. rewrite app_nil_r, andb_true_r. destruct s. repeat split; constructor.
  - cbn [TaskNotifier.notify_followers_loop]. unfold mbind, M_bind, bind.
    rewrite send_message_run. cbv beta iota zeta.
    set (o := remote_unit E (ncalls s) (MessageCreate f "interactive" c)).
    set (tail := match o with Raised e => _ | Returned _ => [] end).
    match goal with |- context [TaskNotifier.notify_followers_loop E fs c ?fl ?st] =>
      destruct (IH fl st) as (evs & Hrun & Hto & Hc & Hcalls); rewrite Hrun
    end.
    cbn [locals ncalls trace].
    exists (ERemote (MessageCreate f "interactive" c) (status_of o) :: tail ++ evs)%list.
    assert (Hm : messages tail = [] /\ remote_calls tail = []).
    { subst tail. destruct o; split; reflexivity. }
    destruct Hm as [Hm Hr].
    split; [|split; [|split]].
    + f_equal.
      * f_equal. change (ERemote ?a ?b :: ?l) with ([ERemote a b] ++ l)%list.
        rewrite !messages_app, Hm. cbn [app messages omap list_omap forallb fate].
        destruct (delivered (status_of o)), flag; reflexivity.
      * f_equal; [cbn; lia|]. rewrite <- !app_assoc. reflexivity.
    + change (ERemote ?a ?b :: ?l) with ([ERemote a b] ++ l)%list.
      rewrite !messages_app, Hm. cbn. f_equal. exact Hto.
    + change (ERemote ?a ?b :: ?l) with ([ERemote a b] ++ l)%list.
      rewrite !messages_app, Hm. cbn. constructor; [reflexivity | exact Hc].
    + change (ERemote ?a ?b :: ?l) with ([ERemote a b] ++ l)%list.
      rewrite !remote_calls_app, Hr. cbn. f_equal. exact Hcalls.
Qed.

(** X8. When the task is fetched and has followers, [notify_task_completed]
    sends the same green card to every follower, in order and without
    stopping at a failure, and returns [True] exactly when every one of
    the messages was answered with the success flag on. *)
Theorem notify_task_completed_messages_every_follower (E : env) (L : Type)
    (id : string) (resp : response task) (t : task) (s : state L) :
  remote_task E (ncalls s) (TaskGet id) = Returned resp ->
  success resp = true -> data resp = Some t -> followers t <> [] ->
  exists evs s',
    TaskNotifier.notify_task_completed E id true s =
      (Ok (forallb (fun m => delivered (fate m)) (messages evs)), s') /\
    trace s' = (trace s ++ evs)%list /\
    remote_calls evs =
      TaskGet id :: ((fun f => MessageCreate f "interactive"
                                 (TaskNotifier._build_task_card t "✅ 任务已完成" "green"))
                       <$> followers t) /\
    recipient <$> messages evs = followers t.
Proof.
  intros Hget Hs Hd Hf.
  unfold TaskNotifier.notify_task_completed. unfold_py. rewrite Hget, Hs, Hd.
  cbn [negb data_task orb]. unfold_py.
  destruct (followers t) as [|f fs] eqn:Hfs; [contradiction|]. rewrite <- Hfs.
  match goal with |- context [TaskNotifier.notify_followers_loop E _ ?c true ?st] =>
    destruct (notify_followers_loop_run E L c (followers t) true st)
      as (evs & Hrun & Hto & _ & Hcalls)
  end.
  replace (match followers t with [] => true | _ :: _ => false end) with false
    by (rewrite Hfs; reflexivity).
  rewrite Hrun. cbn [andb locals ncalls trace].
  exists (ERemote (TaskGet id) (status_of (Returned resp)) :: evs). eexists.
  split; [|split; [|split]].
  - reflexivity.
  - cbn [trace]. rewrite <- app_assoc. reflexivity.
  - cbn. f_equal. exact Hcalls.
  - cbn. exact Hto.
Qed.

Lemma notify_task_completed_messages_every_follower_witness :
  exists evs s',
    TaskNotifier.notify_task_completed Samples.lossy "t_9" true (init_state tt) =
      (Ok (forallb (fun m => delivered (fate m)) (messages evs)), s') /\
    trace s' = (trace (init_state tt) ++ evs)%list /\
    remote_calls evs =
      TaskGet "t_9" :: ((fun f => MessageCreate f "interactive"
                                 (TaskNotifier._build_task_card Samples.followed
                                    "✅ 任务已完成" "green"))
                       <$> followers Samples.followed) /\
    recipient <$> messages evs = followers Samples.followed.
Proof.
  apply (notify_task_completed_messages_every_follower Samples.lossy unit "t_9"
           (Response true 0 "success" (Some Samples.followed)) Samples.followed
           (init_state tt)).
  - reflexivity.
  - reflexivity.
  - reflexivity.
  - discriminate.
Defined.

(** On that service the first follower's message is lost, the second is
    sent all the same, and the result is [False]. *)
Example lossy_completion_notice :
  (TaskNotifier.notify_task_completed Samples.lossy "t_9" true (init_state tt)).1 = Ok false /\
  recipient <$> messages
    (trace (TaskNotifier.notify_task_completed Samples.lossy "t_9" true (init_state tt)).2)
  = ["ou_a"; "ou_b"].
Proof. split; vm_compute; reflexivity. Qed.

(** ** Notifier: nobody to notify, nothing to report *)

(** X9. With no assignee passed (or an empty one) and no [FEISHU_USER_ID]
    in the environment (or an empty one), the three digests print one
    error line, make no remote call, and return the empty list or
    [False]. *)
Theorem notifier_without_target_is_silent (E : env) (L : Type) (assignee tl : option string)
    (days : Z) (flag : bool) (s : state L) :
  str_truthy (or_else assignee (getenv E "FEISHU_USER_ID")) = false ->
  let s' := State (locals s) (ncalls s)
              (trace s ++ [EPrint Stdout "Error: No assignee specified"])%list in
  TaskNotifier.remind_due_soon E assignee days s = (Ok [], s') /\
  TaskNotifier.send_daily_digest E assignee flag s = (Ok false, s') /\
  TaskNotifier.send_weekly_report E assignee tl s = (Ok false, s').
Proof.
  intros H. cbv zeta.
  unfold TaskNotifier.remind_due_soon, TaskNotifier.send_daily_digest,
    TaskNotifier.send_weekly_report.
  cbv zeta. rewrite H. cbn [negb]. unfold_py. repeat split; reflexivity.
Qed.

Lemma notifier_without_target_is_silent_witness :
  TaskNotifier.remind_due_soon (Samples.quiet [] [] VNone) (Some "") 1 (init_state tt) =
    (Ok [], State tt 0%nat [EPrint Stdout "Error: No assignee specified"]) /\
  TaskNotifier.send_daily_digest (Samples.quiet [] [] VNone) (Some "") true (init_state tt) =
    (Ok false, State tt 0%nat [EPrint Stdout "Error: No assignee specified"]) /\
  TaskNotifier.send_weekly_report (Samples.quiet [] [] VNone) (Some "") None (init_state tt) =
    (Ok false, State tt 0%nat [EPrint Stdout "Error: No assignee specified"]).
Proof.
  apply (notifier_without_target_is_silent (Samples.quiet [] [] VNone) unit (Some "") None 1
           true (init_state tt)).
  reflexivity.
Defined.

(** X10. A fetch the service rejects ends every notification without a
    message: the two task notices and the daily and weekly digests never
    return [True], and the reminder, when it returns, returns the empty
    list. *)
Theorem rejected_fetch_sends_nothing (E : env) (L : Type) (id to who : string)
    (assignee tl : option string) (days : Z) (flag : bool) (s : state L) :
  (forall c, exists k m d, remote_task E (ncalls s) c = Returned (Response false k m d)) ->
  (forall c, exists k m d, remote_items E (ncalls s) c = Returned (Response false k m d)) ->
  let quiet_false (out : res bool * state L) :=
    out.1 <> Ok true /\ exists evs, trace out.2 = (trace s ++ evs)%list /\ messages evs = [] in
  quiet_false (TaskNotifier.notify_task_assigned E id to who s) /\
  quiet_false (TaskNotifier.notify_task_completed E id flag s) /\
  quiet_false (TaskNotifier.send_daily_digest E assignee flag s) /\
  quiet_false (TaskNotifier.send_weekly_report E assignee tl s) /\
  (forall ids s', TaskNotifier.remind_due_soon E assignee days s = (Ok ids, s') ->
     ids = [] /\ exists evs, trace s' = (trace s ++ evs)%list /\ messages evs = []).
Proof.
  intros Ht Hi. cbv zeta.
  split; [|split; [|split; [|split]]].
  - unfold TaskNotifier.notify_task_assigned. unfold_py.
    destruct (Ht (TaskGet id)) as (k & m & d & ->). cbn.
    split; [discriminate|]. eexists. split; reflexivity.
  - unfold TaskNotifier.notify_task_completed. unfold_py.
    destruct (Ht (TaskGet id)) as (k & m & d & ->). cbn.
    split; [discriminate|]. eexists. split; reflexivity.
  - unfold TaskNotifier.send_daily_digest. cbv zeta.
    destruct (str_truthy (or_else assignee _)); cbn [negb]; unfold_py.
    + match goal with |- context [remote_items E (ncalls s) ?c] =>
        destruct (Hi c) as (k & m & d & ->) end. cbn.
      split; [discriminate|]. eexists. split; reflexivity.
    + cbn. split; [discriminate|]. eexists. split; reflexivity.
  - unfold TaskNotifier.send_weekly_report. cbv zeta.
    destruct (str_truthy (or_else assignee _)); cbn [negb]; unfold_py.
    + destruct (PyDatetime.add_days _ _) as [since|e]; cbn.
      * destruct (str_truthy tl);
          match goal with |- context [remote_items E (ncalls s) ?c] =>
            destruct (Hi c) as (k & m & d & ->) end; cbn;
          (split; [discriminate|]); eexists; split; reflexivity.
      * split; [discriminate|]. exists []. rewrite app_nil_r. split; reflexivity.
    + cbn. split; [discriminate|]. eexists. split; reflexivity.
  - intros ids s'. unfold TaskNotifier.remind_due_soon. cbv zeta.
    destruct (str_truthy (or_else assignee _)); cbn [negb]; unfold_py.
    + destruct (PyDatetime.add_days _ _) as [due|e]; cbn; [|discriminate].
      match goal with |- context [remote_items E (ncalls s) ?c] =>
        destruct (Hi c) as (k & m & d & ->) end. cbn.
      intros [= <- <-]. split; [reflexivity|]. cbn [trace].
      eexists. rewrite <- app_assoc. split; reflexivity.
    + intros [= <- <-]. split; [reflexivity|]. eexists. split; reflexivity.
Qed.

Lemma rejected_fetch_sends_nothing_witness :
  (TaskNotifier.notify_task_assigned Samples.refusing "t_1" "ou_1" "Ann" (init_state tt)).1
    <> Ok true /\
  (TaskNotifier.send_daily_digest Samples.refusing (Some "ou_1") false (init_state tt)).1
    <> Ok true.
Proof.
  pose proof (rejected_fetch_sends_nothing Samples.refusing unit "t_1" "ou_1" "Ann"
                (Some "ou_1") None 1 false (init_state tt)) as H.
  cbv zeta in H.
  destruct H as ((H1 & _) & _ & (H3 & _) & _).
  - intros c. do 3 eexists. reflexivity.
  - intros c. do 3 eexists. reflexivity.
  - split; assumption.
Defined.

(** ** Notifier: an answer without data *)

(** X11. The notifier reads [response.data] unguarded: when the fetch is
    answered with the success flag on and no data, both task notices and
    the daily digest raise [AttributeError], and the reminder and the weekly
    digest raise too; no message is sent. *)
Theorem notifier_fetch_without_data_raises (E : env) (L : Type) (id to who : string)
    (assignee tl : option string) (days : Z) (flag : bool) (s : state L) :
  (forall c, exists k m, remote_task E (ncalls s) c = Returned (Response true k m None)) ->
  (forall c, exists k m, remote_items E (ncalls s) c = Returned (Response true k m None)) ->
  str_truthy (or_else assignee (getenv E "FEISHU_USER_ID")) = true ->
  let raises {A} (out : res A * state L) (P : exn -> Prop) :=
    exists e, out.1 = Raise e /\ P e /\ messages (trace out.2) = messages (trace s) in
  let attribute (e : exn) := exn_type e = "AttributeError" in
  raises (TaskNotifier.notify_task_assigned E id to who s) attribute /\
  raises (TaskNotifier.notify_task_completed E id flag s) attribute /\
  raises (TaskNotifier.send_daily_digest E assignee flag s) attribute /\
  raises (TaskNotifier.send_weekly_report E assignee tl s) (fun _ => True) /\
  raises (TaskNotifier.remind_due_soon E assignee days s) (fun _ => True).
Proof.
  intros Ht Hi Htarget. cbv zeta.
  split; [|split; [|split; [|split]]].
  - unfold TaskNotifier.notify_task_assigned. unfold_py.
    destruct (Ht (TaskGet id)) as (k & m & ->). cbn.
    eexists. split; [reflexivity|]. split; [reflexivity|].
    rewrite messages_app, app_nil_r. reflexivity.
  - unfold TaskNotifier.notify_task_completed. unfold_py.
    destruct (Ht (TaskGet id)) as (k & m & ->). cbn.
    eexists. split; [reflexivity|]. split; [reflexivity|].
    rewrite messages_app, app_nil_r. reflexivity.
  - unfold TaskNotifier.send_daily_digest. cbv zeta. rewrite Htarget. cbn [negb]. unfold_py.
    match goal with |- context [remote_items E (ncalls s) ?c] =>
      destruct (Hi c) as (k & m & ->) end. cbn.
    eexists. split; [reflexivity|]. split; [reflexivity|].
    rewrite messages_app, app_nil_r. reflexivity.
  - unfold TaskNotifier.send_weekly_report. cbv zeta. rewrite Htarget. cbn [negb]. unfold_py.
    destruct (PyDatetime.add_days _ _) as [since|e]; cbn.
    + destruct (str_truthy tl);
        match goal with |- context [remote_items E (ncalls s) ?c] =>
          destruct (Hi c) as (k & m & ->) end; cbn;
        (eexists; split; [reflexivity|]; split; [exact I|]);
        rewrite messages_app, app_nil_r; reflexivity.
    + eexists. split; [reflexivity|]. split; [exact I | reflexivity].
  - unfold TaskNotifier.remind_due_soon. cbv zeta. rewrite Htarget. cbn [negb]. unfold_py.
    destruct (PyDatetime.add_days _ _) as [due|e]; cbn.
    + match goal with |- context [remote_items E (ncalls s) ?c] =>
        destruct (Hi c) as (k & m & ->) end. cbn.
      eexists. split; [reflexivity|]. split; [exact I|].
      rewrite messages_app, app_nil_r. reflexivity.
    + eexists. split; [reflexivity|]. split; [exact I | reflexivity].
Qed.

Lemma notifier_fetch_without_data_raises_witness :
  exists e,
    (TaskNotifier.send_daily_digest Samples.hollow (Some "ou_1") false
       (init_state tt)).1 = Raise e /\ exn_type e = "AttributeError".
Proof.
  pose proof (notifier_fetch_without_data_raises Samples.hollow
                unit "t_1" "ou_1" "Ann" (Some "ou_1") None 1 false (init_state tt)) as H.
  cbv zeta in H.
  destruct H as (_ & _ & (e & He & Ha & _) & _).
  - intros c. do 2 eexists. reflexivity.
  - intros c. do 2 eexists. reflexivity.
  - reflexivity.
  - exists e. split; assumption.
Defined.

(** ** Notifier: the reminder *)

(** X12. [remind_due_soon] returns all or nothing: when it returns, the
    result is either the ids of every fetched task, in order (also of the
    tasks beyond the ten the card lists), after exactly one message, which
    was delivered, or the empty list, with no message delivered. *)
Theorem remind_due_soon_all_or_nothing (E : env) (L : Type) (assignee : option string)
    (days : Z) (resp : response (list task)) (s s' : state L) (ids : list string) :
  (forall c, remote_items E (ncalls s) c = Returned resp) ->
  TaskNotifier.remind_due_soon E assignee days s = (Ok ids, s') ->
  exists evs,
    trace s' = (trace s ++ evs)%list /\
    ((ids = task_id <$> fetched resp /\ ids <> [] /\
      exists st, messages evs =
                   [Message (default "" (or_else assignee (getenv E "FEISHU_USER_ID")))
                            (TaskNotifier.reminder_card days (fetched resp)) st] /\
                 delivered st = true) \/
     (ids = [] /\ Forall (fun m => delivered (fate m) = false) (messages evs))).
Proof.
  intros Hi. unfold TaskNotifier.remind_due_soon. cbv zeta.
  destruct (str_truthy (or_else assignee _)); cbn [negb]; unfold_py.
  - destruct (PyDatetime.add_days _ _) as [due|e]; cbn; [|discriminate].
    rewrite Hi. cbn. unfold fetched.
    destruct (success resp); cbn.
    + destruct (data resp) as [[|t ts]|]; cbn; [| |discriminate].
      * intros [= <- <-]. eexists. split; [reflexivity|]. right. split; [reflexivity|].
        constructor.
      * rewrite send_message_run. cbv beta iota zeta. cbn [locals ncalls trace].
        set (o := remote_unit E _ _).
        destruct o as [r|e]; cbn [status_of delivered].
        -- destruct (success r) eqn:Hr; cbn; intros [= <- <-]; cbn [trace];
             eexists; (split; [rewrite <- !app_assoc; reflexivity|]).
           ++ left. split; [reflexivity|]. split; [discriminate|].
              eexists. cbn. split; reflexivity.
           ++ right. split; [reflexivity|]. cbn. repeat constructor.
        -- cbn. intros [= <- <-]. cbn [trace].
           eexists. split; [rewrite <- !app_assoc; reflexivity|].
           right. split; [reflexivity|]. cbn. repeat constructor.
    + intros [= <- <-]. cbn [trace]. eexists. split; [rewrite <- !app_assoc; reflexivity|].
      right. split; [reflexivity|]. constructor.
  - intros [= <- <-]. eexists. split; [reflexivity|]. right. split; [reflexivity|]. constructor.
Qed.

Lemma remind_due_soon_all_or_nothing_witness :
  let E := Samples.quiet [Samples.late_naive] [] VNone in
  let resp := Response true 0 "success" (Some [Samples.late_naive]) in
  exists evs,
    trace (TaskNotifier.remind_due_soon E (Some "ou_1") 1 (init_state tt)).2 =
      (trace (init_state tt) ++ evs)%list /\
    ((["t_1"] = task_id <$> fetched resp /\ ["t_1"] <> [] /\
      exists st, messages evs =
                   [Message (default "" (or_else (Some "ou_1") (getenv E "FEISHU_USER_ID")))
                            (TaskNotifier.reminder_card 1 (fetched resp)) st] /\
                 delivered st = true) \/
     (["t_1"] = [] /\ Forall (fun m => delivered (fate m) = false) (messages evs))).
Proof.
  cbv zeta.
  apply (remind_due_soon_all_or_nothing (Samples.quiet [Samples.late_naive] [] VNone) unit
           (Some "ou_1") 1 (Response true 0 "success" (Some [Samples.late_naive]))
           (init_state tt)
           (TaskNotifier.remind_due_soon (Samples.quiet [Samples.late_naive] [] VNone)
              (Some "ou_1") 1 (init_state tt)).2
           ["t_1"]).
  - intros c. reflexivity.
  - vm_compute. reflexivity.
Defined.

(** ** Timestamps: what is written reads back *)
Module DatetimeText.
Import PyDatetime.

Lemma digits_app n m acc s acc' s' :
  digits n acc s = Some (acc', s') -> digits (n + m) acc s = digits m acc' s'.
Proof.
  revert acc s. induction n as [|n IH]; intros acc s; cbn [digits Nat.add].
  - intros [= <- <-]. reflexivity.
  - destruct s as [|c s1]; [discriminate|]. destruct (is_digit c); [|discriminate].
    apply IH.
Qed.

Lemma digit_text (k : Z) :
  0 <= k < 10 -> exists c, pretty k = String c EmptyString /\ is_digit c = true /\ digit_val c = k.
Proof.
  intros Hk.
  assert (Hc : k = 0 \/ k = 1 \/ k = 2 \/ k = 3 \/ k = 4 \/ k = 5 \/ k = 6 \/ k = 7 \/
               k = 8 \/ k = 9) by lia.
  repeat (destruct Hc as [-> | Hc]); try subst k;
    (eexists; split; [vm_compute; reflexivity | split; vm_compute; reflexivity]).
Qed.

Lemma digits_pad n : forall z acc rest,
  digits n acc (pad n z +:+ rest) = Some (acc * 10 ^ Z.of_nat n + z mod 10 ^ Z.of_nat n, rest).
Proof.
  induction n as [|n IH]; intros z acc rest.
  - cbn [digits pad]. rewrite CsvRoundTrip.app_nil_l. f_equal. f_equal.
    change (10 ^ Z.of_nat 0) with 1. rewrite Z.mod_1_r. lia.
  - replace (S n) with (n + 1)%nat at 1 by lia. cbn [pad].
    rewrite CsvRoundTrip.app_assoc.
    rewrite (digits_app n 1 _ _ _ _ (IH (z / 10) acc _)).
    destruct (digit_text (z mod 10)) as (c & -> & Hd & Hv).
    { apply Z.mod_pos_bound. lia. }
    rewrite CsvRoundTrip.app_cons, CsvRoundTrip.app_nil_l.
    cbn [digits]. rewrite Hd, Hv. f_equal. f_equal.
    rewrite Nat2Z.inj_succ, Z.pow_succ_r by lia.
    rewrite (Z.rem_mul_r z 10 (10 ^ Z.of_nat n)) by lia. lia.
Qed.
End DatetimeText.

Module DatetimeRoundTrip.
Import PyDatetime.

Lemma expect_lit (c : ascii) (rest : string) :
  expect c (String c EmptyString +:+ rest) = Some rest.
Proof.
  rewrite CsvRoundTrip.app_cons, CsvRoundTrip.app_nil_l. cbn [expect].
  rewrite Ascii.eqb_refl. reflexivity.
Qed.

Lemma digits_pad0 n z rest :
  digits n 0 (pad n z +:+ rest) = Some (z mod 10 ^ Z.of_nat n, rest).
Proof. rewrite DatetimeText.digits_pad. reflexivity. Qed.

(** What [fromisoformat] reads in the text [isoformat] writes for a naive
    value: the fields, each cut to the width it is written in. *)
Lemma parse_isoformat_naive (c : civil) :
  parse_iso (isoformat (DateTime c None)) =
  Some (DateTime (Civil (year c mod 10000) (month c mod 100) (day c mod 100)
                        (hour c mod 100) (minute c mod 100) (second c mod 100)
                        (if microsecond c =? 0 then 0 else microsecond c mod 1000000))
                 None).
Proof.
  unfold parse_iso, isoformat. cbn [fields_of tzinfo].
  rewrite digits_pad0. cbn [mbind option_bind]. rewrite expect_lit. cbn [mbind option_bind].
  rewrite digits_pad0. cbn [mbind option_bind]. rewrite expect_lit. cbn [mbind option_bind].
  rewrite digits_pad0. cbn [mbind option_bind].
  rewrite (CsvRoundTrip.app_cons "T"), CsvRoundTrip.app_nil_l.
  rewrite digits_pad0. cbn [mbind option_bind].
  rewrite (CsvRoundTrip.app_cons ":"), CsvRoundTrip.app_nil_l.
  cbn [parse_minutes].
  rewrite digits_pad0. cbn [mbind option_bind].
  rewrite (CsvRoundTrip.app_cons ":"), CsvRoundTrip.app_nil_l.
  rewrite digits_pad0. cbn [mbind option_bind].
  destruct (microsecond c =? 0).
  - reflexivity.
  - rewrite CsvRoundTrip.app_nil_r.
    rewrite (CsvRoundTrip.app_cons "."), CsvRoundTrip.app_nil_l.
    unfold parse_fraction.
    rewrite <- (CsvRoundTrip.app_nil_r (pad 6 (microsecond c))), digits_pad0.
    reflexivity.
Qed.
End DatetimeRoundTrip.

Module DatetimeShift.
Import PyDatetime.

Lemma days_in_month_bounds (y m : Z) : 28 <= days_in_month y m <= 31.
Proof.
  unfold days_in_month.
  destruct (m =? 2); [destruct (is_leap y); lia|].
  destruct ((m =? 4) || (m =? 6) || (m =? 9) || (m =? 11)); lia.
Qed.

Lemma next_day_ok c0 c : calendar_ok c0 c -> calendar_ok c0 (next_day c).
Proof.
  intros (Hm & Hd & Ht). unfold next_day, calendar_ok.
  destruct (Z.ltb_spec (day c) (days_in_month (year c) (month c))); cbn.
  - repeat split; try tauto; lia.
  - destruct (Z.ltb_spec (month c) 12); cbn.
    + pose proof (days_in_month_bounds (year c) (month c + 1)).
      repeat split; try tauto; lia.
    + pose proof (days_in_month_bounds (year c + 1) 1).
      repeat split; try tauto; lia.
Qed.

Lemma prev_day_ok c0 c : calendar_ok c0 c -> calendar_ok c0 (prev_day c).
Proof.
  intros (Hm & Hd & Ht). unfold prev_day, calendar_ok.
  destruct (Z.ltb_spec 1 (day c)); cbn.
  - repeat split; try tauto; lia.
  - destruct (Z.ltb_spec 1 (month c)); cbn.
    + pose proof (days_in_month_bounds (year c) (month c - 1)).
      repeat split; try tauto; lia.
    + repeat split; try tauto; try lia; vm_compute; discriminate.
Qed.

Lemma iter_ok (f : civil -> civil) (P : civil -> Prop) (n : nat) (c : civil) :
  (forall x, P x -> P (f x)) -> P c -> P (Nat.iter n f c).
Proof. intros Hf Hc. induction n as [|n IH]; cbn; auto. Qed.

Lemma shift_days_ok c0 n c : calendar_ok c0 c -> calendar_ok c0 (shift_days n c).
Proof.
  intros H. unfold shift_days.
  destruct (0 <=? n); apply iter_ok; auto using next_day_ok, prev_day_ok.
Qed.

Ltac bools H :=
  repeat match type of H with
         | (_ && _) = true => let H' := fresh H in apply andb_prop in H as [H H']; bools H'
         end;
  repeat match goal with
         | X : (_ <=? _) = true |- _ => apply Z.leb_le in X
         | X : (_ <? _) = true |- _ => apply Z.ltb_lt in X
         end.

Lemma valid_clock_calendar c : valid_clock c = true -> calendar_ok c c.
Proof.
  unfold valid_clock, valid_fields. intros H. bools H. unfold calendar_ok.
  repeat split; try reflexivity; lia.
Qed.

Lemma calendar_valid c0 c :
  valid_clock c0 = true -> calendar_ok c0 c -> 1 <= year c <= 9999 -> valid_clock c = true.
Proof.
  unfold valid_clock, valid_fields. intros H (Hm & Hd & Hh & Hmi & Hs & Hus) Hy. bools H.
  rewrite Hh, Hmi, Hs, Hus.
  repeat (apply andb_true_intro; split); try apply Z.leb_le; try apply Z.ltb_lt; lia.
Qed.

(** Shifting a valid naive reading of the clock by whole days gives, when
    the date stays within the years 1 to 9999, a valid naive value with the
    same time of day. *)
Lemma add_days_valid (c : civil) (n : Z) (d : datetime) :
  valid_clock c = true -> add_days (DateTime c None) n = Ok d ->
  d = DateTime (shift_days n c) None /\ valid_clock (shift_days n c) = true.
Proof.
  intros Hc. unfold add_days. cbn [fields_of tzinfo].
  destruct (999999999 <? Z.abs n); [discriminate|].
  destruct ((1 <=? year (shift_days n c)) && (year (shift_days n c) <=? 9999)) eqn:Hy;
    [|discriminate].
  intros [= <-]. split; [reflexivity|].
  apply (calendar_valid c); [assumption | apply shift_days_ok, valid_clock_calendar, Hc |].
  bools Hy. lia.
Qed.

(** The text [isoformat] writes for a valid naive value reads back as that
    value. *)
Lemma fromisoformat_isoformat (c : civil) :
  valid_clock c = true -> fromisoformat (isoformat (DateTime c None)) = Ok (DateTime c None).
Proof.
  intros Hc. unfold fromisoformat. rewrite DatetimeRoundTrip.parse_isoformat_naive.
  cbn [fields_of].
  assert (Hv : valid_fields c = true).
  { unfold valid_clock in Hc. bools Hc. assumption. }
  pose proof (days_in_month_bounds (year c) (month c)) as Hdim.
  unfold valid_clock, valid_fields in Hc. bools Hc.
  assert (Heq : Civil (year c mod 10000) (month c mod 100) (day c mod 100)
                      (hour c mod 100) (minute c mod 100) (second c mod 100)
                      (if microsecond c =? 0 then 0 else microsecond c mod 1000000) = c).
  { destruct c as [y m d h mi s us]. cbn in *.
    rewrite !Z.mod_small by lia.
    destruct (Z.eqb_spec us 0) as [->|_]; reflexivity. }
  rewrite Heq, Hv. reflexivity.
Qed.

(** Whatever the clock reads, the text of a naive value never reads back
    as an aware one. *)
Lemma isoformat_naive_reads_naive (c : civil) (d : datetime) :
  fromisoformat (isoformat (DateTime c None)) = Ok d -> tzinfo d = None.
Proof.
  unfold fromisoformat. rewrite DatetimeRoundTrip.parse_isoformat_naive.
  destruct (valid_fields _); [|discriminate]. intros [= <-]. reflexivity.
Qed.
End DatetimeShift.

(** ** The bound of the due-soon query *)

(** X13. On a valid clock, [get_tasks_due_soon] either raises
    [OverflowError] before any call (the date asked for is beyond what
    [datetime] holds), or makes one list call for the open tasks assigned
    to the caller whose [due_before] bound is a timestamp without offset:
    read back, it is the clock's reading moved by [days] days, at the same
    time of day.  The tasks returned are those of the answer, none when
    the service rejected the call. *)
Theorem get_tasks_due_soon_bound (E : env) (L : Type) (days : Z)
    (resp : response (list task)) (s : state L) :
  valid_clock (clock E) = true ->
  (forall c, remote_items E (ncalls s) c = Returned resp) ->
  (exists e, FeishuTaskManager.get_tasks_due_soon E days s = (Raise e, s) /\
             exn_type e = "OverflowError") \/
  (exists bound s',
     FeishuTaskManager.get_tasks_due_soon E days s = (Ok (fetched resp), s') /\
     remote_calls (trace s') =
       (remote_calls (trace s) ++
        [TaskList (ListQuery true false None (Some bound) (Some ["todo"; "in_progress"])
                             (Some 100))])%list /\
     PyDatetime.fromisoformat bound =
       Ok (DateTime (PyDatetime.shift_days days (clock E)) None)).
Proof.
  intros Hc Hi. unfold FeishuTaskManager.get_tasks_due_soon. unfold_py.
  destruct (PyDatetime.add_days (PyDatetime.now E) days) as [due|e] eqn:Hadd.
  - right. destruct (DatetimeShift.add_days_valid _ _ _ Hc Hadd) as [-> Hv].
    rewrite Hi. cbv beta iota. unfold FeishuTaskManager._handle_response, fetched. unfold_py.
    exists (PyDatetime.isoformat (DateTime (PyDatetime.shift_days days (clock E)) None)).
    destruct (success resp); cbn [negb]; eexists;
      (split; [reflexivity|]);
      (split; [|apply DatetimeShift.fromisoformat_isoformat, Hv]);
      cbn [trace]; rewrite !remote_calls_app; cbn; rewrite ?app_nil_r; reflexivity.
  - left. exists e. split; [reflexivity|].
    unfold PyDatetime.add_days in Hadd.
    destruct (999999999 <? Z.abs days); [injection Hadd as <-; reflexivity|].
    destruct (_ && _); [discriminate|]. injection Hadd as <-. reflexivity.
Qed.

Lemma get_tasks_due_soon_bound_witness :
  let E := Samples.quiet Samples.mixed_tasks [] VNone in
  (exists e, FeishuTaskManager.get_tasks_due_soon E 3 (init_state tt)
               = (Raise e, init_state tt) /\
             exn_type e = "OverflowError") \/
  (exists bound s',
     FeishuTaskManager.get_tasks_due_soon E 3 (init_state tt)
       = (Ok (fetched (Response true 0 "success" (Some Samples.mixed_tasks))), s') /\
     remote_calls (trace s') =
       (remote_calls (trace (init_state tt)) ++
        [TaskList (ListQuery true false None (Some bound) (Some ["todo"; "in_progress"])
                             (Some 100))])%list /\
     PyDatetime.fromisoformat bound =
       Ok (DateTime (PyDatetime.shift_days 3 (clock E)) None)).
Proof.
  cbv zeta.
  apply (get_tasks_due_soon_bound (Samples.quiet Samples.mixed_tasks [] VNone) unit 3
           (Response true 0 "success" (Some Samples.mixed_tasks)) (init_state tt)).
  - reflexivity.
  - intros c. reflexivity.
Defined.

(** At noon on 4 November 2026, the bound for three days is noon on the
    7th. *)
Example due_soon_bound_at_noon :
  remote_calls
    (trace (FeishuTaskManager.get_tasks_due_soon (Samples.quiet [] [] VNone) 3
              (init_state tt)).2)
  = [TaskList (ListQuery true false None (Some "2026-11-07T12:00:00")
                         (Some ["todo"; "in_progress"]) (Some 100))].
Proof. vm_compute. reflexivity. Qed.

(** ** The weekly digest *)

Lemma filter_res_ok {A} (p : A -> res bool) (q : A -> bool) (ts : list A) :
  Forall (fun t => p t = Ok (q t)) ts -> filter_res p ts = Ok (List.filter q ts).
Proof.
  induction 1 as [|t ts Ht _ IH]; [reflexivity|].
  cbn [filter_res List.filter]. rewrite Ht, IH. destruct (q t); reflexivity.
Qed.

Lemma filter_res_raises {A} (p : A -> res bool) (t : A) (ts : list A) :
  t ∈ ts -> (exists e, p t = Raise e) -> exists e, filter_res p ts = Raise e.
Proof.
  intros Hin (e & He). induction ts as [|t' ts IH]; [inversion Hin|].
  cbn [filter_res]. apply elem_of_cons in Hin as [<- | Hin].
  - rewrite He. eauto.
  - destruct (p t') as [b|e']; [|eauto]. destruct (IH Hin) as (e'' & ->). eauto.
Qed.

(** The date of a week ago is written without offset. *)
Lemma week_ago_naive (E : env) (n : Z) (since : datetime) :
  PyDatetime.add_days (PyDatetime.now E) n = Ok since ->
  since = DateTime (fields_of since) None.
Proof.
  unfold PyDatetime.add_days. destruct (_ <? _); [discriminate|].
  destruct (_ && _); [|discriminate]. intros [= <-]. reflexivity.
Qed.

Lemma created_since_aware_raises (c : civil) (t : task) (d : datetime) (off : Z) :
  PyDatetime.fromisoformat (replace_Z (created_time t)) = Ok d -> tzinfo d = Some off ->
  exists e, TaskNotifier.created_since (PyDatetime.isoformat (DateTime c None)) t = Raise e.
Proof.
  intros Hp Htz. unfold TaskNotifier.created_since. rewrite Hp.
  destruct (PyDatetime.fromisoformat (PyDatetime.isoformat _)) as [since|e] eqn:Hs; [|eauto].
  apply DatetimeShift.isoformat_naive_reads_naive in Hs.
  unfold PyDatetime.gt, PyDatetime.lt. rewrite Hs, Htz. eauto.
Qed.

(** X14. [send_weekly_report] compares every task's creation time with a
    date taken from the naive [datetime.now()]: as soon as one fetched task
    has a creation time with a UTC offset (or the designator Z), the digest
    raises and no message is sent. *)
Theorem weekly_report_aware_created_time_raises (E : env) (L : Type)
    (assignee tl : option string) (resp : response (list task)) (tasks : list task)
    (t : task) (d : datetime) (off : Z) (s : state L) :
  str_truthy (or_else assignee (getenv E "FEISHU_USER_ID")) = true ->
  (forall c, remote_items E (ncalls s) c = Returned resp) ->
  success resp = true -> data resp = Some tasks -> t ∈ tasks ->
  PyDatetime.fromisoformat (replace_Z (created_time t)) = Ok d -> tzinfo d = Some off ->
  exists e s',
    TaskNotifier.send_weekly_report E assignee tl s = (Raise e, s') /\
    messages (trace s') = messages (trace s).
Proof.
  intros Htarget Hi Hs Hd Hin Hp Htz.
  unfold TaskNotifier.send_weekly_report. cbv zeta. rewrite Htarget. cbn [negb]. unfold_py.
  destruct (PyDatetime.add_days _ _) as [since|e] eqn:Hadd; [|eauto].
  rewrite (week_ago_naive _ _ _ Hadd).
  destruct (created_since_aware_raises (fields_of since) t d off Hp Htz) as (e1 & He1).
  destruct (filter_res_raises _ t tasks Hin (ex_intro _ e1 He1)) as (e2 & He2).
  destruct (str_truthy tl); rewrite Hi; cbv beta iota; rewrite Hs, Hd; cbn [negb];
    unfold data_items; unfold_py; cbv beta iota;
    rewrite He2;
    destruct (filter_res (TaskNotifier.completed_since _) tasks);
    do 2 eexists; (split; [reflexivity|]); cbn [trace];
    rewrite messages_app, app_nil_r; reflexivity.
Qed.

Lemma weekly_report_aware_created_time_raises_witness :
  exists e s',
    TaskNotifier.send_weekly_report (Samples.quiet [Samples.utc_stamped] [] VNone)
      (Some "ou_1") None (init_state tt) = (Raise e, s') /\
    messages (trace s') = messages (trace (init_state tt)).
Proof.
  apply (weekly_report_aware_created_time_raises
           (Samples.quiet [Samples.utc_stamped] [] VNone) unit (Some "ou_1") None
           (Response true 0 "success" (Some [Samples.utc_stamped])) [Samples.utc_stamped]
           Samples.utc_stamped (DateTime (Civil 2026 11 1 8 0 0 0) (Some 0)) 0 (init_state tt)).
  - reflexivity.
  - intros c. reflexivity.
  - reflexivity.
  - reflexivity.
  - apply list_elem_of_here.
  - vm_compute. reflexivity.
  - reflexivity.
Defined.

Lemma naive_time_parses (str : string) :
  naive_time str = true ->
  exists d, PyDatetime.fromisoformat (replace_Z str) = Ok d /\ tzinfo d = None.
Proof.
  unfold naive_time. destruct (PyDatetime.fromisoformat _) as [d|]; [|discriminate].
  destruct (tzinfo d) eqn:Htz; [discriminate|]. eauto.
Qed.

Lemma later_than_naive (since : datetime) (str : string) :
  tzinfo since = None -> naive_time str = true ->
  match PyDatetime.fromisoformat (replace_Z str) with
  | Ok d => PyDatetime.gt d since
  | Raise e => Raise e
  end = Ok (later_than since str).
Proof.
  intros Hs Hn. destruct (naive_time_parses str Hn) as (d & Hp & Htz).
  unfold later_than. rewrite Hp. unfold PyDatetime.gt, PyDatetime.lt. rewrite Hs, Htz.
  reflexivity.
Qed.

Lemma datable_conditions (c : civil) (t : task) :
  valid_clock c = true -> datable t = true ->
  let week_ago := PyDatetime.isoformat (DateTime c None) in
  TaskNotifier.completed_since week_ago t = Ok (finished_since (DateTime c None) t) /\
  TaskNotifier.created_since week_ago t
    = Ok (later_than (DateTime c None) (created_time t)).
Proof.
  intros Hc Hd. cbv zeta. unfold datable in Hd. apply andb_prop in Hd as [Hcr Hco].
  unfold TaskNotifier.completed_since, TaskNotifier.created_since, finished_since.
  rewrite (DatetimeShift.fromisoformat_isoformat c Hc).
  split.
  - destruct (String.eqb (status t) "completed" && str_truthy (completed_time t));
      [|reflexivity].
    cbn [negb orb andb] in *.
    pose proof (later_than_naive (DateTime c None) _ eq_refl Hco) as H.
    destruct (PyDatetime.fromisoformat _); exact H.
  - pose proof (later_than_naive (DateTime c None) _ eq_refl Hcr) as H.
    destruct (PyDatetime.fromisoformat _); exact H.
Qed.

(** X15. On a valid clock, when the date of a week ago is within range and
    every fetched task carries timestamps that are read without UTC offset
    (its creation time, and its completion time when it is completed and
    has one, in one of the forms [YYYY-MM-DD] and
    [YYYY-MM-DD?HH[:MM[:SS[.fff[fff]]]]], see [plain_timestamp_reads]), the
    weekly digest makes two calls, the fetch and one message to the
    target; the card counts as created the tasks whose creation time is
    later than a week ago, as completed those of status completed whose
    completion time is, and the result is whether the message was
    delivered. *)
Theorem weekly_report_sends_one_card (E : env) (L : Type) (assignee tl : option string)
    (resp : response (list task)) (tasks : list task) (since : datetime) (s : state L) :
  valid_clock (clock E) = true ->
  str_truthy (or_else assignee (getenv E "FEISHU_USER_ID")) = true ->
  (forall c, remote_items E (ncalls s) c = Returned resp) ->
  success resp = true -> data resp = Some tasks ->
  PyDatetime.add_days (PyDatetime.now E) (-7) = Ok since ->
  Forall (fun t => datable t = true) tasks ->
  exists st s',
    TaskNotifier.send_weekly_report E assignee tl s = (Ok (delivered st), s') /\
    ncalls s' = S (S (ncalls s)) /\
    messages (trace s') =
      (messages (trace s) ++
       [Message (default "" (or_else assignee (getenv E "FEISHU_USER_ID")))
          (TaskNotifier.weekly_card tasks
             (List.filter (fun t => later_than since (created_time t)) tasks)
             (List.filter (finished_since since) tasks))
          st])%list.
Proof.
  intros Hc Htarget Hi Hs Hd Hadd Hall.
  destruct (DatetimeShift.add_days_valid _ _ _ Hc Hadd) as [-> Hv].
  unfold TaskNotifier.send_weekly_report. cbv zeta. rewrite Htarget. cbn [negb]. unfold_py.
  rewrite Hadd.
  assert (Hcomp : filter_res (TaskNotifier.completed_since
                    (PyDatetime.isoformat (DateTime (PyDatetime.shift_days (-7) (clock E)) None)))
                    tasks
                  = Ok (List.filter
                          (finished_since (DateTime (PyDatetime.shift_days (-7) (clock E)) None))
                          tasks)).
  { apply filter_res_ok. eapply Forall_impl; [exact Hall|].
    intros t Ht. apply (datable_conditions _ t Hv Ht). }
  assert (Hcre : filter_res (TaskNotifier.created_since
                    (PyDatetime.isoformat (DateTime (PyDatetime.shift_days (-7) (clock E)) None)))
                    tasks
                 = Ok (List.filter
                         (fun t => later_than
                                     (DateTime (PyDatetime.shift_days (-7) (clock E)) None)
                                     (created_time t))
                         tasks)).
  { apply filter_res_ok. eapply Forall_impl; [exact Hall|].
    intros t Ht. apply (datable_conditions _ t Hv Ht). }
  destruct (str_truthy tl); rewrite Hi; cbv beta iota; rewrite Hs, Hd; cbn [negb];
    unfold data_items; unfold_py; cbv beta iota;
    rewrite Hcomp, Hcre; rewrite send_message_run; cbv zeta;
    do 2 eexists; (split; [reflexivity|]); cbn [ncalls trace];
    (split; [reflexivity|]);
    change (?a :: ?l) with ([a] ++ l)%list;
    rewrite !messages_app; cbn [messages omap list_omap];
    match goal with |- context [match ?o with Raised _ => _ | Returned _ => _ end] =>
      destruct o end; cbn; rewrite ?app_nil_r; reflexivity.
Qed.

Lemma weekly_report_sends_one_card_witness :
  let E := Samples.quiet Samples.week_tasks [] VNone in
  let since := DateTime (Civil 2026 10 28 12 0 0 0) None in
  exists st s',
    TaskNotifier.send_weekly_report E (Some "ou_1") None (init_state tt)
      = (Ok (delivered st), s') /\
    ncalls s' = 2%nat /\
    messages (trace s') =
      (messages (trace (init_state tt)) ++
       [Message (default "" (or_else (Some "ou_1") (getenv E "FEISHU_USER_ID")))
          (TaskNotifier.weekly_card Samples.week_tasks
             (List.filter (fun t => later_than since (created_time t)) Samples.week_tasks)
             (List.filter (finished_since since) Samples.week_tasks))
          st])%list.
Proof.
  cbv zeta.
  apply (weekly_report_sends_one_card (Samples.quiet Samples.week_tasks [] VNone) unit
           (Some "ou_1") None (Response true 0 "success" (Some Samples.week_tasks))
           Samples.week_tasks (DateTime (Civil 2026 10 28 12 0 0 0) None) (init_state tt)).
  - reflexivity.
  - reflexivity.
  - intros c. reflexivity.
  - reflexivity.
  - reflexivity.
  - vm_compute. reflexivity.
  - repeat constructor.
Defined.

(** Of the three tasks of the week, one was created, at a time written
    without seconds, and completed, on a day written without a time,
    since noon a week ago; the other two date from 2024. *)
Example week_tasks_counted :
  let since := DateTime (Civil 2026 10 28 12 0 0 0) None in
  List.filter (fun t => later_than since (created_time t)) Samples.week_tasks
    = [Samples.planned] /\
  List.filter (finished_since since) Samples.week_tasks = [Samples.planned].
Proof. vm_compute. split; reflexivity. Qed.

(** ** The report: when it is returned *)

Lemma lt_naive (a b : datetime) :
  tzinfo a = None -> tzinfo b = None -> exists v, PyDatetime.lt a b = Ok v.
Proof. intros Ha Hb. unfold PyDatetime.lt. rewrite Ha, Hb. eauto. Qed.

Lemma report_step_returns (now : datetime) (t : task) (st : state report) :
  tzinfo now = None -> classifiable t = true ->
  exists st', FeishuTaskManager.report_step now t st = (Ok tt, st').
Proof.
  intros Hnow Hc. unfold classifiable in Hc. apply andb_prop in Hc as [Htot Hdue].
  apply negb_true_iff in Htot.
  unfold FeishuTaskManager.report_step, FeishuTaskManager.report_append.
  rewrite in_report_spec, Htot. cbn [orb].
  assert (Hcheck : forall st0 : state report,
    exists st', when (str_truthy (due_time t) && FeishuTaskManager.is_open (status t))
       (due ← lift (PyDatetime.fromisoformat (replace_Z (default "" (due_time t))));
        late ← lift (PyDatetime.lt due now);
        when late (modify_locals
                     (fun r => Report (total r) (todo r) (in_progress r) (completed r)
                                      (overdue r ++ [t])))) st0 = (Ok tt, st')).
  { intros st0. rewrite andb_comm.
    destruct (FeishuTaskManager.is_open (status t) && str_truthy (due_time t));
      unfold_py; [|eauto].
    cbn [negb orb] in Hdue. destruct (naive_time_parses _ Hdue) as (d & -> & Htz).
    destruct (lt_naive d now Htz Hnow) as ([] & ->); eauto. }
  change (String.eqb "overdue" "total") with false. change (String.eqb "overdue" "todo") with false.
  change (String.eqb "overdue" "in_progress") with false.
  change (String.eqb "overdue" "completed") with false.
  change (String.eqb "overdue" "overdue") with true. cbv iota.
  destruct (String.eqb (status t) "todo");
    [| destruct (String.eqb (status t) "in_progress");
       [| destruct (String.eqb (status t) "completed");
          [| destruct (String.eqb (status t) "overdue")]]];
    cbn [orb]; unfold mbind at 1; unfold M_bind, bind at 1; unfold when at 1;
    unfold modify_locals at 1, ret; apply Hcheck.
Qed.

(** The report of a list of classifiable tasks. *)
Lemma report_total (E : env) (tl : option string) (s : state report)
    (resp : response (list task)) :
  (forall c, remote_items E (ncalls s) c = Returned resp) ->
  Forall (fun t => classifiable t = true) (fetched resp) ->
  exists r s', FeishuTaskManager.generate_task_report E tl s = (Ok r, s').
Proof.
  intros Hr Hall. unfold FeishuTaskManager.generate_task_report.
  destruct (report_fetch E tl s resp Hr) as (s1 & Hf).
  unfold mbind at 1. unfold M_bind. rewrite (run_bind _ _ _ _ _ Hf).
  unfold mbind at 1 2. unfold M_bind, bind at 1. unfold modify_locals at 1. cbv zeta.
  match goal with |- context [bind (for_each ?l ?b) _ ?s0] =>
    destruct (for_each_inv (fun t => classifiable t = true) (fun _ _ => True) b) with
      (xs := l) (pre := @nil task) (s := s0) as (s2 & Hloop & _)
  end.
  - intros pre x st Hx _. destruct (report_step_returns (PyDatetime.now E) x st eq_refl Hx)
      as (st' & ->). eauto.
  - exact Hall.
  - exact I.
  - rewrite (run_bind _ _ _ _ _ Hloop). unfold get_locals. eauto.
Qed.

(** X16. [generate_task_report] returns a report whenever no fetched task
    has the status string total and every open task with a due time has
    one that is read without UTC offset (in one of the forms [YYYY-MM-DD]
    and [YYYY-MM-DD?HH[:MM[:SS[.fff[fff]]]]], see [plain_timestamp_reads]);
    the report then holds the count of the fetched tasks, the three status
    lists, and in its overdue list the open tasks that are late together
    with the tasks whose status string is overdue. *)
Theorem generate_task_report_returns (E : env) (tl : option string) (s : state report)
    (resp : response (list task)) :
  (forall c, remote_items E (ncalls s) c = Returned resp) ->
  Forall (fun t => classifiable t = true) (fetched resp) ->
  exists r s',
    FeishuTaskManager.generate_task_report E tl s = (Ok r, s') /\
    report_of (PyDatetime.now E) (length (fetched resp)) (fetched resp) r.
Proof.
  intros Hr Hall. destruct (report_total E tl s resp Hr Hall) as (r & s' & Hrun).
  exists r, s'. split; [exact Hrun|]. exact (report_lists E tl s s' resp r Hr Hrun).
Qed.

Lemma generate_task_report_returns_witness :
  let E := Samples.quiet Samples.office_tasks [] VNone in
  let resp := Response true 0 "success" (Some Samples.office_tasks) in
  exists r s',
    FeishuTaskManager.generate_task_report E None Samples.empty_report = (Ok r, s') /\
    report_of (PyDatetime.now E) (length (fetched resp)) (fetched resp) r.
Proof.
  cbv zeta.
  apply (generate_task_report_returns (Samples.quiet Samples.office_tasks [] VNone) None
           Samples.empty_report (Response true 0 "success" (Some Samples.office_tasks))).
  - intros c. reflexivity.
  - repeat constructor.
Defined.

(** The report of the office tasks: five tasks, of which the two open ones
    that are late (one due at a time written without seconds) and the one
    whose status string is ["overdue"] are listed as overdue. *)
Example office_report :
  (FeishuTaskManager.generate_task_report (Samples.quiet Samples.office_tasks [] VNone)
     None Samples.empty_report).1
  = Ok (Report 5 [Samples.late_naive] [Samples.due_at_ten] [Samples.late_done]
          [Samples.late_naive; Samples.due_at_ten; Samples.marked_overdue]).
Proof. vm_compute. reflexivity. Qed.

(** X17. A fetch the service rejects gives the report of no tasks: the
    count is 0 and every list is empty, with one diagnostic on the error
    stream as the only sign that the fetch failed. *)
Theorem generate_task_report_rejected_fetch (E : env) (tl : option string)
    (s : state report) (k : Z) (m : string) (d : option (list task)) :
  (forall c, remote_items E (ncalls s) c = Returned (Response false k m d)) ->
  exists c diagnostic,
    FeishuTaskManager.generate_task_report E tl s =
      (Ok (Report 0 [] [] [] []),
       State (Report 0 [] [] [] []) (S (ncalls s))
             (trace s ++ [ERemote c (Answered false k m); EPrint Stderr diagnostic])%list).
Proof.
  intros Hr. unfold FeishuTaskManager.generate_task_report,
    FeishuTaskManager.list_tasks_in_tasklist, FeishuTaskManager.list_my_tasks,
    FeishuTaskManager._handle_response.
  destruct (str_truthy tl); unfold_py; rewrite Hr; cbn;
    do 2 eexists; rewrite <- app_assoc; reflexivity.
Qed.

Lemma generate_task_report_rejected_fetch_witness :
  exists c diagnostic,
    FeishuTaskManager.generate_task_report Samples.refusing (Some "tl_1") Samples.empty_report =
      (Ok (Report 0 [] [] [] []),
       State (Report 0 [] [] [] []) 1%nat
             (trace Samples.empty_report
                ++ [ERemote c (Answered false 99991663 "not found");
                    EPrint Stderr diagnostic])%list).
Proof.
  apply (generate_task_report_rejected_fetch Samples.refusing (Some "tl_1")
           Samples.empty_report 99991663 "not found" None).
  intros c. reflexivity.
Defined.

(** ** The daily digest *)

Lemma status_filter (st : string) (tasks : list task) :
  filter (fun t => status t = st) tasks = with_status st tasks.
Proof.
  unfold with_status. induction tasks as [|t ts IH]; [reflexivity|].
  cbn [List.filter]. destruct (String.eqb_spec (status t) st) as [Heq|Hne].
  - rewrite filter_cons_True by assumption. rewrite IH. reflexivity.
  - rewrite filter_cons_False by assumption. exact IH.
Qed.

Lemma find_overdue_naive (now : datetime) (tasks : list task) :
  tzinfo now = None -> Forall (fun t => due_comparable t = true) tasks ->
  TaskNotifier.find_overdue now tasks = Ok (List.filter (overdue_at now) tasks).
Proof.
  intros Hnow. induction 1 as [|t ts Ht _ IH]; [reflexivity|].
  cbn [TaskNotifier.find_overdue List.filter]. rewrite IH. unfold overdue_at.
  unfold due_comparable in Ht.
  destruct (FeishuTaskManager.is_open (status t) && str_truthy (due_time t)); [|reflexivity].
  cbn [negb orb andb] in *. destruct (naive_time_parses _ Ht) as (d & -> & Htz).
  destruct (lt_naive d now Htz Hnow) as (b & ->). destruct b; reflexivity.
Qed.

(** X18. When every open task with a due time has one that is read
    without UTC offset (in one of the forms [YYYY-MM-DD] and
    [YYYY-MM-DD?HH[:MM[:SS[.fff[fff]]]]], see [plain_timestamp_reads]),
    the daily digest makes two calls: the fetch of the target's tasks, for
    the statuses todo and in_progress and, if asked, completed, and one
    message to the target.  The card counts the fetched tasks of each of
    the three statuses (the completed ones also when they were not asked
    for) and the open tasks that are late, and the result is whether the
    message was delivered. *)
Theorem daily_digest_sends_one_card (E : env) (L : Type) (assignee : option string)
    (include_completed : bool) (resp : response (list task)) (tasks : list task)
    (s : state L) :
  str_truthy (or_else assignee (getenv E "FEISHU_USER_ID")) = true ->
  (forall c, remote_items E (ncalls s) c = Returned resp) ->
  success resp = true -> data resp = Some tasks ->
  Forall (fun t => due_comparable t = true) tasks ->
  let target := default "" (or_else assignee (getenv E "FEISHU_USER_ID")) in
  let d := TaskNotifier.Digest (with_status "todo" tasks) (with_status "in_progress" tasks)
             (with_status "completed" tasks)
             (List.filter (overdue_at (PyDatetime.now E)) tasks) in
  exists st evs s',
    TaskNotifier.send_daily_digest E assignee include_completed s = (Ok (delivered st), s') /\
    trace s' = (trace s ++ evs)%list /\
    remote_calls evs =
      [ TaskList (ListQuery false false (Some target) None
                    (Some (if include_completed then ["todo"; "in_progress"; "completed"]
                           else ["todo"; "in_progress"]))
                    (Some 100));
        MessageCreate target "interactive" (TaskNotifier.digest_card d) ] /\
    messages evs = [Message target (TaskNotifier.digest_card d) st].
Proof.
  intros Htarget Hi Hs Hd Hall. cbv zeta.
  unfold TaskNotifier.send_daily_digest. cbv zeta. rewrite Htarget. cbn [negb]. unfold_py.
  rewrite Hi. cbv beta iota. rewrite Hs, Hd. cbn [negb]. unfold data_items. unfold_py.
  cbv beta iota. unfold TaskNotifier.categorize. rewrite !status_filter.
  rewrite (find_overdue_naive (PyDatetime.now E) tasks eq_refl Hall).
  rewrite send_message_run. cbv zeta. cbn [ncalls trace locals].
  match goal with |- context [status_of ?o] => set (out := o) end.
  exists (status_of out).
  eexists (_ :: _ :: match out with Raised e => [_] | Returned _ => [] end). eexists.
  split; [reflexivity|].
  split; [cbn [trace]; rewrite <- app_assoc; cbn [app]; reflexivity|].
  destruct include_completed, out; split; reflexivity.
Qed.

Lemma daily_digest_sends_one_card_witness :
  let E := Samples.quiet Samples.office_tasks [] VNone in
  let d := TaskNotifier.Digest (with_status "todo" Samples.office_tasks)
             (with_status "in_progress" Samples.office_tasks)
             (with_status "completed" Samples.office_tasks)
             (List.filter (overdue_at (PyDatetime.now E)) Samples.office_tasks) in
  exists st evs s',
    TaskNotifier.send_daily_digest E (Some "ou_1") false (init_state tt)
      = (Ok (delivered st), s') /\
    trace s' = (trace (init_state tt) ++ evs)%list /\
    remote_calls evs =
      [ TaskList (ListQuery false false (Some "ou_1") None (Some ["todo"; "in_progress"])
                    (Some 100));
        MessageCreate "ou_1" "interactive" (TaskNotifier.digest_card d) ] /\
    messages evs = [Message "ou_1" (TaskNotifier.digest_card d) st].
Proof.
  cbv zeta.
  apply (daily_digest_sends_one_card (Samples.quiet Samples.office_tasks [] VNone) unit
           (Some "ou_1") false (Response true 0 "success" (Some Samples.office_tasks))
           Samples.office_tasks (init_state tt)).
  - reflexivity.
  - intros c. reflexivity.
  - reflexivity.
  - reflexivity.
  - repeat constructor.
Defined.

(** Among the office tasks the digest counts two as overdue: the open
    tasks that are late, one of them due at a time written without
    seconds. *)
Example office_digest_overdue :
  List.filter (overdue_at (PyDatetime.now (Samples.quiet Samples.office_tasks [] VNone)))
    Samples.office_tasks
  = [Samples.late_naive; Samples.due_at_ten].
Proof. vm_compute. reflexivity. Qed.

(** ** The manager: what the requests carry *)

Lemma truthy_field (o : option string) (v : string) :
  (if str_truthy o then o else None) = Some v -> o = Some v /\ v <> "".
Proof.
  destruct (str_truthy o) eqn:Ht; [|discriminate]. intros ->. split; [reflexivity|].
  exact (str_truthy_nonempty (Some v) Ht).
Qed.

Lemma update_body_fields (title descr st a due : option string) :
  (let body := update_builder in
   let body := if str_truthy title then ub_set_summary (default "" title) body else body in
   let body := if str_truthy descr then ub_set_description (default "" descr) body else body in
   let body := if str_truthy st then ub_set_status (default "" st) body else body in
   let body := if str_truthy a then ub_set_assignee (default "" a) body else body in
   let body := if str_truthy due then ub_set_due_time (default "" due) body else body in
   body) =
  UpdateBody (if str_truthy title then title else None)
             (if str_truthy descr then descr else None)
             (if str_truthy st then st else None)
             (if str_truthy a then a else None)
             (if str_truthy due then due else None).
Proof.
  cbv zeta.
  destruct title as [x1|], descr as [x2|], st as [x3|], a as [x4|], due as [x5|]; cbn;
    repeat match goal with |- context [negb (String.eqb ?x "")] =>
             destruct (negb (String.eqb x "")) end; reflexivity.
Qed.

(** X19. An update never carries an empty field: [update_task] and
    [update_tasklist] always make their one call, and a field is set in the
    request exactly when the argument is a non-empty string.  An empty
    string cannot be written with them, and a call without arguments sends
    an empty update. *)
Theorem update_never_sends_empty_field (E : env) (L : Type) (id : string)
    (title descr st a due : option string) (s : state L) :
  let sent (o : option string) := if str_truthy o then o else None in
  remote_calls (trace (FeishuTaskManager.update_task E id title descr st a due s).2) =
    (remote_calls (trace s) ++
     [TaskUpdate id (UpdateBody (sent title) (sent descr) (sent st) (sent a) (sent due))])%list /\
  remote_calls (trace (FeishuTaskManager.update_tasklist E id title descr s).2) =
    (remote_calls (trace s) ++ [TasklistUpdate id (sent title) (sent descr)])%list /\
  (forall o v, sent o = Some v -> o = Some v /\ v <> "").
Proof.
  cbv zeta. split; [|split].
  - unfold FeishuTaskManager.update_task. rewrite update_body_fields.
    unfold FeishuTaskManager._handle_response. unfold_py.
    destruct (remote_task E (ncalls s) _) as [r|e]; cbn [fst snd trace].
    + destruct (success r); cbn [negb]; unfold_py; cbn [fst snd trace];
        rewrite !remote_calls_app; cbn; rewrite ?app_nil_r; reflexivity.
    + rewrite remote_calls_app. reflexivity.
  - unfold FeishuTaskManager.update_tasklist. cbv zeta.
    unfold FeishuTaskManager._handle_response. unfold_py.
    destruct (remote_tasklist E (ncalls s) _) as [r|e]; cbn [fst snd trace].
    + destruct (success r); cbn [negb]; unfold_py; cbn [fst snd trace];
        rewrite !remote_calls_app; cbn; rewrite ?app_nil_r; reflexivity.
    + rewrite remote_calls_app. reflexivity.
  - apply truthy_field.
Qed.

(** Asked to blank the description, [update_task] sends an update that
    changes nothing. *)
Example update_task_cannot_blank :
  remote_calls
    (trace (FeishuTaskManager.update_task (Samples.quiet [] [] VNone) "t_1" None (Some "")
              None None None (init_state tt)).2)
  = [TaskUpdate "t_1" (UpdateBody None None None None None)].
Proof. reflexivity. Qed.

(** X20. [complete_task] makes one call, an update that sets the status to
    completed and nothing else.  It returns [True] exactly when the service
    accepted the update and returned the task: an accepted update without
    data reads as a failure, and a transport fault is raised to the
    caller. *)
Theorem complete_task_sets_only_status (E : env) (L : Type) (id : string) (s : state L) :
  let request := TaskUpdate id (UpdateBody None None (Some "completed") None None) in
  let out := FeishuTaskManager.complete_task E id s in
  remote_calls (trace out.2) = (remote_calls (trace s) ++ [request])%list /\
  out.1 = match remote_task E (ncalls s) request with
          | Returned r => Ok (success r && bool_decide (is_Some (data r)))
          | Raised e => Raise e
          end.
Proof.
  cbv zeta. unfold FeishuTaskManager.complete_task, FeishuTaskManager.update_task.
  rewrite update_body_fields. change (str_truthy None) with false.
  change (str_truthy (Some "completed")) with true. cbv iota.
  unfold FeishuTaskManager._handle_response. unfold_py.
  destruct (remote_task E (ncalls s) _) as [r|e]; cbn [fst snd trace].
  - destruct (success r); cbn [negb andb]; unfold_py; cbn [fst snd trace];
      rewrite !remote_calls_app; cbn; rewrite ?app_nil_r; (split; [reflexivity|]);
      [|reflexivity].
    destruct (data r); reflexivity.
  - rewrite remote_calls_app. split; reflexivity.
Qed.

(** ** The manager: the list wrappers *)

(** X21. Each list wrapper makes one call and returns a list, never
    [None]: the tasks of the answer, and the empty list when the service
    rejected the call or sent no data.  The query asks for the caller's
    tasks, the tasks the caller created, the tasks of the given assignee or
    the tasks of the given list, with the page size passed; the status
    filter is set only when the list of statuses is not empty. *)
Theorem list_wrappers_return_fetched (E : env) (L : Type) (statuses : option (list string))
    (who tl : string) (n : Z) (resp : response (list task)) (s : state L) :
  (forall c, remote_items E (ncalls s) c = Returned resp) ->
  let wanted := match statuses with Some (x :: xs) => Some (x :: xs) | _ => None end in
  let lists (out : res (list task) * state L) (q : api_call) :=
    out.1 = Ok (fetched resp) /\
    remote_calls (trace out.2) = (remote_calls (trace s) ++ [q])%list in
  lists (FeishuTaskManager.list_my_tasks E statuses n s)
        (TaskList (ListQuery true false None None wanted (Some n))) /\
  lists (FeishuTaskManager.list_created_by_me E statuses n s)
        (TaskList (ListQuery false true None None wanted (Some n))) /\
  lists (FeishuTaskManager.list_tasks_by_assignee E who statuses n s)
        (TaskList (ListQuery false false (Some who) None wanted (Some n))) /\
  lists (FeishuTaskManager.list_tasks_in_tasklist E tl n s) (TasklistListTask tl n).
Proof.
  intros Hi. cbv zeta.
  unfold FeishuTaskManager.list_my_tasks, FeishuTaskManager.list_created_by_me,
    FeishuTaskManager.list_tasks_by_assignee, FeishuTaskManager.list_tasks_in_tasklist,
    FeishuTaskManager._handle_response, fetched.
  cbv zeta. unfold_py. rewrite !Hi. cbv beta iota.
  destruct (success resp); cbn [negb]; unfold_py; cbn [fst snd trace];
    rewrite !remote_calls_app; cbn [remote_calls omap list_omap]; rewrite ?app_nil_r;
    destruct statuses as [[|x xs]|]; repeat split; reflexivity.
Qed.

Lemma list_wrappers_return_fetched_witness :
  (FeishuTaskManager.list_created_by_me Samples.refusing (Some []) 50 (init_state tt)).1
    = Ok [] /\
  remote_calls
    (trace (FeishuTaskManager.list_created_by_me Samples.refusing (Some []) 50
              (init_state tt)).2)
  = [TaskList (ListQuery false true None None None (Some 50))].
Proof.
  pose proof (list_wrappers_return_fetched Samples.refusing unit (Some []) "ou_1" "tl_1" 50
                (Response false 99991663 "not found" None) (init_state tt)) as H.
  cbv zeta in H. destruct H as (_ & H & _).
  - intros c. reflexivity.
  - exact H.
Defined.

(** ** The command line of the bulk tool *)

Lemma bulk_init_without_credentials (E : env) (L : Type) (s : state L) :
  str_truthy (getenv E "FEISHU_APP_ID") = false \/
  str_truthy (getenv E "FEISHU_APP_SECRET") = false ->
  BulkTaskOperations.__init__ E None None s
    = (Raise (Exn "ValueError" "App credentials required"), s).
Proof.
  intros H. unfold BulkTaskOperations.__init__, or_else. cbn [str_truthy].
  destruct H as [-> | ->]; rewrite ?orb_true_r; reflexivity.
Qed.

Lemma bulk_init_with_credentials (E : env) (L : Type) (s : state L) :
  str_truthy (getenv E "FEISHU_APP_ID") = true ->
  str_truthy (getenv E "FEISHU_APP_SECRET") = true ->
  exists c, BulkTaskOperations.__init__ E None None s = (Ok c, s).
Proof.
  intros H1 H2. unfold BulkTaskOperations.__init__, or_else. cbn [str_truthy].
  rewrite H1, H2. cbn. eauto.
Qed.

(** X22. Without a subcommand the bulk tool prints its usage, and without
    the two credentials in the environment it prints the error of the
    constructor; either way it exits with status 1 before any remote call,
    whatever the subcommand and its arguments. *)
Theorem bulk_main_exits_before_any_call (E : env) (L : Type) (usage : string)
    (args : BulkTaskOperations.command) (s : state L) :
  args = BulkTaskOperations.NoCommand \/
  str_truthy (getenv E "FEISHU_APP_ID") = false \/
  str_truthy (getenv E "FEISHU_APP_SECRET") = false ->
  BulkTaskOperations.main E usage args s =
    (Raise (Exn "SystemExit" "1"),
     State (locals s) (ncalls s)
       (trace s ++ [EPrint Stdout (if match args with
                                      | BulkTaskOperations.NoCommand => true
                                      | _ => false
                                      end
                                   then usage else "Error: App credentials required")])%list).
Proof.
  intros [-> | H]; [reflexivity|].
  destruct args; [reflexivity | ..];
    unfold BulkTaskOperations.main, try_except_only; unfold_py;
    rewrite (bulk_init_without_credentials E L s H); reflexivity.
Qed.

Lemma bulk_main_exits_before_any_call_witness :
  BulkTaskOperations.main (Samples.quiet [] [] VNone) "usage: bulk_operations.py"
    (BulkTaskOperations.BulkDelete ["t_1"; "t_2"]) (init_state tt) =
  (Raise (Exn "SystemExit" "1"),
   State tt 0%nat
     (trace (init_state tt) ++ [EPrint Stdout "Error: App credentials required"])%list).
Proof.
  apply (bulk_main_exits_before_any_call (Samples.quiet [] [] VNone) unit
           "usage: bulk_operations.py" (BulkTaskOperations.BulkDelete ["t_1"; "t_2"])
           (init_state tt)).
  right. left. reflexivity.
Defined.

(** What the command line does with a driver that returns a ledger with
    one entry per id after one call per id. *)
Lemma bulk_main_summary (E : env) (L : Type) (what : string) (ids : list string)
    (m : M (state (results string (failure string))) (results string (failure string)))
    (s : state L) :
  str_truthy (getenv E "FEISHU_APP_ID") = true ->
  str_truthy (getenv E "FEISHU_APP_SECRET") = true ->
  (forall s0, exists s' evs,
     m s0 = (Ok (locals s'), s') /\ trace s' = (trace s0 ++ evs)%list /\
     ncalls s' = (ncalls s0 + length ids)%nat /\
     (length (succeeded (locals s')) + length (failed (locals s')))%nat = length ids) ->
  exists evs (r : results string (failure string)),
    (ops ← try_except_only "ValueError" (BulkTaskOperations.__init__ E None None)
             (fun e => print ("Error: " +:+ exn_msg e);; sys_exit 1);
     results ← scoped (Results [] []) m;
     print (BulkTaskOperations.summary_line what results)) s =
    (Ok tt, State (locals s) (ncalls s + length ids)
              (trace s ++ evs ++ [EPrint Stdout (BulkTaskOperations.summary_line what r)])%list) /\
    (length (succeeded r) + length (failed r))%nat = length ids.
Proof.
  intros H1 H2 Hm. destruct (bulk_init_with_credentials E L s H1 H2) as (c & Hc).
  unfold try_except_only. unfold_py. rewrite Hc. unfold scoped. cbv beta iota.
  destruct (Hm (State (Results [] []) (ncalls s) (trace s))) as (s' & evs & Hrun & Ht & Hn & Hlen).
  rewrite Hrun. cbn [fst snd locals ncalls trace] in *.
  exists evs, (locals s'). unfold emit. cbn [locals ncalls trace].
  rewrite Ht, Hn, <- app_assoc. split; [reflexivity | exact Hlen].
Qed.

Ltac same_run H1 H2 :=
  rewrite H1 in H2; injection H2 as <- <-.

(** X23. With both credentials in the environment, the four id-list
    subcommands run to the end whatever the service does: one call per id,
    then a last line printed that gives the number of ids updated (or
    deleted) and the number failed, which add up to the number of ids
    passed. *)
Theorem bulk_main_summary_counts_every_id (E : env) (L : Type) (usage : string)
    (ids : list string) (a : string) (s : state L) :
  str_truthy (getenv E "FEISHU_APP_ID") = true ->
  str_truthy (getenv E "FEISHU_APP_SECRET") = true ->
  let summed (out : res unit * state L) (what : string) :=
    exists evs (r : results string (failure string)),
      out = (Ok tt, State (locals s) (ncalls s + length ids)
                      (trace s ++ evs
                         ++ [EPrint Stdout (BulkTaskOperations.summary_line what r)])%list) /\
      (length (succeeded r) + length (failed r))%nat = length ids in
  summed (BulkTaskOperations.main E usage (BulkTaskOperations.BulkAssign ids a) s) "updated" /\
  summed (BulkTaskOperations.main E usage (BulkTaskOperations.BulkStatus ids a) s) "updated" /\
  summed (BulkTaskOperations.main E usage (BulkTaskOperations.BulkDue ids a) s) "updated" /\
  summed (BulkTaskOperations.main E usage (BulkTaskOperations.BulkDelete ids) s) "deleted".
Proof.
  intros H1 H2. cbv zeta.
  assert (Hd : sleepable (2 # 10)) by (split; [discriminate | reflexivity]).
  split; [|split; [|split]]; unfold BulkTaskOperations.main;
    apply (bulk_main_summary E L _ ids _ s H1 H2); intros s0.
  - destruct (bulk_assign_effect E ids a _ s0 Hd) as (s' & evs & Hrun & Ht & [Hc _ _ _]).
    destruct (bulk_assign_calls E ids a (2 # 10) s0) as (l & s2 & evs2 & Hrun2 & _ & _ & Hn).
    same_run Hrun Hrun2. eauto 6.
  - destruct (bulk_update_status_effect E ids a _ s0 Hd) as (s' & evs & Hrun & Ht & [Hc _ _ _]).
    destruct (bulk_update_status_calls E ids a (2 # 10) s0)
      as (l & s2 & evs2 & Hrun2 & _ & _ & Hn).
    same_run Hrun Hrun2. eauto 6.
  - destruct (bulk_set_due_date_effect E ids a _ s0 Hd) as (s' & evs & Hrun & Ht & [Hc _ _ _]).
    destruct (bulk_set_due_date_calls E ids a (2 # 10) s0)
      as (l & s2 & evs2 & Hrun2 & _ & _ & Hn).
    same_run Hrun Hrun2. eauto 6.
  - destruct (bulk_delete_effect E ids _ s0 Hd) as (s' & evs & Hrun & Ht & [Hc _ _ _]).
    destruct (bulk_delete_calls E ids (2 # 10) s0) as (l & s2 & evs2 & Hrun2 & _ & _ & Hn).
    same_run Hrun Hrun2. eauto 6.
Qed.

Lemma bulk_main_summary_counts_every_id_witness :
  exists evs (r : results string (failure string)),
    BulkTaskOperations.main Samples.flaky_app "usage"
      (BulkTaskOperations.BulkStatus ["t_1"; "t_2"; "t_3"] "completed") (init_state tt) =
    (Ok tt, State tt 3%nat
              (trace (init_state tt) ++ evs
                 ++ [EPrint Stdout (BulkTaskOperations.summary_line "updated" r)])%list) /\
    (length (succeeded r) + length (failed r))%nat = 3%nat.
Proof.
  pose proof (bulk_main_summary_counts_every_id Samples.flaky_app unit "usage"
                ["t_1"; "t_2"; "t_3"] "completed" (init_state tt)) as H.
  cbv zeta in H. destruct H as (_ & H & _).
  - reflexivity.
  - reflexivity.
  - exact H.
Defined.

(** On the flaky service, of three ids one is updated and two fail. *)
Example flaky_bulk_status_summary :
  last (trace (BulkTaskOperations.main Samples.flaky_app "usage"
                 (BulkTaskOperations.BulkStatus ["t_1"; "t_2"; "t_3"] "completed")
                 (init_state tt)).2)
  = Some (EPrint Stdout (String PyCsv.LF "Summary: 1 updated, 2 failed")).
Proof. vm_compute. reflexivity. Qed.

(** ** The due times the bulk tool writes *)

Lemma digit_not_Z (c : ascii) : PyDatetime.is_digit c = true -> Ascii.eqb c "Z" = false.
Proof.
  destruct c as [[] [] [] [] [] [] [] []]; vm_compute; intros; congruence.
Qed.

Lemma replace_Z_cons (c : ascii) (s : string) :
  Ascii.eqb c "Z" = false -> replace_Z (String c s) = String c (replace_Z s).
Proof. intros H. cbn [replace_Z]. rewrite H. reflexivity. Qed.

Lemma digits_cons n acc c s :
  PyDatetime.is_digit c = true ->
  PyDatetime.digits (S n) acc (String c s)
  = PyDatetime.digits n (10 * acc + PyDatetime.digit_val c) s.
Proof. intros H. cbn [PyDatetime.digits]. rewrite H. reflexivity. Qed.

Lemma digits_zero acc s : PyDatetime.digits 0 acc s = Some (acc, s).
Proof. reflexivity. Qed.

Lemma digits_cons_inv n acc c s r :
  PyDatetime.digits (S n) acc (String c s) = Some r ->
  PyDatetime.is_digit c = true /\
  PyDatetime.digits n (10 * acc + PyDatetime.digit_val c) s = Some r.
Proof.
  cbn [PyDatetime.digits]. destruct (PyDatetime.is_digit c); [auto | discriminate].
Qed.

Lemma expect_inv c c' s r :
  PyDatetime.expect c (String c' s) = Some r -> c' = c /\ r = s.
Proof.
  cbn [PyDatetime.expect]. destruct (Ascii.eqb_spec c c'); [|discriminate].
  intros [= <-]. auto.
Qed.

(** A calendar date of ten characters followed by the time the bulk tool
    appends reads as the end of that day at the offset +08:00. *)
Lemma end_of_day_parses (date : string) (d0 : datetime) :
  String.length date = 10%nat ->
  PyDatetime.fromisoformat date = Ok d0 ->
  PyDatetime.fromisoformat (replace_Z (date +:+ "T23:59:59+08:00")) =
  Ok (DateTime (Civil (year (fields_of d0)) (month (fields_of d0)) (day (fields_of d0))
                      23 59 59 0) (Some 480)).
Proof.
  intros Hlen.
  do 10 (destruct date as [|? date]; [discriminate Hlen|]).
  destruct date; [|discriminate Hlen]. clear Hlen.
  unfold PyDatetime.fromisoformat.
  destruct (PyDatetime.parse_iso _) as [d|] eqn:Hp; [|discriminate].
  destruct (PyDatetime.valid_fields (fields_of d)) eqn:Hv; [|discriminate].
  intros [= <-]. unfold PyDatetime.parse_iso in Hp.
  destruct (PyDatetime.digits 4 0 _) as [[y s1]|] eqn:Q1; [|discriminate].
  do 4 (apply digits_cons_inv in Q1 as [? Q1]). injection Q1 as <- <-.
  cbn [mbind option_bind] in Hp.
  destruct (PyDatetime.expect "-" _) as [s2|] eqn:Q2; [|discriminate].
  apply expect_inv in Q2 as [-> ->]. cbn [mbind option_bind] in Hp.
  destruct (PyDatetime.digits 2 0 _) as [[m s3]|] eqn:Q3; [|discriminate].
  do 2 (apply digits_cons_inv in Q3 as [? Q3]). injection Q3 as <- <-.
  cbn [mbind option_bind] in Hp.
  destruct (PyDatetime.expect "-" _) as [s4|] eqn:Q4; [|discriminate].
  apply expect_inv in Q4 as [-> ->]. cbn [mbind option_bind] in Hp.
  destruct (PyDatetime.digits 2 0 _) as [[dd s5]|] eqn:Q5; [|discriminate].
  do 2 (apply digits_cons_inv in Q5 as [? Q5]). injection Q5 as <- <-.
  cbn [mbind option_bind] in Hp. injection Hp as <-. cbn [fields_of year month day] in *.
  rewrite !CsvRoundTrip.app_cons, CsvRoundTrip.app_nil_l.
  rewrite !replace_Z_cons by (auto using digit_not_Z; reflexivity).
  change (replace_Z "") with "".
  unfold PyDatetime.parse_iso.
  do 4 (rewrite digits_cons; [|assumption]). rewrite digits_zero. cbn [mbind option_bind].
  cbn [PyDatetime.expect]. rewrite Ascii.eqb_refl. cbn [mbind option_bind].
  do 2 (rewrite digits_cons; [|assumption]). rewrite digits_zero. cbn [mbind option_bind].
  cbn [PyDatetime.expect]. rewrite Ascii.eqb_refl. cbn [mbind option_bind].
  do 2 (rewrite digits_cons; [|assumption]). rewrite digits_zero. cbn [mbind option_bind].
  change (PyDatetime.digits 2 0 "23:59:59+08:00") with (Some (23, ":59:59+08:00")).
  cbn [mbind option_bind].
  change (PyDatetime.parse_minutes ":59:59+08:00") with (Some (59, 59, 0, "+08:00")).
  cbn [mbind option_bind].
  change (PyDatetime.parse_offset "+08:00") with (Some (Some 480)).
  cbn [mbind option_bind fields_of].
  unfold PyDatetime.valid_fields in *. cbn [year month day hour minute second] in *.
  do 3 (apply andb_prop in Hv as [Hv _]). rewrite Hv. reflexivity.
Qed.

(** ** Timestamps without offset: the forms that are read *)

Module PlainForms.
Import PyDatetime.

Lemma days_in_month_le (y m : Z) : days_in_month y m <= 31.
Proof. apply DatetimeShift.days_in_month_bounds. Qed.

Lemma replace_Z_pad n : forall z rest,
  replace_Z (pad n z +:+ rest) = pad n z +:+ replace_Z rest.
Proof.
  induction n as [|n IH]; intros z rest.
  - cbn [pad]. rewrite !CsvRoundTrip.app_nil_l. reflexivity.
  - cbn [pad]. rewrite !CsvRoundTrip.app_assoc, IH.
    destruct (DatetimeText.digit_text (z mod 10)) as (c & -> & Hd & _).
    { apply Z.mod_pos_bound. lia. }
    rewrite !CsvRoundTrip.app_cons, !CsvRoundTrip.app_nil_l.
    rewrite replace_Z_cons by (apply digit_not_Z, Hd). reflexivity.
Qed.

Lemma replace_Z_lit (c : ascii) (rest : string) :
  Ascii.eqb c "Z" = false ->
  replace_Z (String c "" +:+ rest) = String c "" +:+ replace_Z rest.
Proof.
  intros H. rewrite !CsvRoundTrip.app_cons, !CsvRoundTrip.app_nil_l.
  apply replace_Z_cons, H.
Qed.

Lemma digits_short n m z :
  digits (n + S m) 0 (pad n z) = None.
Proof.
  rewrite <- (CsvRoundTrip.app_nil_r (pad n z)).
  rewrite (DatetimeText.digits_app n (S m) _ _ _ _ (DatetimeRoundTrip.digits_pad0 n z "")).
  reflexivity.
Qed.

Lemma digits_pad_end n z : digits n 0 (pad n z) = Some (z mod 10 ^ Z.of_nat n, "").
Proof.
  rewrite <- (CsvRoundTrip.app_nil_r (pad n z)) at 1.
  apply DatetimeRoundTrip.digits_pad0.
Qed.

Lemma replace_Z_pad_end n z : replace_Z (pad n z) = pad n z.
Proof.
  rewrite <- (CsvRoundTrip.app_nil_r (pad n z)) at 1.
  rewrite replace_Z_pad. cbn [replace_Z]. apply CsvRoundTrip.app_nil_r.
Qed.

(** The date at the head of a text is read, and the rest is left. *)
Lemma date_read (y m d : Z) (rest : string) :
  digits 4 0 (pad 4 y +:+ "-" +:+ pad 2 m +:+ "-" +:+ pad 2 d +:+ rest) ≫=
    (fun '(y, s1) => expect "-" s1 ≫= fun s2 => digits 2 0 s2 ≫=
      fun '(m, s3) => expect "-" s3 ≫= fun s4 => digits 2 0 s4 ≫=
      fun '(d, s5) => Some (y, m, d, s5))
  = Some (y mod 10 ^ 4, m mod 10 ^ 2, d mod 10 ^ 2, rest).
Proof.
  rewrite DatetimeRoundTrip.digits_pad0. cbn [mbind option_bind].
  rewrite DatetimeRoundTrip.expect_lit. cbn [mbind option_bind].
  rewrite DatetimeRoundTrip.digits_pad0. cbn [mbind option_bind].
  rewrite DatetimeRoundTrip.expect_lit. cbn [mbind option_bind].
  rewrite DatetimeRoundTrip.digits_pad0. cbn [mbind option_bind].
  reflexivity.
Qed.

End PlainForms.

Ltac read_pad := rewrite DatetimeRoundTrip.digits_pad0; cbn [mbind option_bind].
Ltac read_lit := rewrite DatetimeRoundTrip.expect_lit; cbn [mbind option_bind].
Ltac plain_done :=
  change (10 ^ Z.of_nat 4) with 10000; change (10 ^ Z.of_nat 2) with 100;
  change (10 ^ Z.of_nat 3) with 1000; change (10 ^ Z.of_nat 6) with 1000000;
  rewrite !Z.mod_small by lia; reflexivity.
Ltac read_colon :=
  rewrite (CsvRoundTrip.app_cons ":"), CsvRoundTrip.app_nil_l.

(** Each of these texts is read as the value it names, whatever valid
    date and time that is: the aggregators can compare it with the
    clock. *)
Lemma plain_timestamp_reads (s : string) (c : civil) :
  plain_timestamp s c -> valid_clock c = true ->
  PyDatetime.fromisoformat (replace_Z s) = Ok (DateTime c None) /\ naive_time s = true.
Proof.
  intros Hs Hv.
  assert (Hgoal : PyDatetime.fromisoformat (replace_Z s) = Ok (DateTime c None));
    [|split; [exact Hgoal|]; unfold naive_time; rewrite Hgoal; reflexivity].
  assert (Hf : PyDatetime.valid_fields c = true).
  { unfold valid_clock in Hv. do 6 (apply andb_prop in Hv as [Hv _]). exact Hv. }
  unfold PyDatetime.fromisoformat.
  assert (Hp : PyDatetime.parse_iso (replace_Z s) = Some (DateTime c None));
    [|rewrite Hp; cbn [fields_of]; rewrite Hf; reflexivity].
  clear Hf. unfold valid_clock, PyDatetime.valid_fields in Hv.
  destruct Hs as [y m d | y m d sep hh [Hz _] | y m d sep hh mi [Hz _]
                 | y m d sep hh mi ss [Hz _] | y m d sep hh mi ss ms [Hz _]
                 | y m d sep hh mi ss us [Hz _]];
    cbn [year month day hour minute second microsecond] in Hv;
    DatetimeShift.bools Hv;
    pose proof (PlainForms.days_in_month_le y m) as Hdim;
    repeat first [ rewrite PlainForms.replace_Z_pad
                 | rewrite PlainForms.replace_Z_lit by reflexivity
                 | rewrite (replace_Z_cons sep) by exact Hz
                 | rewrite PlainForms.replace_Z_pad_end ];
    unfold PyDatetime.parse_iso;
    read_pad; read_lit; read_pad; read_lit.
  - rewrite PlainForms.digits_pad_end. cbn [mbind option_bind]. plain_done.
  - read_pad. rewrite PlainForms.digits_pad_end. cbn [mbind option_bind].
    cbn [PyDatetime.parse_minutes PyDatetime.parse_offset mbind option_bind]. plain_done.
  - read_pad. read_pad. read_colon. cbn [PyDatetime.parse_minutes].
    rewrite PlainForms.digits_pad_end. cbn [mbind option_bind PyDatetime.parse_offset].
    plain_done.
  - read_pad. read_pad. read_colon. cbn [PyDatetime.parse_minutes].
    read_pad. read_colon. rewrite PlainForms.digits_pad_end.
    cbn [mbind option_bind PyDatetime.parse_fraction PyDatetime.parse_offset].
    plain_done.
  - read_pad. read_pad. read_colon. cbn [PyDatetime.parse_minutes].
    read_pad. read_colon. read_pad.
    rewrite (CsvRoundTrip.app_cons "."), CsvRoundTrip.app_nil_l.
    cbn [PyDatetime.parse_fraction].
    replace (PyDatetime.digits 6 0 (PyDatetime.pad 3 ms)) with (@None (Z * string))
      by (symmetry; apply (PlainForms.digits_short 3 2 ms)).
    rewrite PlainForms.digits_pad_end.
    cbn [mbind option_bind PyDatetime.parse_offset]. plain_done.
  - read_pad. read_pad. read_colon. cbn [PyDatetime.parse_minutes].
    read_pad. read_colon. read_pad.
    rewrite (CsvRoundTrip.app_cons "."), CsvRoundTrip.app_nil_l.
    cbn [PyDatetime.parse_fraction].
    rewrite PlainForms.digits_pad_end.
    cbn [mbind option_bind PyDatetime.parse_offset]. plain_done.
Qed.

(** X24. The due time [bulk_set_due_date] sends for a calendar date is
    the end of that day at the offset +08:00.  Read back by the report, it
    is a timestamp with an offset: as soon as an open task carries it,
    [generate_task_report] raises instead of returning a report. *)
Theorem bulk_due_dates_break_the_report (E : env) (ids : list string) (date : string)
    (d0 : datetime) (delay : Q) (s : state (results string (failure string))) :
  String.length date = 10%nat ->
  PyDatetime.fromisoformat date = Ok d0 ->
  let due := date +:+ "T23:59:59+08:00" in
  (exists evs, trace (BulkTaskOperations.bulk_set_due_date E ids date delay s).2
               = (trace s ++ evs)%list /\
               remote_calls evs =
                 (fun id => TaskUpdate id (UpdateBody None None None None (Some due))) <$> ids) /\
  PyDatetime.fromisoformat (replace_Z due) =
    Ok (DateTime (Civil (year (fields_of d0)) (month (fields_of d0)) (day (fields_of d0))
                        23 59 59 0) (Some 480)) /\
  (forall (E' : env) (tl : option string) (resp : response (list task)) (t : task)
          (s' : state report),
     (forall c, remote_items E' (ncalls s') c = Returned resp) ->
     t ∈ fetched resp -> FeishuTaskManager.is_open (status t) = true ->
     due_time t = Some due ->
     exists e s'', FeishuTaskManager.generate_task_report E' tl s' = (Raise e, s'')).
Proof.
  intros Hlen Hdate. cbv zeta.
  pose proof (end_of_day_parses date d0 Hlen Hdate) as Hparse.
  split; [|split; [exact Hparse|]].
  - destruct (bulk_set_due_date_calls E ids date delay s) as (l & s1 & evs & -> & Ht & Hc & _).
    exists evs. split; [exact Ht | exact Hc].
  - intros E' tl resp t s' Hr Hin Hopen Hdue.
    assert (Hne : date +:+ "T23:59:59+08:00" <> "").
    { destruct date; [discriminate Hlen|]. rewrite CsvRoundTrip.app_cons. discriminate. }
    unfold FeishuTaskManager.generate_task_report.
    destruct (report_fetch E' tl s' resp Hr) as (s1 & Hf).
    unfold mbind at 1. unfold M_bind. rewrite (run_bind _ _ _ _ _ Hf).
    unfold mbind at 1 2. unfold M_bind, bind at 1. unfold modify_locals at 1. cbv zeta.
    assert (Hbody : forall st, exists e st',
              FeishuTaskManager.report_step (PyDatetime.now E') t st = (Raise e, st')).
    { intros st.
      destruct (report_step_aware_raises E' t _ _ 480 Hopen Hdue Hne Hparse eq_refl st)
        as (e & st' & H & _). eauto. }
    match goal with |- context [bind (for_each ?l ?b) _ ?s0] =>
      destruct (for_each_raises b t Hbody l Hin s0) as (e & s2 & Hloop)
    end.
    rewrite (run_bind_raise _ _ _ _ _ Hloop). eauto.
Qed.

Lemma bulk_due_dates_break_the_report_witness :
  exists e s'',
    FeishuTaskManager.generate_task_report
      (Samples.quiet [Samples.mk_task "t_1" "todo" (Some "2026-12-24T23:59:59+08:00")] [] VNone)
      None Samples.empty_report = (Raise e, s'').
Proof.
  pose proof (bulk_due_dates_break_the_report (Samples.quiet [] [] VNone) ["t_1"] "2026-12-24"
                (DateTime (Civil 2026 12 24 0 0 0 0) None) (2 # 10) Samples.empty_ledger
                eq_refl eq_refl) as H.
  cbv zeta in H. destruct H as (_ & _ & H).
  apply (H (Samples.quiet [Samples.mk_task "t_1" "todo" (Some "2026-12-24T23:59:59+08:00")]
              [] VNone)
           None
           (Response true 0 "success"
              (Some [Samples.mk_task "t_1" "todo" (Some "2026-12-24T23:59:59+08:00")]))
           (Samples.mk_task "t_1" "todo" (Some "2026-12-24T23:59:59+08:00"))
           Samples.empty_report).
  - intros c. reflexivity.
  - apply list_elem_of_here.
  - reflexivity.
  - reflexivity.
Defined.

(** ** The command lines of the manager and of the notifier *)

Lemma init_without_credentials (E : env) (L : Type) (s : state L) :
  str_truthy (getenv E "FEISHU_APP_ID") = false \/
  str_truthy (getenv E "FEISHU_APP_SECRET") = false ->
  (exists m, FeishuTaskManager.__init__ E None None s = (Raise (Exn "ValueError" m), s) /\
             m = "App credentials required. Set FEISHU_APP_ID and FEISHU_APP_SECRET "
                 +:+ "environment variables or pass to constructor.") /\
  TaskNotifier.__init__ E None None s = (Raise (Exn "ValueError" "App credentials required"), s).
Proof.
  intros H. unfold FeishuTaskManager.__init__, TaskNotifier.__init__, or_else.
  cbn [str_truthy].
  destruct H as [-> | ->]; rewrite ?orb_true_r; cbn; eauto.
Qed.

Lemma init_with_credentials (E : env) (L : Type) (s : state L) :
  str_truthy (getenv E "FEISHU_APP_ID") = true ->
  str_truthy (getenv E "FEISHU_APP_SECRET") = true ->
  (exists c, FeishuTaskManager.__init__ E None None s = (Ok c, s)) /\
  (exists c, TaskNotifier.__init__ E None None s = (Ok c, s)).
Proof.
  intros H1 H2. unfold FeishuTaskManager.__init__, TaskNotifier.__init__, or_else.
  cbn [str_truthy]. rewrite H1, H2. cbn. eauto.
Qed.

(** X25. The notifier's command line, like the bulk tool's, exits with
    status 1 when no subcommand is given, after printing its usage; the
    manager's prints its usage and returns normally.  Without both
    credentials in the environment, each of the two prints the error of its
    constructor and exits with status 1.  No remote call is made in any of
    these cases. *)
Theorem command_line_without_command_or_credentials (E : env) (L : Type) (usage : string)
    (s : state L) :
  let printed text := State (locals s) (ncalls s) (trace s ++ [EPrint Stdout text])%list in
  TaskNotifier.main E usage TaskNotifier.NoCommand s
    = (Raise (Exn "SystemExit" "1"), printed usage) /\
  FeishuTaskManager.main E usage FeishuTaskManager.NoCommand s = (Ok tt, printed usage) /\
  (str_truthy (getenv E "FEISHU_APP_ID") = false \/
   str_truthy (getenv E "FEISHU_APP_SECRET") = false ->
   (forall args, args <> TaskNotifier.NoCommand ->
      TaskNotifier.main E usage args s
        = (Raise (Exn "SystemExit" "1"), printed "Error: App credentials required")) /\
   (forall args, args <> FeishuTaskManager.NoCommand ->
      FeishuTaskManager.main E usage args s
        = (Raise (Exn "SystemExit" "1"),
           printed ("Error: App credentials required. Set FEISHU_APP_ID and "
                    +:+ "FEISHU_APP_SECRET environment variables or pass to constructor.")))).
Proof.
  cbv zeta. split; [reflexivity|]. split; [reflexivity|].
  intros H. destruct (init_without_credentials E L s H) as ((m & Hm & ->) & Hn).
  split; intros args Hargs; destruct args; try contradiction;
    unfold TaskNotifier.main, FeishuTaskManager.main, try_except_only; unfold_py;
    rewrite ?Hm, ?Hn; reflexivity.
Qed.

Lemma command_line_without_command_or_credentials_witness :
  TaskNotifier.main (Samples.quiet [] [] VNone) "usage" (TaskNotifier.Daily None false)
    (init_state tt)
  = (Raise (Exn "SystemExit" "1"),
     State tt 0%nat [EPrint Stdout "Error: App credentials required"]).
Proof.
  pose proof (command_line_without_command_or_credentials (Samples.quiet [] [] VNone) unit
                "usage" (init_state tt)) as H.
  cbv zeta in H. destruct H as (_ & _ & H).
  destruct H as [H _]; [left; reflexivity|].
  apply H. discriminate.
Defined.



Lemma stdout_app t1 t2 : stdout (t1 ++ t2) = (stdout t1 ++ stdout t2)%list.
Proof. unfold stdout. apply omap_app. Qed.

(** X27. When the service rejects the call, the manager's subcommands
    that create, get, update, complete or delete a task, create a task list
    or add a task to one end normally after that one call and print nothing
    on standard output: the exit status does not tell the failure, and for
    a delete and for an addition to a list nothing at all is printed. *)
Theorem manager_rejected_command_ends_quietly (E : env) (L : Type) (usage : string)
    (args : FeishuTaskManager.command) (s : state L) :
  str_truthy (getenv E "FEISHU_APP_ID") = true ->
  str_truthy (getenv E "FEISHU_APP_SECRET") = true ->
  (forall c, exists k m d, remote_task E (ncalls s) c = Returned (Response false k m d)) ->
  (forall c, exists k m d, remote_tasklist E (ncalls s) c = Returned (Response false k m d)) ->
  (forall c, exists k m d, remote_unit E (ncalls s) c = Returned (Response false k m d)) ->
  acts_once args = true ->
  exists s',
    FeishuTaskManager.main E usage args s = (Ok tt, s') /\
    ncalls s' = S (ncalls s) /\
    stdout (trace s') = stdout (trace s) /\
    (match args with
     | FeishuTaskManager.CmdDelete _
     | FeishuTaskManager.CmdTasklist (FeishuTaskManager.TlAddTask _ _) =>
         exists c st, trace s' = (trace s ++ [ERemote c st])%list
     | _ => True
     end).
Proof.
  intros H1 H2 Ht Hl Hu Hargs.
  destruct (init_with_credentials E L s H1 H2) as ((c & Hc) & _).
  destruct args as [| | | | | | |[]|]; try discriminate Hargs;
    unfold FeishuTaskManager.main, try_except_only; unfold_py; rewrite Hc; cbv beta iota;
    unfold FeishuTaskManager.complete_task;
    unfold FeishuTaskManager.create_task, FeishuTaskManager.get_task,
      FeishuTaskManager.update_task,
      FeishuTaskManager.delete_task, FeishuTaskManager.create_tasklist,
      FeishuTaskManager.add_task_to_tasklist, FeishuTaskManager._handle_response;
    cbv zeta; unfold_py; cbv zeta;
    match goal with
    | |- context [remote_task E (ncalls s) ?q] => destruct (Ht q) as (k & m & d & ->)
    | |- context [remote_tasklist E (ncalls s) ?q] => destruct (Hl q) as (k & m & d & ->)
    | |- context [remote_unit E (ncalls s) ?q] => destruct (Hu q) as (k & m & d & ->)
    end;
    cbn [success negb fst snd]; unfold_py; cbn [success negb fst snd bool_decide];
    eexists; (split; [reflexivity|]); cbn [ncalls trace]; (split; [reflexivity|]);
    (split; [rewrite !stdout_app; cbn; rewrite ?app_nil_r; reflexivity|]);
    try exact I; eauto.
Qed.

Lemma manager_rejected_command_ends_quietly_witness :
  exists s',
    FeishuTaskManager.main
      (Env (fun _ _ => Samples.rejected) (fun _ _ => Samples.rejected)
           (fun _ _ => Samples.rejected) (fun _ _ => Samples.rejected)
           (environ Samples.flaky_app) Samples.noon
           (fun _ => Ok ([], None)) (fun _ => Ok (VList [])) (fun _ => None))
      "usage" (FeishuTaskManager.CmdDelete "t_1") (init_state tt) = (Ok tt, s') /\
    ncalls s' = 1%nat /\
    stdout (trace s') = stdout (trace (init_state tt)) /\
    exists c st, trace s' = (trace (init_state tt) ++ [ERemote c st])%list.
Proof.
  apply (manager_rejected_command_ends_quietly
           (Env (fun _ _ => Samples.rejected) (fun _ _ => Samples.rejected)
                (fun _ _ => Samples.rejected) (fun _ _ => Samples.rejected)
                (environ Samples.flaky_app) Samples.noon
                (fun _ => Ok ([], None)) (fun _ => Ok (VList [])) (fun _ => None))
           unit "usage" (FeishuTaskManager.CmdDelete "t_1") (init_state tt)).
  - reflexivity.
  - reflexivity.
  - intros c. do 3 eexists. reflexivity.
  - intros c. do 3 eexists. reflexivity.
  - intros c. do 3 eexists. reflexivity.
  - reflexivity.
Defined.

(** A loop that prints one line per item. *)
Lemma for_each_print {L X} (f : X -> string) (xs : list X) (s : state L) :
  for_each xs (fun x => print (f x)) s =
  (Ok tt, State (locals s) (ncalls s) (trace s ++ (EPrint Stdout <$> (f <$> xs)))%list).
Proof.
  revert s. induction xs as [|x xs IH]; intros s.
  - cbn. rewrite app_nil_r. destruct s; reflexivity.
  - cbn [for_each]. unfold bind, print, emit. rewrite IH. cbn [locals ncalls trace].
    rewrite <- app_assoc. reflexivity.
Qed.

Lemma print_report_run (L : Type) (r : report) (s : state L) :
  exists head,
    FeishuTaskManager.print_report r s =
      (Ok tt,
       State (locals s) (ncalls s)
         (trace s ++ (EPrint Stdout <$>
            (head ++
             match overdue r with
             | [] => []
             | _ => (FeishuTaskManager.nl +:+ "âš ï¸  Overdue Tasks:")
                    :: ((fun t => "  - " +:+ summary t +:+ " (Due: "
                                  +:+ fmt_opt (due_time t) +:+ ")") <$> overdue r)
             end)))%list) /\
    length head = 7%nat.
Proof.
  unfold FeishuTaskManager.print_report.
  set (n := length (overdue r)).
  eexists [_; _; _; _; _; _; _]. split; [|reflexivity].
  destruct (overdue r) as [|t ts] eqn:Ho.
  - unfold_py. unfold emit. cbn [locals ncalls trace fmap list_fmap app].
    rewrite <- !app_assoc. reflexivity.
  - pose proof (fun s0 : state L =>
                  for_each_print (fun t => "  - " +:+ summary t +:+ " (Due: "
                                           +:+ fmt_opt (due_time t) +:+ ")") (t :: ts) s0)
      as Hloop.
    unfold_py. unfold emit in *. cbv beta iota. rewrite Hloop. cbn [locals ncalls trace].
    cbn [fmap list_fmap app].
    rewrite <- !app_assoc. reflexivity.
Qed.

Lemma report_fetch_quiet (E : env) (tl : option string) (s : state report)
    (resp : response (list task)) :
  (forall c, remote_items E (ncalls s) c = Returned resp) ->
  exists s1,
    (if str_truthy tl
     then FeishuTaskManager.list_tasks_in_tasklist E (default "" tl) 100
     else FeishuTaskManager.list_my_tasks E None 100) s = (Ok (fetched resp), s1) /\
    ncalls s1 = S (ncalls s) /\ stdout (trace s1) = stdout (trace s).
Proof.
  intros Hr. unfold fetched.
  destruct (str_truthy tl);
    unfold FeishuTaskManager.list_tasks_in_tasklist, FeishuTaskManager.list_my_tasks,
      FeishuTaskManager._handle_response; unfold_py; rewrite Hr;
    destruct (success resp); cbn [negb]; unfold_py; cbv beta iota;
    eexists; (split; [reflexivity|]); cbn [ncalls trace]; (split; [reflexivity|]);
    rewrite !stdout_app; cbn; rewrite ?app_nil_r; reflexivity.
Qed.

(** A report that is returned cost one call and left standard output
    alone. *)
Lemma report_run_quiet (E : env) (tl : option string) (s s' : state report)
    (resp : response (list task)) (r : report) :
  (forall c, remote_items E (ncalls s) c = Returned resp) ->
  FeishuTaskManager.generate_task_report E tl s = (Ok r, s') ->
  ncalls s' = S (ncalls s) /\ stdout (trace s') = stdout (trace s).
Proof.
  intros Hr. unfold FeishuTaskManager.generate_task_report.
  destruct (report_fetch_quiet E tl s resp Hr) as (s1 & Hf & Hn & Hout).
  unfold mbind at 1. unfold M_bind. rewrite (run_bind _ _ _ _ _ Hf).
  unfold mbind at 1 2. unfold M_bind, bind at 1. unfold modify_locals at 1. cbv zeta.
  unfold bind.
  destruct (for_each _ _ _) as [[[]|e] s2] eqn:Hloop; [|discriminate].
  unfold get_locals. intros [= <- <-].
  eapply (for_each_ok_inv
            (fun seen st =>
               report_of (PyDatetime.now E) (length (fetched resp)) seen (locals st) /\
               ncalls st = ncalls s1 /\ trace st = trace s1))
    with (pre := []) in Hloop.
  - destruct Hloop as (_ & Hn2 & Ht2). rewrite Hn2, Ht2. auto.
  - intros pre x st st' (HI & Hn1 & Ht1) Hstep.
    destruct (report_step_ok _ _ _ _ _ _ HI Hstep) as (HI' & Hn' & Ht').
    rewrite Hn', Ht'. auto.
  - cbn. repeat split; reflexivity.
Qed.

(** X28. With the credentials set, the [report] subcommand on tasks the
    report can classify (no status string total, and the due time of an
    open task, when it has one, read without UTC offset in one of the
    forms [YYYY-MM-DD] and [YYYY-MM-DD?HH[:MM[:SS[.fff[fff]]]]]) makes one
    call and prints the report: seven lines with the total and the four
    counts, then, when some task is overdue, a heading and one line for
    each overdue task with its due time, [None] for a task that has
    none. *)
Theorem manager_report_command_prints_the_report (E : env) (L : Type) (usage : string)
    (tl : option string) (resp : response (list task)) (s : state L) :
  str_truthy (getenv E "FEISHU_APP_ID") = true ->
  str_truthy (getenv E "FEISHU_APP_SECRET") = true ->
  (forall c, remote_items E (ncalls s) c = Returned resp) ->
  Forall (fun t => classifiable t = true) (fetched resp) ->
  exists r s' lines,
    FeishuTaskManager.main E usage (FeishuTaskManager.CmdReport tl) s = (Ok tt, s') /\
    report_of (PyDatetime.now E) (length (fetched resp)) (fetched resp) r /\
    locals s' = locals s /\ ncalls s' = S (ncalls s) /\
    stdout (trace s') = (stdout (trace s) ++ lines)%list /\
    length lines = (7 + match overdue r with [] => 0 | _ => S (length (overdue r)) end)%nat /\
    (forall t, t ∈ overdue r ->
       ("  - " +:+ summary t +:+ " (Due: " +:+ fmt_opt (due_time t) +:+ ")") ∈ lines).
Proof.
  intros H1 H2 Hr Hall.
  destruct (init_with_credentials E L s H1 H2) as ((c & Hc) & _).
  unfold FeishuTaskManager.main, try_except_only. unfold_py. rewrite Hc. cbv beta iota.
  unfold scoped.
  pose (s0 := State (Report 0 [] [] [] []) (ncalls s) (trace s)).
  assert (Hr0 : forall q, remote_items E (ncalls s0) q = Returned resp) by exact Hr.
  destruct (report_total E tl s0 resp Hr0 Hall) as (r & s1 & Hrun).
  pose proof (report_lists E tl s0 s1 resp r Hr0 Hrun) as Hrep.
  destruct (report_run_quiet E tl s0 s1 resp r Hr0 Hrun) as (Hn & Hout).
  subst s0.
  cbn [ncalls trace] in Hn, Hout.
  rewrite Hrun. cbn [fst snd].
  destruct (print_report_run L r (State (locals s) (ncalls s1) (trace s1)))
    as (head & Hp & Hlen).
  rewrite Hp. cbn [locals ncalls trace].
  eexists r, _, _. split; [reflexivity|]. split; [exact Hrep|].
  cbn [locals ncalls trace].
  split; [reflexivity|]. split; [exact Hn|].
  assert (Hso : forall ls, stdout (EPrint Stdout <$> ls) = ls).
  { induction ls as [|l ls IH]; [reflexivity|]. cbn. f_equal. exact IH. }
  rewrite stdout_app, Hout, Hso.
  split; [reflexivity|]. split.
  - rewrite length_app, Hlen. destruct (overdue r); cbn [length]; [reflexivity|].
    rewrite length_fmap. reflexivity.
  - intros t Hin. apply elem_of_app. right.
    destruct (overdue r) as [|t0 ts] eqn:Ho; [inversion Hin|].
    apply elem_of_cons. right.
    apply (list_elem_of_fmap_2 (fun t => "  - " +:+ summary t +:+ " (Due: "
                                    +:+ fmt_opt (due_time t) +:+ ")")).
    exact Hin.
Qed.

Lemma manager_report_command_prints_the_report_witness :
  let E := Samples.office Samples.office_tasks in
  let resp := Response true 0 "success" (Some Samples.office_tasks) in
  exists r s' lines,
    FeishuTaskManager.main E "usage" (FeishuTaskManager.CmdReport None)
      (init_state tt) = (Ok tt, s') /\
    report_of (PyDatetime.now E) (length (fetched resp)) (fetched resp) r /\
    locals s' = locals (init_state tt) /\ ncalls s' = 1%nat /\
    stdout (trace s') = (stdout (trace (init_state tt)) ++ lines)%list /\
    length lines = (7 + match overdue r with [] => 0 | _ => S (length (overdue r)) end)%nat /\
    (forall t, t ∈ overdue r ->
       ("  - " +:+ summary t +:+ " (Due: " +:+ fmt_opt (due_time t) +:+ ")") ∈ lines).
Proof.
  cbv zeta.
  apply (manager_report_command_prints_the_report (Samples.office Samples.office_tasks)
           unit "usage" None (Response true 0 "success" (Some Samples.office_tasks))
           (init_state tt)).
  - reflexivity.
  - reflexivity.
  - intros c. reflexivity.
  - repeat constructor.
Defined.

(** The report of the office tasks lists three of the five as overdue: the
    two open tasks that are late, one of them due at a time written
    without seconds, and the task whose status string is ["overdue"]. *)
Example office_report_overdue_lines :
  let out := FeishuTaskManager.main (Samples.office Samples.office_tasks) "usage"
               (FeishuTaskManager.CmdReport None) (init_state tt) in
  out.1 = Ok tt /\
  length (stdout (trace out.2)) = 11%nat /\
  drop 8 (stdout (trace out.2)) =
    ["  - Task t_1 (Due: 2024-01-01T23:59:59)";
     "  - Task t_6 (Due: 2024-01-01T10:00)";
     "  - Task t_5 (Due: None)"].
Proof. vm_compute. repeat split; reflexivity. Qed.

Lemma stdout_prints (ls : list string) : stdout (EPrint Stdout <$> ls) = ls.
Proof. induction ls as [|l ls IH]; [reflexivity|]. cbn. f_equal. exact IH. Qed.

Lemma remote_calls_prints (ls : list string) : remote_calls (EPrint Stdout <$> ls) = [].
Proof. induction ls as [|l ls IH]; [reflexivity|]. exact IH. Qed.

(** X29. With the credentials set, the [list] subcommand makes one list
    call and prints a heading with the number of tasks and one line per
    task.  With [--due-soon] absent or 0, [--created-by-me] wins over
    [--assignee], and only when neither is given does the query ask for
    the caller's own tasks; the flag [--assigned-to-me] is never read.
    With any other value of [--due-soon], a negative one included, none of
    the other options is read: the query asks for the open tasks assigned
    to the caller that are due before the reading of the clock moved by
    that many days, when [datetime] can hold that date. *)
Theorem manager_list_command_prints_every_task (E : env) (L : Type) (usage : string)
    (assigned created : bool) (who : option string) (statuses : option (list string))
    (due : option Z) (bound : datetime) (resp : response (list task)) (s : state L) :
  str_truthy (getenv E "FEISHU_APP_ID") = true ->
  str_truthy (getenv E "FEISHU_APP_SECRET") = true ->
  (forall c, remote_items E (ncalls s) c = Returned resp) ->
  (forall days, due = Some days -> days <> 0 ->
     PyDatetime.add_days (PyDatetime.now E) days = Ok bound) ->
  let wanted := match statuses with Some (x :: xs) => Some (x :: xs) | _ => None end in
  let chosen :=
    if created then ListQuery false true None None wanted (Some 50)
    else if str_truthy who then ListQuery false false who None wanted (Some 50)
    else ListQuery true false None None wanted (Some 50) in
  let due_soon :=
    ListQuery true false None (Some (PyDatetime.isoformat bound))
              (Some ["todo"; "in_progress"]) (Some 100) in
  let query :=
    match due with
    | Some days => if days =? 0 then chosen else due_soon
    | None => chosen
    end in
  exists s',
    FeishuTaskManager.main E usage
      (FeishuTaskManager.CmdList assigned created who statuses due) s = (Ok tt, s') /\
    remote_calls (trace s') = (remote_calls (trace s) ++ [TaskList query])%list /\
    stdout (trace s') =
      (stdout (trace s)
       ++ (FeishuTaskManager.nl +:+ "Found " +:+ pretty (length (fetched resp)) +:+ " tasks:")
          :: (FeishuTaskManager.task_line true <$> fetched resp))%list.
Proof.
  intros H1 H2 Hr Hdue. cbv zeta.
  destruct (init_with_credentials E L s H1 H2) as ((c & Hc) & _).
  pose proof (fun s0 : state L =>
                for_each_print (FeishuTaskManager.task_line true) (fetched resp) s0) as Hloop.
  unfold FeishuTaskManager.main, try_except_only. unfold_py. rewrite Hc. cbv beta iota.
  assert (Hsel : (exists days, due = Some days /\ days <> 0 /\
                    match due with Some days => negb (days =? 0) | None => false end = true) \/
                 (match due with Some days => negb (days =? 0) | None => false end = false /\
                  match due with
                  | Some days => if days =? 0 then true else false
                  | None => true
                  end = true)).
  { destruct due as [days|]; [|right; split; reflexivity].
    destruct (Z.eqb_spec days 0) as [->|Hn]; [right; split; reflexivity|].
    left. exists days. split; [reflexivity|]. split; [assumption|].
    reflexivity. }
  unfold fetched in *.
  destruct Hsel as [(days & -> & Hn & Hsel) | [Hsel Hq]].
  - rewrite Hsel. cbv iota.
    apply Z.eqb_neq in Hn as Hn'. rewrite Hn'.
    unfold FeishuTaskManager.get_tasks_due_soon, FeishuTaskManager._handle_response.
    unfold_py. cbn [default]. unfold id. rewrite (Hdue days eq_refl Hn). cbv beta iota.
    rewrite Hr. cbv beta iota.
    destruct (success resp); cbn [negb]; unfold_py; unfold emit in *; cbv beta iota;
      rewrite Hloop; cbn [locals ncalls trace default];
      eexists; (split; [reflexivity|]); cbn [trace];
      rewrite !remote_calls_app, !stdout_app, ?remote_calls_prints, ?stdout_prints;
      cbn [remote_calls stdout omap list_omap app]; rewrite ?app_nil_r, <- ?app_assoc;
      cbn [app]; split; reflexivity.
  - rewrite Hsel.
    assert (Hquery : forall a b : list_query,
              match due with
              | Some days => if days =? 0 then a else b
              | None => a
              end = a).
    { intros a b. destruct due as [days|]; [|reflexivity].
      destruct (days =? 0); [reflexivity | discriminate Hq]. }
    rewrite Hquery. clear Hsel Hq Hquery Hdue.
    destruct created;
      [|destruct who as [w|]; cbn [str_truthy]; [destruct (negb (String.eqb w ""))|]];
      cbv iota;
      unfold FeishuTaskManager.list_created_by_me, FeishuTaskManager.list_tasks_by_assignee,
        FeishuTaskManager.list_my_tasks, FeishuTaskManager._handle_response;
      cbv zeta; unfold_py; cbv beta iota zeta; rewrite Hr; cbv beta iota;
      destruct (success resp); cbn [negb]; unfold_py; unfold emit in *; cbv beta iota;
      rewrite Hloop; cbn [locals ncalls trace default];
      eexists; (split; [reflexivity|]); cbn [trace];
      rewrite !remote_calls_app, !stdout_app, ?remote_calls_prints, ?stdout_prints;
      cbn [remote_calls stdout omap list_omap app]; rewrite ?app_nil_r, <- ?app_assoc;
      cbn [app];
      destruct statuses as [[|x xs]|]; split; reflexivity.
Qed.

Lemma manager_list_command_prints_every_task_witness :
  let E := Samples.office Samples.office_tasks in
  let resp := Response true 0 "success" (Some Samples.office_tasks) in
  exists s',
    FeishuTaskManager.main E "usage"
      (FeishuTaskManager.CmdList true true (Some "ou_1") (Some ["completed"]) (Some (-1)))
      (init_state tt)
    = (Ok tt, s') /\
    remote_calls (trace s') =
      (remote_calls (trace (init_state tt))
       ++ [TaskList (ListQuery true false None
                       (Some (PyDatetime.isoformat
                                (DateTime (Civil 2026 11 3 12 0 0 0) None)))
                       (Some ["todo"; "in_progress"]) (Some 100))])%list /\
    stdout (trace s') =
      (stdout (trace (init_state tt))
       ++ (FeishuTaskManager.nl +:+ "Found " +:+ pretty (length (fetched resp)) +:+ " tasks:")
          :: (FeishuTaskManager.task_line true <$> fetched resp))%list.
Proof.
  cbv zeta.
  apply (manager_list_command_prints_every_task (Samples.office Samples.office_tasks) unit
           "usage" true true (Some "ou_1") (Some ["completed"]) (Some (-1))
           (DateTime (Civil 2026 11 3 12 0 0 0) None)
           (Response true 0 "success" (Some Samples.office_tasks)) (init_state tt)).
  - reflexivity.
  - reflexivity.
  - intros c. reflexivity.
  - intros days [= <-] _. reflexivity.
Defined.

(** Without [--due-soon], the same command line asks for the tasks the
    caller created, of the status given, and lists the five it gets. *)
Example office_list_created_by_me :
  let out := FeishuTaskManager.main (Samples.office Samples.office_tasks) "usage"
               (FeishuTaskManager.CmdList true true (Some "ou_1") (Some ["completed"]) None)
               (init_state tt) in
  out.1 = Ok tt /\
  remote_calls (trace out.2) =
    [TaskList (ListQuery false true None None (Some ["completed"]) (Some 50))] /\
  length (stdout (trace out.2)) = 6%nat.
Proof. vm_compute. repeat split; reflexivity. Qed.

(** With [--due-soon -1], it asks for the caller's open tasks due before
    noon of the day before. *)
Example office_list_due_soon_negative :
  let out := FeishuTaskManager.main (Samples.office Samples.office_tasks) "usage"
               (FeishuTaskManager.CmdList true true (Some "ou_1") (Some ["completed"])
                  (Some (-1)))
               (init_state tt) in
  out.1 = Ok tt /\
  remote_calls (trace out.2) =
    [TaskList (ListQuery true false None (Some "2026-11-03T12:00:00")
                 (Some ["todo"; "in_progress"]) (Some 100))] /\
  length (stdout (trace out.2)) = 6%nat.
Proof. vm_compute. repeat split; reflexivity. Qed.

(** ** Import from CSV: what is asked for each row *)

Lemma csv_request_built (da : option string) (r : row) :
  (let body := cb_set_summary (opt_val (row_get_default r "title" "Untitled"))
                 create_builder in
   let body := if str_truthy (row_get r "description")
               then cb_set_description (opt_val (row_get r "description")) body
               else body in
   let assignee := or_else (row_get r "assignee") da in
   let body := if str_truthy assignee then cb_set_assignee (opt_val assignee) body
               else body in
   let body := if str_truthy (row_get r "due_date")
               then cb_set_due_time
                      (VStr (fmt_opt (row_get r "due_date") +:+ "T23:59:59+08:00")) body
               else body in
   body) = csv_request da r.
Proof.
  unfold csv_request. cbv zeta.
  destruct (str_truthy (row_get r "description")),
    (str_truthy (or_else (row_get r "assignee") da)),
    (str_truthy (row_get r "due_date")); reflexivity.
Qed.

Lemma import_from_csv_calls (E : env) path tl da rows err
    (s : state (results task (failure row))) :
  open_csv E path = Ok (rows, err) ->
  exists s' evs,
    (BulkTaskOperations.import_from_csv E path tl da s).2 = s' /\
    trace s' = (trace s ++ evs)%list /\
    (primary_calls evs).*1 = (fun r => TaskCreate (csv_request da r)) <$> rows.
Proof.
  intros Hopen. unfold BulkTaskOperations.import_from_csv.
  unfold mbind at 1 2 3. unfold M_bind, bind at 1 2. unfold modify_locals at 1.
  unfold lift at 1. rewrite Hopen. cbn [fst snd].
  match goal with
  | |- context [bind (for_each rows ?body) _ ?s0] =>
      destruct (for_each_inv (fun _ => True)
                  (fun pre st => exists evs,
                     trace st = (trace s ++ evs)%list /\
                     (primary_calls evs).*1 = (fun r => TaskCreate (csv_request da r)) <$> pre)
                  body)
        with (xs := rows) (pre := @nil row) (s := s0) as (s' & Hrun & evs & Ht & Hc)
  end.
  - intros pre x st _ (evs & Ht & Hc).
    pose proof (csv_request_built da x) as Hb. cbv zeta in Hb. cbv zeta. rewrite !Hb.
    clear Hb. unfold BulkTaskOperations._add_to_tasklist. unfold_py.
    change (overflows (2 # 10)) with false. change (Qle_bool 0 (2 # 10)) with true.
    cbv iota.
    assert (Hfin : forall new (st0 : state (results task (failure row))),
      trace st0 = (trace st ++ new)%list ->
      (primary_calls new).*1 = [TaskCreate (csv_request da x)] ->
      exists s1, (Ok tt, st0) = (Ok tt, s1) /\
        exists evs1, trace s1 = (trace s ++ evs1)%list /\
          (primary_calls evs1).*1 =
            (fun r => TaskCreate (csv_request da r)) <$> (pre ++ [x])%list).
    { intros new st0 Hn Hp. exists st0. split; [reflexivity|].
      exists (evs ++ new)%list. split.
      - rewrite Hn, Ht, <- app_assoc. reflexivity.
      - rewrite primary_calls_app, !fmap_app, Hc, Hp. reflexivity. }
    match goal with
    | |- context [remote_task E (ncalls st) ?c] =>
        destruct (remote_task E (ncalls st) c) as [r|e]; cbn;
          [|eapply Hfin; [trace_eq | reflexivity]]
    end.
    destruct (success r); cbn;
      [|eapply Hfin; [trace_eq | reflexivity]].
    destruct (data r) as [t|]; cbn;
      [|eapply Hfin; [trace_eq | reflexivity]].
    destruct (str_truthy tl); cbn;
      [|eapply Hfin; [trace_eq | reflexivity]].
    match goal with
    | |- context [remote_unit E ?n ?c] =>
        destruct (remote_unit E n c) as [r'|e']; cbn;
          (eapply Hfin; [trace_eq | reflexivity])
    end.
  - apply Forall_forall; auto.
  - exists []. rewrite app_nil_r. split; reflexivity.
  - exists (match err with
            | Some e => (@Raise (results task (failure row)) e, s')
            | None => (Ok (locals s'), s')
            end).2, evs.
    rewrite (run_bind _ _ _ _ _ Hrun).
    destruct err; unfold raise, get_locals; cbn [snd]; auto.
Qed.

Lemma row_get_other (r : row) (k k' : string) (v : option string) :
  k <> k' -> row_get (<[k := v]> r) k' = row_get r k' /\
             forall d, row_get_default (<[k := v]> r) k' d = row_get_default r k' d.
Proof.
  intros Hk. unfold row_get, row_get_default. rewrite lookup_insert_ne by exact Hk. auto.
Qed.

(** X30. Whatever the service does, [import_from_csv] asks for one task
    per row, in row order, and what it asks for depends on four columns
    only: the [status] column of the documented format is never read.  A
    row whose title cell is missing (a short line) is created with a null
    summary; the default title applies only when the file has no title
    column at all. *)
Theorem import_from_csv_requests (E : env) (path : string) (tl da : option string)
    (rows : list row) (err : option exn) (s : state (results task (failure row))) :
  open_csv E path = Ok (rows, err) ->
  (exists evs,
     trace (BulkTaskOperations.import_from_csv E path tl da s).2 = (trace s ++ evs)%list /\
     (primary_calls evs).*1 = (fun r => TaskCreate (csv_request da r)) <$> rows) /\
  (forall r v, csv_request da (<["status" := v]> r) = csv_request da r) /\
  (forall r, r !! "title" = Some None -> cb_summary (csv_request da r) = Some VNone) /\
  (forall r, cb_summary (csv_request da r) = Some (VStr "Untitled") <->
             r !! "title" = None \/ r !! "title" = Some (Some "Untitled")).
Proof.
  intros Hopen. split; [|split; [|split]].
  - destruct (import_from_csv_calls E path tl da rows err s Hopen) as (s' & evs & <- & Ht & Hc).
    exists evs. split; assumption.
  - intros r v. unfold csv_request. cbv zeta.
    destruct (row_get_other r "status" "title" v) as [_ ->]; [discriminate|].
    destruct (row_get_other r "status" "description" v) as [-> _]; [discriminate|].
    destruct (row_get_other r "status" "assignee" v) as [-> _]; [discriminate|].
    destruct (row_get_other r "status" "due_date" v) as [-> _]; [discriminate|].
    reflexivity.
  - intros r Hr. unfold csv_request, row_get_default. cbn [cb_summary]. rewrite Hr.
    reflexivity.
  - intros r. unfold csv_request, row_get_default. cbn [cb_summary].
    destruct (r !! "title") as [[x|]|]; cbn [opt_val]; split.
    + intros [= ->]. auto.
    + intros [H | [= ->]]; [discriminate | reflexivity].
    + discriminate.
    + intros [H | H]; discriminate.
    + auto.
    + reflexivity.
Qed.

Lemma import_from_csv_requests_witness :
  exists evs,
    trace (BulkTaskOperations.import_from_csv
             (Samples.quiet [] [ {[ "title" := None; "status" := Some "todo" ]} ] VNone)
             "tasks.csv" None (Some "ou_9") Samples.empty_ledger).2
      = (trace (@Samples.empty_ledger task (failure row)) ++ evs)%list /\
    (primary_calls evs).*1 =
      [TaskCreate (CreateBody (Some VNone) None (Some (VStr "ou_9")) None None None)].
Proof.
  destruct (import_from_csv_requests
              (Samples.quiet [] [ {[ "title" := None; "status" := Some "todo" ]} ] VNone)
              "tasks.csv" None (Some "ou_9")
              [ {[ "title" := None; "status" := Some "todo" ]} ] None Samples.empty_ledger
              eq_refl) as ((evs & Ht & Hc) & _).
  exists evs. split; [exact Ht|]. rewrite Hc. vm_compute. reflexivity.
Defined.
